(** * E2B session manager: a shallow embedding of [src/lib/e2b/session-manager.ts]

    The class [E2BSessionManager] keeps one remote sandbox per chat session in
    a JavaScript [Map], reuses it while it is neither idle for too long nor
    too old, and normalises the output of a code run into an
    [ExecutionResult].

    Modelling choices.
    - JavaScript numbers (times in milliseconds, counters) are integers [Z];
      the loss of precision of doubles above 2^53 is not modelled.
    - JavaScript strings are [string]s: a character stands for a code unit
      below 256.
    - The [Map] is an association list in insertion order, since the loops of
      the class iterate it in that order while reading the clock.
    - The outside world is an [Env]: the successive readings of the clock and
      the replies of the sandbox provider.  The code runs in a state and
      exception monad over a [World] holding the map, the number of clock
      readings taken and the requests sent to the provider.
    - An [async] method is a computation of the monad; where two calls are
      in flight at once, the method is cut at its [await] and the pieces of
      the two calls are interleaved as the event loop allows.
    - [console.log], [console.warn] and [console.error] have no effect on any
      value of the program and are left out; so are the singleton accessor
      and the timer that calls [cleanupExpiredSessions]. *)

From Stdlib Require Import ZArith List String Ascii Bool Lia.
Import ListNotations.

Local Open Scope string_scope.
Local Open Scope Z_scope.

(** ** JavaScript strings and arrays *)

Module Js.

(** [WhiteSpace] and [LineTerminator] code units below 256: TAB, LF, VT, FF,
    CR, SP and NBSP; these are what [String.prototype.trim] strips. *)
Definition isWhiteSpace (c : ascii) : bool :=
  let n := N_of_ascii c in
  ((9 <=? n)%N && (n <=? 13)%N) || (n =? 32)%N || (n =? 160)%N.

Fixpoint trimStart (s : string) : string :=
  match s with
  | EmptyString => EmptyString
  | String c r => if isWhiteSpace c then trimStart r else s
  end.

Fixpoint trimEnd (s : string) : string :=
  match s with
  | EmptyString => EmptyString
  | String c r =>
      match trimEnd r with
      | EmptyString => if isWhiteSpace c then EmptyString else String c EmptyString
      | r' => String c r'
      end
  end.

(** [String.prototype.trim] *)
Definition trim (s : string) : string := trimEnd (trimStart s).

(** [Array.prototype.join] on an array of strings *)
Fixpoint join (parts : list string) (sep : string) : string :=
  match parts with
  | [] => ""
  | [p] => p
  | p :: rest => p ++ sep ++ join rest sep
  end.

(** Truthiness of a value of type [string | undefined]: [undefined] and the
    empty string are falsy. *)
Definition truthy (v : option string) : bool :=
  match v with
  | Some (String _ _) => true
  | _ => false
  end.

(** The string read from a truthy [string | undefined]. *)
Definition str (v : option string) : string :=
  match v with Some s => s | None => "" end.

Definition LF : string := String (ascii_of_N 10) EmptyString.

(** A thrown value: an instance of [Error] with its message, or anything
    else. *)
Inductive Thrown : Type :=
| ErrorObject (message : string)
| OtherValue.

(** [error instanceof Error ? error.message : fallback] *)
Definition messageOr (fallback : string) (error : Thrown) : string :=
  match error with
  | ErrorObject message => message
  | OtherValue => fallback
  end.

End Js.

(** ** The JavaScript [Map] with string keys, in insertion order *)

Module JsMap.
Section Ops.
Context {V : Type}.

Definition t : Type := list (string * V).

Definition empty : t := [].

Fixpoint get (k : string) (m : t) : option V :=
  match m with
  | [] => None
  | (k', v) :: r => if String.eqb k k' then Some v else get k r
  end.

(** [set] keeps the position of a key already present and appends a new
    key. *)
Fixpoint set (k : string) (v : V) (m : t) : t :=
  match m with
  | [] => [(k, v)]
  | (k', v') :: r =>
      if String.eqb k k' then (k, v) :: r else (k', v') :: set k v r
  end.

Definition delete (k : string) (m : t) : t :=
  filter (fun p => negb (String.eqb k (fst p))) m.

Definition size (m : t) : Z := Z.of_nat (List.length m).

Definition keys (m : t) : list string := map fst m.

Definition values (m : t) : list V := map snd m.

End Ops.
Arguments t : clear implicits.
End JsMap.

(** ** The provider SDK, [@e2b/code-interpreter] *)

Module E2B.

(** A sandbox handle; the provider's identifier tells handles apart. *)
Record Sandbox : Type := { sandboxId : string }.

(** One structured result of a run; only the image payloads are read. *)
Record Result : Type := { png : option string; jpeg : option string }.

Record ExecutionError : Type :=
  { name : option string; value : option string; traceback : option string }.

Record Logs : Type := { stdout : list string; stderr : list string }.

Record Execution : Type :=
  { logs : Logs; results : list Result; error : option ExecutionError }.

(** A request sent to the provider. *)
Inductive Request : Type :=
| Create (timeoutMs : Z)
| RunCode (sandbox : Sandbox) (code : string)
| Kill (sandbox : Sandbox).

End E2B.

(** ** Data of the session manager *)

Record SandboxCacheEntry : Type := {
  sandbox : E2B.Sandbox;
  sandboxId : string;
  createdAt : Z;
  lastUsedAt : Z;
  executionCount : Z;
}.

Inductive ImageFormat : Type := Fpng | Fjpeg.

Record Image : Type := { format : ImageFormat; base64 : string }.

Record ExecutionResult : Type := {
  stdout : string;
  images : list Image;
  error : option string;
  executionTimeMs : Z;
}.

Record CacheStats : Type := {
  totalSessions : Z;
  activeSessions : Z;
  totalExecutions : Z;
}.

Definition SESSION_IDLE_TIMEOUT : Z := 30 * 60 * 1000.
Definition SESSION_MAX_LIFETIME : Z := 60 * 60 * 1000.

(** ** State, exceptions and the outside world *)

Inductive Outcome (A : Type) : Type :=
| Return (a : A)
| Throw (e : Js.Thrown).
Arguments Return {A} a.
Arguments Throw {A} e.

Record World : Type := {
  sandboxCache : JsMap.t SandboxCacheEntry;
  clockReads : nat;
  requests : list E2B.Request;
}.

(** The environment: [timeout] is the field read from [E2B_TIMEOUT];
    [clock n] is the [n]-th reading of the clock; a provider reply is
    chosen by the number of requests sent before it and by its arguments. *)
Record Env : Type := {
  timeout : Z;
  clock : nat -> Z;
  createReply : nat -> Outcome E2B.Sandbox;
  runCodeReply : nat -> E2B.Sandbox -> string -> Outcome E2B.Execution;
  killReply : nat -> E2B.Sandbox -> Outcome unit;
}.

Definition M (A : Type) : Type := World -> Outcome A * World.

Definition ret {A} (a : A) : M A := fun w => (Return a, w).

Definition throw {A} (e : Js.Thrown) : M A := fun w => (Throw e, w).

Definition bind {A B} (m : M A) (k : A -> M B) : M B :=
  fun w =>
    match m w with
    | (Return a, w') => k a w'
    | (Throw e, w') => (Throw e, w')
    end.

(** [try { body } catch (error) { handler }] *)
Definition tryCatch {A} (body : M A) (handler : Js.Thrown -> M A) : M A :=
  fun w =>
    match body w with
    | (Return a, w') => (Return a, w')
    | (Throw e, w') => handler e w'
    end.

Notation "x <- m ;; k" := (bind m (fun x => k))
  (at level 61, m at next level, right associativity).
Notation "m ;;; k" := (bind m (fun _ => k))
  (at level 61, right associativity).

Definition withCache (f : JsMap.t SandboxCacheEntry -> JsMap.t SandboxCacheEntry)
    (w : World) : World :=
  {| sandboxCache := f (sandboxCache w);
     clockReads := clockReads w;
     requests := requests w |}.

Definition tick (w : World) : World :=
  {| sandboxCache := sandboxCache w;
     clockReads := S (clockReads w);
     requests := requests w |}.

Definition sent (r : E2B.Request) (w : World) : World :=
  {| sandboxCache := sandboxCache w;
     clockReads := clockReads w;
     requests := (requests w ++ [r])%list |}.

(** ** The class [E2BSessionManager] *)

Section Manager.

Variable env : Env.

(** [Date.now()], and [new Date()] read as its time value *)
Definition dateNow : M Z :=
  fun w => (Return (clock env (clockReads w)), tick w).

(** [this.sandboxCache.get], [.set], [.delete] *)
Definition cacheGet (k : string) : M (option SandboxCacheEntry) :=
  fun w => (Return (JsMap.get k (sandboxCache w)), w).

Definition cacheSet (k : string) (entry : SandboxCacheEntry) : M unit :=
  fun w => (Return tt, withCache (JsMap.set k entry) w).

Definition cacheDelete (k : string) : M unit :=
  fun w => (Return tt, withCache (JsMap.delete k) w).

(** [this.sandboxCache.entries()], [.values()], [.size] *)
Definition cacheEntries : M (list (string * SandboxCacheEntry)) :=
  fun w => (Return (sandboxCache w), w).

Definition cacheValues : M (list SandboxCacheEntry) :=
  fun w => (Return (JsMap.values (sandboxCache w)), w).

Definition cacheSize : M Z :=
  fun w => (Return (JsMap.size (sandboxCache w)), w).

(** An assignment to a field of the entry object stored under [k]: the
    local [cached] is an alias of the object held by the map, so the map
    sees the new field. *)
Definition cacheMutate (k : string) (f : SandboxCacheEntry -> SandboxCacheEntry)
    : M unit :=
  fun w =>
    match JsMap.get k (sandboxCache w) with
    | Some entry => (Return tt, withCache (JsMap.set k (f entry)) w)
    | None => (Return tt, w)
    end.

(** The provider: [await Sandbox.create], [await sandbox.runCode],
    [await sandbox.kill].  Each sends its request and gets its reply. *)
Definition Sandbox_create (timeoutMs : Z) : M E2B.Sandbox :=
  fun w => (createReply env (List.length (requests w)),
            sent (E2B.Create timeoutMs) w).

Definition Sandbox_runCode (sb : E2B.Sandbox) (code : string) : M E2B.Execution :=
  fun w => (runCodeReply env (List.length (requests w)) sb code,
            sent (E2B.RunCode sb code) w).

Definition Sandbox_kill (sb : E2B.Sandbox) : M unit :=
  fun w => (killReply env (List.length (requests w)) sb,
            sent (E2B.Kill sb) w).

(** The expiry test on the two timestamps of an entry at time [now]. *)
Definition validAt (now : Z) (entry : SandboxCacheEntry) : bool :=
  let idleTime := now - lastUsedAt entry in
  let lifetime := now - createdAt entry in
  if idleTime >? SESSION_IDLE_TIMEOUT then false
  else if lifetime >? SESSION_MAX_LIFETIME then false
  else true.

Definition isSessionValid (entry : SandboxCacheEntry) : M bool :=
  now <- dateNow ;;
  ret (validAt now entry).

Definition setLastUsedAt (now : Z) (e : SandboxCacheEntry) : SandboxCacheEntry :=
  {| sandbox := sandbox e; sandboxId := sandboxId e; createdAt := createdAt e;
     lastUsedAt := now; executionCount := executionCount e |}.

Definition incrExecutionCount (e : SandboxCacheEntry) : SandboxCacheEntry :=
  {| sandbox := sandbox e; sandboxId := sandboxId e; createdAt := createdAt e;
     lastUsedAt := lastUsedAt e; executionCount := executionCount e + 1 |}.

(** The [catch] clause of [getOrCreateSandbox]. *)
Definition creationFailed {A} (error : Js.Thrown) : M A :=
  throw (Js.ErrorObject
           ("Failed to create E2B sandbox: " ++ Js.messageOr "Unknown error" error)).

(** The statements of the [try] block after [await Sandbox.create]. *)
Definition storeNewSandbox (chatSessionId : string) (sb : E2B.Sandbox)
    : M E2B.Sandbox :=
  created <- dateNow ;;
  used <- dateNow ;;
  cacheSet chatSessionId
    {| sandbox := sb; sandboxId := E2B.sandboxId sb;
       createdAt := created; lastUsedAt := used; executionCount := 1 |} ;;;
  ret sb.

Definition getOrCreateSandbox (chatSessionId : string) : M E2B.Sandbox :=
  cached <- cacheGet chatSessionId ;;
  reuse <- match cached with
           | Some entry => isSessionValid entry
           | None => ret false
           end ;;
  match cached, reuse with
  | Some entry, true =>
      now <- dateNow ;;
      cacheMutate chatSessionId (setLastUsedAt now) ;;;
      cacheMutate chatSessionId incrExecutionCount ;;;
      ret (sandbox entry)
  | _, _ =>
      tryCatch
        (sb <- Sandbox_create (timeout env) ;;
         storeNewSandbox chatSessionId sb)
        creationFailed
  end.

Definition formatError (error : E2B.ExecutionError) : string :=
  let errorParts : list string := [] in
  let errorParts :=
    if Js.truthy (E2B.name error)
    then (errorParts ++ [Js.str (E2B.name error)])%list else errorParts in
  let errorParts :=
    if Js.truthy (E2B.value error)
    then (errorParts ++ [Js.str (E2B.value error)])%list else errorParts in
  let errorParts :=
    if Js.truthy (E2B.traceback error)
    then (errorParts ++ [Js.str (E2B.traceback error)])%list else errorParts in
  Js.join errorParts Js.LF.

(** The loop [for (const result of execution.results)] pushing onto
    [images]. *)
Fixpoint extractImages (results : list E2B.Result) (images : list Image)
    : list Image :=
  match results with
  | [] => images
  | result :: rest =>
      if Js.truthy (E2B.png result) then
        extractImages rest
          (images ++ [{| format := Fpng; base64 := Js.str (E2B.png result) |}])%list
      else if Js.truthy (E2B.jpeg result) then
        extractImages rest
          (images ++ [{| format := Fjpeg; base64 := Js.str (E2B.jpeg result) |}])%list
      else extractImages rest images
  end.

(** The [ExecutionResult] built after a completed run. *)
Definition completedResult (execution : E2B.Execution) (executionTimeMs : Z)
    : ExecutionResult :=
  let stdout :=
    Js.join (E2B.stdout (E2B.logs execution)) Js.LF
    ++ Js.join (E2B.stderr (E2B.logs execution)) Js.LF in
  let images := extractImages (E2B.results execution) [] in
  let error :=
    match E2B.error execution with
    | Some e => Some (formatError e)
    | None => None
    end in
  {| stdout := Js.trim stdout; images := images; error := error;
     executionTimeMs := executionTimeMs |}.

(** The [ExecutionResult] built in the [catch] clause of [executeCode]. *)
Definition caughtResult (error : Js.Thrown) (executionTimeMs : Z)
    : ExecutionResult :=
  {| stdout := ""; images := [];
     error := Some (Js.messageOr "Unknown execution error" error);
     executionTimeMs := executionTimeMs |}.

Definition executeCode (chatSessionId code : string) : M ExecutionResult :=
  startTime <- dateNow ;;
  tryCatch
    (sb <- getOrCreateSandbox chatSessionId ;;
     execution <- Sandbox_runCode sb code ;;
     finished <- dateNow ;;
     ret (completedResult execution (finished - startTime)))
    (fun error =>
       finished <- dateNow ;;
       ret (caughtResult error (finished - startTime))).

Definition terminateSandbox (chatSessionId : string) : M unit :=
  entry <- cacheGet chatSessionId ;;
  match entry with
  | None => ret tt
  | Some entry =>
      tryCatch
        (Sandbox_kill (sandbox entry) ;;;
         cacheDelete chatSessionId)
        (fun _ => cacheDelete chatSessionId)
  end.

(** First loop of [cleanupExpiredSessions]: the ids of the entries that
    fail the expiry test, in map order. *)
Fixpoint collectExpired (entries : list (string * SandboxCacheEntry))
    (expiredSessions : list string) : M (list string) :=
  match entries with
  | [] => ret expiredSessions
  | (chatSessionId, entry) :: rest =>
      valid <- isSessionValid entry ;;
      collectExpired rest
        (if valid then expiredSessions
         else (expiredSessions ++ [chatSessionId])%list)
  end.

Fixpoint terminateAll (expiredSessions : list string) : M unit :=
  match expiredSessions with
  | [] => ret tt
  | chatSessionId :: rest =>
      terminateSandbox chatSessionId ;;; terminateAll rest
  end.

Definition cleanupExpiredSessions : M unit :=
  entries <- cacheEntries ;;
  expiredSessions <- collectExpired entries [] ;;
  terminateAll expiredSessions.

(** The loop of [getCacheStats] over [this.sandboxCache.values()]. *)
Fixpoint statsLoop (entries : list SandboxCacheEntry)
    (totalExecutions activeSessions : Z) : M (Z * Z) :=
  match entries with
  | [] => ret (totalExecutions, activeSessions)
  | entry :: rest =>
      let totalExecutions := totalExecutions + executionCount entry in
      valid <- isSessionValid entry ;;
      statsLoop rest totalExecutions
        (if valid then activeSessions + 1 else activeSessions)
  end.

Definition getCacheStats : M CacheStats :=
  entries <- cacheValues ;;
  counts <- statsLoop entries 0 0 ;;
  size <- cacheSize ;;
  ret {| totalSessions := size;
         activeSessions := snd counts;
         totalExecutions := fst counts |}.

(** *** Two calls in flight

    An [async] method runs without interruption up to an [await]; there the
    event loop may run other code before the method goes on.
    [getOrCreateSandbox] has one [await], on [Sandbox.create]: the method is
    cut there in two pieces that an interleaving can separate. *)

Inductive Resolving : Type :=
| Resolved (sb : E2B.Sandbox)
| AwaitingCreate (reply : Outcome E2B.Sandbox).

(** From the entry of the method to its return on the reuse path, or to the
    call of [Sandbox.create], whose promise settles later with [reply]. *)
Definition getOrCreateSandbox_begin (chatSessionId : string) : M Resolving :=
  cached <- cacheGet chatSessionId ;;
  reuse <- match cached with
           | Some entry => isSessionValid entry
           | None => ret false
           end ;;
  match cached, reuse with
  | Some entry, true =>
      now <- dateNow ;;
      cacheMutate chatSessionId (setLastUsedAt now) ;;;
      cacheMutate chatSessionId incrExecutionCount ;;;
      ret (Resolved (sandbox entry))
  | _, _ =>
      fun w => (Return (AwaitingCreate (createReply env (List.length (requests w)))),
                sent (E2B.Create (timeout env)) w)
  end.

(** From the settling of the promise to the end of the method. *)
Definition getOrCreateSandbox_resume (chatSessionId : string)
    (reply : Outcome E2B.Sandbox) : M E2B.Sandbox :=
  tryCatch
    (sb <- (fun w => (reply, w)) ;;
     storeNewSandbox chatSessionId sb)
    creationFailed.

Definition finish (chatSessionId : string) (r : Resolving) : M E2B.Sandbox :=
  match r with
  | Resolved sb => ret sb
  | AwaitingCreate reply => getOrCreateSandbox_resume chatSessionId reply
  end.

(** Two calls for the same session, the second entering while the first
    waits for its sandbox; [firstSettlesFirst] tells whose promise settles
    first. *)
Definition twoCallsInFlight (chatSessionId : string) (firstSettlesFirst : bool)
    : M (E2B.Sandbox * E2B.Sandbox) :=
  r1 <- getOrCreateSandbox_begin chatSessionId ;;
  r2 <- getOrCreateSandbox_begin chatSessionId ;;
  if firstSettlesFirst then
    sb1 <- finish chatSessionId r1 ;;
    sb2 <- finish chatSessionId r2 ;;
    ret (sb1, sb2)
  else
    sb2 <- finish chatSessionId r2 ;;
    sb1 <- finish chatSessionId r1 ;;
    ret (sb1, sb2).

(** *** Runs of several executions *)

Fixpoint executeAll (calls : list (string * string)) : M (list ExecutionResult) :=
  match calls with
  | [] => ret []
  | (chatSessionId, code) :: rest =>
      r <- executeCode chatSessionId code ;;
      rs <- executeAll rest ;;
      ret (r :: rs)
  end.

(** A call of [executeCode] in world [w] evicts nothing and gets its
    sandbox: the session has a valid entry, or it has no entry and the
    provider creates a sandbox.  The expiry test reads the clock just after
    [executeCode] has read it for [startTime]. *)
Definition resolvesInPlace (chatSessionId : string) (w : World) : bool :=
  match JsMap.get chatSessionId (sandboxCache w) with
  | Some entry => validAt (clock env (S (clockReads w))) entry
  | None =>
      match createReply env (List.length (requests w)) with
      | Return _ => true
      | Throw _ => false
      end
  end.

Fixpoint steadyRun (calls : list (string * string)) (w : World) : bool :=
  match calls with
  | [] => true
  | (chatSessionId, code) :: rest =>
      resolvesInPlace chatSessionId w
      && steadyRun rest (snd (executeCode chatSessionId code w))
  end.

(** The entries of the map that pass the expiry test when [getCacheStats]
    reads the clock for them: the entry at position [i] is tested at
    reading [n + i]. *)
Fixpoint activeFrom (n : nat) (entries : list SandboxCacheEntry)
    : list SandboxCacheEntry :=
  match entries with
  | [] => []
  | entry :: rest =>
      if validAt (clock env n) entry
      then entry :: activeFrom (S n) rest
      else activeFrom (S n) rest
  end.

End Manager.

(** ** Specification-side notions *)

(** The session ids of a run, each once, in the order of first use. *)
Fixpoint firstUses (seen : list string) (ids : list string) : list string :=
  match ids with
  | [] => seen
  | id :: rest =>
      if in_dec string_dec id seen then firstUses seen rest
      else firstUses (seen ++ [id])%list rest
  end.

Definition distinctSessions (calls : list (string * string)) : list string :=
  firstUses [] (map fst calls).

Definition sumZ (l : list Z) : Z := fold_right Z.add 0 l.

(** The image a result contributes, by the words of the specification: png
    when it carries a png payload, else jpeg when it carries a jpeg payload,
    else none.  A payload is carried when it is a non-empty string. *)
Definition imageOf (result : E2B.Result) : list Image :=
  if Js.truthy (E2B.png result)
  then [{| format := Fpng; base64 := Js.str (E2B.png result) |}]
  else if Js.truthy (E2B.jpeg result)
  then [{| format := Fjpeg; base64 := Js.str (E2B.jpeg result) |}]
  else [].

(** The lines of a text: the pieces between line feeds. *)
Fixpoint lines (s : string) : list string :=
  match s with
  | EmptyString => [EmptyString]
  | String c r =>
      if Ascii.eqb c (ascii_of_N 10) then EmptyString :: lines r
      else match lines r with
           | [] => [String c EmptyString]
           | l :: ls => String c l :: ls
           end
  end.

Fixpoint hasLF (s : string) : bool :=
  match s with
  | EmptyString => false
  | String c r => Ascii.eqb c (ascii_of_N 10) || hasLF r
  end.

(** The fields of an interpreter error that are present, in the order name,
    value, traceback. *)
Definition presentFields (error : E2B.ExecutionError) : list string :=
  (  (if Js.truthy (E2B.name error) then [Js.str (E2B.name error)] else [])
  ++ (if Js.truthy (E2B.value error) then [Js.str (E2B.value error)] else [])
  ++ (if Js.truthy (E2B.traceback error) then [Js.str (E2B.traceback error)] else []))%list.

(** The call of [getOrCreateSandbox] in world [w] finds no valid entry: none
    at all, or one that fails the expiry test at the reading of the clock
    taken for it. *)
Definition noValidEntry (env : Env) (chatSessionId : string) (w : World) : bool :=
  match JsMap.get chatSessionId (sandboxCache w) with
  | Some entry => negb (validAt (clock env (clockReads w)) entry)
  | None => true
  end.

(** The world after the expiry test of [getOrCreateSandbox]: the clock has
    been read once when the session has an entry. *)
Definition afterLookup (chatSessionId : string) (w : World) : World :=
  match JsMap.get chatSessionId (sandboxCache w) with
  | Some _ => tick w
  | None => w
  end.

(** The entry stored for a sandbox created at reading [n] of the clock. *)
Definition newEntry (env : Env) (sb : E2B.Sandbox) (n : nat) : SandboxCacheEntry :=
  {| sandbox := sb; sandboxId := E2B.sandboxId sb;
     createdAt := clock env n; lastUsedAt := clock env (S n);
     executionCount := 1 |}.

(** The entry of a reused sandbox, touched at time [now]. *)
Definition touched (now : Z) (entry : SandboxCacheEntry) : SandboxCacheEntry :=
  {| sandbox := sandbox entry; sandboxId := sandboxId entry;
     createdAt := createdAt entry; lastUsedAt := now;
     executionCount := executionCount entry + 1 |}.

Definition countCreates (rs : list E2B.Request) : nat :=
  List.length
    (filter (fun r => match r with E2B.Create _ => true | _ => false end) rs).

Definition killed (sb : E2B.Sandbox) (rs : list E2B.Request) : bool :=
  existsb (fun r => match r with
                    | E2B.Kill sb' => String.eqb (E2B.sandboxId sb) (E2B.sandboxId sb')
                    | _ => false
                    end) rs.

(** Every entry passes the expiry test when [getCacheStats] reads the clock
    for it, the first at reading [n]. *)
Fixpoint allValidFrom (env : Env) (n : nat) (entries : list SandboxCacheEntry) : bool :=
  match entries with
  | [] => true
  | entry :: rest => validAt (clock env n) entry && allValidFrom env (S n) rest
  end.

(** The sessions of the store are still active in world [w]. *)
Definition stillActive (env : Env) (w : World) : bool :=
  allValidFrom env (clockReads w) (JsMap.values (sandboxCache w)).

(** Single flight, by the words of the specification: of two calls in flight
    for one session that both find no valid entry, one creates the sandbox
    and the other reuses it, so one more sandbox is requested and both calls
    return the same one. *)
Definition singleFlight (env : Env) (chatSessionId : string)
    (firstSettlesFirst : bool) (w : World) : Prop :=
  noValidEntry env chatSessionId w = true ->
  noValidEntry env chatSessionId
    (snd (getOrCreateSandbox_begin env chatSessionId w)) = true ->
  exists sb w',
    twoCallsInFlight env chatSessionId firstSettlesFirst w = (Return (sb, sb), w')
    /\ countCreates (requests w') = S (countCreates (requests w)).

(** ** Concrete worlds used to run the model *)

Module Demo.

Definition sbx1 : E2B.Sandbox := {| E2B.sandboxId := "sbx-1" |}.
Definition sbx2 : E2B.Sandbox := {| E2B.sandboxId := "sbx-2" |}.
Definition sbx3 : E2B.Sandbox := {| E2B.sandboxId := "sbx-3" |}.

Definition valueError : E2B.ExecutionError :=
  {| E2B.name := Some "ValueError";
     E2B.value := Some "bad input";
     E2B.traceback := Some "line 3" |}.

(** Three artifacts: a png, a jpeg, and one with both payloads; then one
    with none. *)
Definition artifacts : list E2B.Result :=
  [ {| E2B.png := Some "P1"; E2B.jpeg := None |};
    {| E2B.png := None; E2B.jpeg := Some "J2" |};
    {| E2B.png := Some "P3"; E2B.jpeg := Some "J3" |};
    {| E2B.png := None; E2B.jpeg := None |} ].

Definition execution : E2B.Execution :=
  {| E2B.logs := {| E2B.stdout := ["out1"; "out2"]; E2B.stderr := ["err1"; "err2"] |};
     E2B.results := artifacts;
     E2B.error := Some valueError |}.

(** The provider hands out [sbx1], [sbx2], then [sbx3] for ever, by the
    number of requests it has seen; runs and kills succeed; the clock
    advances by one millisecond at each reading. *)
Definition healthy : Env :=
  {| timeout := 120000;
     clock := fun n => Z.of_nat n;
     createReply := fun n =>
       match n with
       | O => Return sbx1
       | S O => Return sbx2
       | _ => Return sbx3
       end;
     runCodeReply := fun _ _ _ => Return execution;
     killReply := fun _ _ => Return tt |}.

(** The provider refuses every request; thirty-one minutes pass between
    two readings of the clock. *)
Definition broken : Env :=
  {| timeout := 120000;
     clock := fun n => Z.of_nat n * (31 * 60 * 1000);
     createReply := fun _ => Throw (Js.ErrorObject "quota exceeded");
     runCodeReply := fun _ _ _ => Throw (Js.ErrorObject "timeout");
     killReply := fun _ _ => Throw Js.OtherValue |}.

(** Thirty-one minutes pass between two readings of the clock. *)
Definition slow : Env :=
  {| timeout := 120000;
     clock := fun n => Z.of_nat n * (31 * 60 * 1000);
     createReply := createReply healthy;
     runCodeReply := runCodeReply healthy;
     killReply := killReply healthy |}.

(** Sandboxes are created but every run times out. *)
Definition flaky : Env :=
  {| timeout := 120000;
     clock := fun n => Z.of_nat n;
     createReply := createReply healthy;
     runCodeReply := fun _ _ _ => Throw (Js.ErrorObject "timeout");
     killReply := killReply healthy |}.

Definition fresh : World :=
  {| sandboxCache := JsMap.empty; clockReads := 0; requests := [] |}.

(** A store with one entry for session ["s"], created and last used at
    time 0. *)
Definition oldEntry : SandboxCacheEntry :=
  {| sandbox := sbx1; sandboxId := "sbx-1";
     createdAt := 0; lastUsedAt := 0; executionCount := 4 |}.

Definition oneSession : World :=
  {| sandboxCache := [("s", oldEntry)]; clockReads := 1; requests := [E2B.Create 120000] |}.

End Demo.

(** ** A termination in flight

    [terminateSandbox] has one [await], on [sandbox.kill]: it is cut there in
    two pieces, as [getOrCreateSandbox] is at its creation. *)

(** From the entry of the method to its return when the session has no
    entry ([None]), or to the call of [kill], whose promise settles later
    with the reply kept. *)
Definition terminateSandbox_begin (env : Env) (chatSessionId : string)
    : M (option (Outcome unit)) :=
  entry <- cacheGet chatSessionId ;;
  match entry with
  | None => ret None
  | Some entry =>
      fun w => (Return (Some (killReply env (List.length (requests w)) (sandbox entry))),
                sent (E2B.Kill (sandbox entry)) w)
  end.

(** From the settling of the promise to the end of the method. *)
Definition terminateSandbox_resume (chatSessionId : string) (reply : Outcome unit)
    : M unit :=
  tryCatch
    ((fun w => (reply, w)) ;;;
     cacheDelete chatSessionId)
    (fun _ => cacheDelete chatSessionId).

(** A call of [getOrCreateSandbox] that arrives while a termination of the
    same session waits for the provider.  The termination runs to its
    [await]; the call runs to its return on the reuse path, or to its own
    [await] on [Sandbox.create]; then the pending promises settle, the
    creation before the release when [createSettlesFirst] and after it
    otherwise, and each task goes on from its [await].  The two are separate
    tasks: the outcome is that of the call, whatever the termination
    does. *)
Definition resolveDuringTermination (env : Env) (chatSessionId : string)
    (createSettlesFirst : bool) (w : World) : Outcome E2B.Sandbox * World :=
  let started := terminateSandbox_begin env chatSessionId w in
  match fst started with
  | Return (Some released) =>
      let resolving := getOrCreateSandbox_begin env chatSessionId (snd started) in
      match fst resolving with
      | Return (Resolved sb) =>
          (Return sb,
           snd (terminateSandbox_resume chatSessionId released (snd resolving)))
      | Return (AwaitingCreate created) =>
          if createSettlesFirst then
            let resolved :=
              getOrCreateSandbox_resume env chatSessionId created (snd resolving) in
            (fst resolved,
             snd (terminateSandbox_resume chatSessionId released (snd resolved)))
          else
            getOrCreateSandbox_resume env chatSessionId created
              (snd (terminateSandbox_resume chatSessionId released (snd resolving)))
      | Throw e => (Throw e, snd resolving)
      end
  | _ => getOrCreateSandbox env chatSessionId (snd started)
  end.

(** ** The sweep, by its effect *)

(** The entries that fail the expiry test when the sweep reads the clock for
    them, the entry at position [i] being tested at reading [n + i]; and the
    entries that pass it. *)
Fixpoint expiredFrom (env : Env) (n : nat) (entries : list (string * SandboxCacheEntry))
    : list (string * SandboxCacheEntry) :=
  match entries with
  | [] => []
  | (k, entry) :: rest =>
      if validAt (clock env n) entry
      then expiredFrom env (S n) rest
      else (k, entry) :: expiredFrom env (S n) rest
  end.

Fixpoint keptFrom (env : Env) (n : nat) (entries : list (string * SandboxCacheEntry))
    : list (string * SandboxCacheEntry) :=
  match entries with
  | [] => []
  | (k, entry) :: rest =>
      if validAt (clock env n) entry
      then (k, entry) :: keptFrom env (S n) rest
      else keptFrom env (S n) rest
  end.

Definition killOf (p : string * SandboxCacheEntry) : E2B.Request :=
  E2B.Kill (sandbox (snd p)).

(** ** Programs over the public operations

    A client of the manager calls its public methods one after the other, and
    the timer calls the sweep; a program is a list of such calls, each run to
    its end before the next starts. *)

Inductive Call : Type :=
| CallExecuteCode (chatSessionId code : string)
| CallTerminateSandbox (chatSessionId : string)
| CallCleanupExpiredSessions
| CallGetCacheStats.

Definition perform (env : Env) (c : Call) (w : World) : World :=
  match c with
  | CallExecuteCode chatSessionId code => snd (executeCode env chatSessionId code w)
  | CallTerminateSandbox chatSessionId => snd (terminateSandbox env chatSessionId w)
  | CallCleanupExpiredSessions => snd (cleanupExpiredSessions env w)
  | CallGetCacheStats => snd (getCacheStats env w)
  end.

Definition performAll (env : Env) (calls : list Call) (w : World) : World :=
  fold_left (fun w c => perform env c w) calls w.

(** An entry as the manager builds it: it counts at least one execution and
    its [sandboxId] is the identifier of its sandbox. *)
Definition entryOk (entry : SandboxCacheEntry) : Prop :=
  1 <= executionCount entry
  /\ sandboxId entry = E2B.sandboxId (sandbox entry).

Definition storeOk (w : World) : Prop :=
  NoDup (JsMap.keys (sandboxCache w))
  /\ Forall entryOk (JsMap.values (sandboxCache w)).

(** The clock never goes back. *)
Definition monotone (env : Env) : Prop :=
  forall i j, (i <= j)%nat -> clock env i <= clock env j.

(** No entry was used before it was created, nor after the next reading of
    the clock. *)
Definition timesOk (env : Env) (w : World) : Prop :=
  Forall (fun entry =>
            createdAt entry <= lastUsedAt entry
            /\ lastUsedAt entry <= clock env (clockReads w))
         (JsMap.values (sandboxCache w)).

Module Demo2.

(** A clock that starts 100 minutes after time 0 and advances by one
    millisecond per reading; the provider is the healthy one. *)
Definition later : Env :=
  {| timeout := 120000;
     clock := fun n => 100 * 60 * 1000 + Z.of_nat n;
     createReply := createReply Demo.healthy;
     runCodeReply := runCodeReply Demo.healthy;
     killReply := killReply Demo.broken |}.

(** A store with a stale session and a live one. *)
Definition staleEntry : SandboxCacheEntry :=
  {| sandbox := Demo.sbx1; sandboxId := "sbx-1";
     createdAt := 0; lastUsedAt := 0; executionCount := 2 |}.

Definition liveEntry : SandboxCacheEntry :=
  {| sandbox := Demo.sbx2; sandboxId := "sbx-2";
     createdAt := 99 * 60 * 1000; lastUsedAt := 99 * 60 * 1000;
     executionCount := 1 |}.

Definition twoSessions : World :=
  {| sandboxCache := [("old", staleEntry); ("live", liveEntry)];
     clockReads := 0;
     requests := [E2B.Create 120000; E2B.Create 120000] |}.

End Demo2.

(** ** More of JavaScript: strings, numbers read from strings, [process.env] *)

Module JsString.

(** [String.prototype.toLowerCase] on code units below 256: the letters A-Z
    and the capital letters of Latin-1 (all of U+00C0..U+00DE but the
    multiplication sign) move 32 up. *)
Definition toLowerCaseChar (c : ascii) : ascii :=
  let n := N_of_ascii c in
  if ((65 <=? n)%N && (n <=? 90)%N)
     || ((192 <=? n)%N && (n <=? 222)%N && negb (n =? 215)%N)
  then ascii_of_N (n + 32) else c.

Fixpoint toLowerCase (s : string) : string :=
  match s with
  | EmptyString => EmptyString
  | String c r => String (toLowerCaseChar c) (toLowerCase r)
  end.

(** [String.prototype.toUpperCase] on the letters a-z; the source applies it
    to the names of the providers only, which are made of these letters. *)
Definition toUpperCaseChar (c : ascii) : ascii :=
  let n := N_of_ascii c in
  if (97 <=? n)%N && (n <=? 122)%N then ascii_of_N (n - 32) else c.

Fixpoint toUpperCase (s : string) : string :=
  match s with
  | EmptyString => EmptyString
  | String c r => String (toUpperCaseChar c) (toUpperCase r)
  end.

(** [s.split(sep)] for a separator of one character: the pieces between the
    separators, one piece for the empty string. *)
Fixpoint split (sep : ascii) (s : string) : list string :=
  match s with
  | EmptyString => [EmptyString]
  | String c r =>
      if Ascii.eqb c sep then EmptyString :: split sep r
      else match split sep r with
           | [] => [String c EmptyString]
           | piece :: pieces => String c piece :: pieces
           end
  end.

(** [s.includes(c)] for a string [c] of one character. *)
Fixpoint includesChar (c : ascii) (s : string) : bool :=
  match s with
  | EmptyString => false
  | String x r => Ascii.eqb x c || includesChar c r
  end.

(** [s.startsWith(p)] *)
Definition startsWith (p s : string) : bool := String.prefix p s.

(** [a || b] on values of type [string | undefined]. *)
Definition orElse (a : option string) (b : string) : string :=
  if Js.truthy a then Js.str a else b.

Definition isDigit (c : ascii) : bool :=
  let n := N_of_ascii c in (48 <=? n)%N && (n <=? 57)%N.

(** The value of the longest prefix of decimal digits, after [acc]. *)
Fixpoint digitsValue (acc : Z) (s : string) : Z :=
  match s with
  | EmptyString => acc
  | String c r =>
      if isDigit c
      then digitsValue (10 * acc + (Z.of_N (N_of_ascii c) - 48)) r
      else acc
  end.

(** [parseInt(s, 10)]: leading white space is skipped, a sign is read, then
    the longest run of digits; [None] is NaN.  The rounding of integers
    beyond 2^53 and the sign of zero are not modelled. *)
Definition parseInt10 (s : string) : option Z :=
  let s := Js.trimStart s in
  let signed :=
    match s with
    | String c r =>
        if Ascii.eqb c "-"%char then (-1, r)
        else if Ascii.eqb c "+"%char then (1, r)
        else (1, s)
    | EmptyString => (1, s)
    end in
  match snd signed with
  | String c _ =>
      if isDigit c then Some (fst signed * digitsValue 0 (snd signed)) else None
  | EmptyString => None
  end.

(** The double quote, as a string. *)
Definition DQ : string := String (ascii_of_N 34) EmptyString.

(** [process.env]: a variable is unset or holds a string. *)
Definition ProcessEnv : Type := string -> option string.

Fixpoint envOf (vars : list (string * string)) : ProcessEnv :=
  fun k =>
    match vars with
    | [] => None
    | (k', v) :: rest => if String.eqb k k' then Some v else envOf rest k
    end.

End JsString.

(** ** The singleton and its timer

    The constructor, [getInstance], [startCleanupJob] and [stopCleanupJob],
    on the state they touch: the static field [instance], the fields read
    from the environment, and the intervals registered with the run time.
    What the interval calls when it fires is [cleanupExpiredSessions]. *)

Module Lifecycle.

Record Manager : Type := {
  apiKey : string;
  timeoutField : option Z;
  cleanupInterval : option nat;
}.

(** An interval registered by [setInterval]: its handle and its period. *)
Record Interval : Type := { handle : nat; periodMs : Z }.

Record Process : Type := {
  instance : option Manager;
  intervals : list Interval;
  nextHandle : nat;
}.

Definition boot : Process :=
  {| instance := None; intervals := []; nextHandle := 0 |}.

(** [setInterval(callback, periodMs)] *)
Definition setInterval (periodMs : Z) (p : Process) : nat * Process :=
  (nextHandle p,
   {| instance := instance p;
      intervals := (intervals p ++ [{| handle := nextHandle p; periodMs := periodMs |}])%list;
      nextHandle := S (nextHandle p) |}).

(** [clearInterval(handle)] *)
Definition clearInterval (h : nat) (p : Process) : Process :=
  {| instance := instance p;
     intervals := filter (fun i => negb (Nat.eqb (handle i) h)) (intervals p);
     nextHandle := nextHandle p |}.

(** [new E2BSessionManager()]: the constructor with [startCleanupJob]
    inlined at its end. *)
Definition construct (penv : JsString.ProcessEnv) (p : Process) : Process :=
  let apiKey := JsString.orElse (penv "E2B_API_KEY") "" in
  let timeout := JsString.parseInt10 (JsString.orElse (penv "E2B_TIMEOUT") "120000") in
  let started := setInterval (5 * 60 * 1000) p in
  {| instance := Some {| apiKey := apiKey; timeoutField := timeout;
                         cleanupInterval := Some (fst started) |};
     intervals := intervals (snd started);
     nextHandle := nextHandle (snd started) |}.

Definition getInstance (penv : JsString.ProcessEnv) (p : Process) : Process :=
  match instance p with
  | None => construct penv p
  | Some _ => p
  end.

(** [stopCleanupJob] on the instance, when there is one. *)
Definition stopCleanupJob (p : Process) : Process :=
  match instance p with
  | Some m =>
      match cleanupInterval m with
      | Some h =>
          let p' := clearInterval h p in
          {| instance := Some {| apiKey := apiKey m; timeoutField := timeoutField m;
                                 cleanupInterval := None |};
             intervals := intervals p';
             nextHandle := nextHandle p' |}
      | None => p
      end
  | None => p
  end.

Inductive Op : Type :=
| OpGetInstance (penv : JsString.ProcessEnv)
| OpStopCleanupJob.

Definition step (o : Op) (p : Process) : Process :=
  match o with
  | OpGetInstance penv => getInstance penv p
  | OpStopCleanupJob => stopCleanupJob p
  end.

Definition steps (ops : list Op) (p : Process) : Process :=
  fold_left (fun p o => step o p) ops p.

(** The intervals registered are exactly the one the instance holds. *)
Definition tidy (p : Process) : Prop :=
  match instance p with
  | None => intervals p = []
  | Some m =>
      match cleanupInterval m with
      | Some h => intervals p = [{| handle := h; periodMs := 5 * 60 * 1000 |}]
      | None => intervals p = []
      end
  end.

(** The state after [stopCleanupJob]: an instance without interval. *)
Definition stopped (p : Process) : Prop :=
  (exists m, instance p = Some m /\ cleanupInterval m = None)
  /\ intervals p = [].

End Lifecycle.

(** ** Model configuration

    The functions of the model configuration that follow the session manager
    in the same source text: choice of the provider, of the gateway strategy
    and of the model, read from [process.env]. *)

Module ModelConfig.

Import JsString.

Inductive ModelProvider : Type := anthropic | openai.

Definition providerName (p : ModelProvider) : string :=
  match p with anthropic => "anthropic" | openai => "openai" end.

Definition providerOfString (s : string) : option ModelProvider :=
  if String.eqb s "anthropic" then Some anthropic
  else if String.eqb s "openai" then Some openai
  else None.

Inductive GatewayStrategy : Type := disabled | fallback | primary | gateway_only.

(** [validStrategies.includes(strategy)], with the strategy it names. *)
Definition strategyOfString (s : string) : option GatewayStrategy :=
  if String.eqb s "disabled" then Some disabled
  else if String.eqb s "fallback" then Some fallback
  else if String.eqb s "primary" then Some primary
  else if String.eqb s "gateway-only" then Some gateway_only
  else None.

Record GatewayConfig : Type := {
  enabled : bool;
  strategy : GatewayStrategy;
  apiKey : option string;
  providerOrder : list ModelProvider;
  modelFallbacks : list string;
  enableUserTracking : bool;
  enableFeatureTags : bool;
}.

Inductive UserTier : Type := free | pay_per_use | unlimited.

Definition tierName (t : UserTier) : string :=
  match t with
  | free => "free" | pay_per_use => "pay_per_use" | unlimited => "unlimited"
  end.

Inductive Feature : Type := chat | title_generation.

Definition featureName (f : Feature) : string :=
  match f with chat => "chat" | title_generation => "title-generation" end.

Record ModelSelectionContext : Type := {
  userId : option string;
  userTier : option UserTier;
  feature : option Feature;
  isDevelopment : bool;
}.

(** What the [model] field holds: a model object of a provider SDK, the
    model wrapped for billing (what [getPolarTrackedModel] returns), or the
    identifier given to the gateway.  The SDK functions and
    [getPolarTrackedModel] are taken to return. *)
Inductive Model : Type :=
| AnthropicSdk (modelId : string)
| OpenAISdk (modelId : string)
| PolarTracked (userId modelId : string)
| GatewayId (id : string).

Record SelectedModelInfo : Type := {
  model : Model;
  description : string;
  usesGateway : bool;
  tags : option (list string);
}.

Record ModelConfig : Type := {
  provider : ModelProvider;
  primaryModel : string;
  titleModel : string;
  hasApiKey : bool;
  gateway : GatewayConfig;
  enablePromptCaching : bool;
}.

Definition isTrue (v : option string) : bool :=
  match v with Some s => String.eqb s "true" | None => false end.

Definition getModelProvider (penv : ProcessEnv) : ModelProvider :=
  let provider := option_map (fun s => Js.trim (toLowerCase s)) (penv "MODEL_PROVIDER") in
  if negb (Js.truthy provider) || String.eqb (Js.str provider) "anthropic"
  then anthropic
  else if String.eqb (Js.str provider) "openai" then openai
  else anthropic.

(** The configuration returned on the two fallback paths of
    [getGatewayConfig]. *)
Definition disabledGateway : GatewayConfig :=
  {| enabled := false; strategy := disabled; apiKey := None;
     providerOrder := []; modelFallbacks := [];
     enableUserTracking := false; enableFeatureTags := false |}.

(** [.filter(p => p === "anthropic" || p === "openai") as ModelProvider[]] *)
Fixpoint keepProviders (names : list string) : list ModelProvider :=
  match names with
  | [] => []
  | n :: rest =>
      match providerOfString n with
      | Some p => p :: keepProviders rest
      | None => keepProviders rest
      end
  end.

Definition getGatewayConfig (penv : ProcessEnv) : GatewayConfig :=
  let strategy :=
    orElse (option_map toLowerCase (penv "AI_GATEWAY_STRATEGY")) "disabled" in
  match strategyOfString strategy with
  | None => disabledGateway
  | Some strategy =>
      let enabled :=
        match strategy with disabled => false | _ => true end in
      let apiKey := penv "AI_GATEWAY_API_KEY" in
      let providerOrderStr := orElse (penv "AI_GATEWAY_PROVIDER_ORDER") "" in
      let providerOrder :=
        keepProviders
          (map (fun p => toLowerCase (Js.trim p)) (split ","%char providerOrderStr)) in
      let modelFallbacksStr := orElse (penv "AI_GATEWAY_MODEL_FALLBACKS") "" in
      let modelFallbacks :=
        filter (includesChar "/"%char)
          (map Js.trim (split ","%char modelFallbacksStr)) in
      match strategy, Js.truthy apiKey with
      | gateway_only, false => disabledGateway
      | _, _ =>
          {| enabled := enabled; strategy := strategy; apiKey := apiKey;
             providerOrder := providerOrder; modelFallbacks := modelFallbacks;
             enableUserTracking := isTrue (penv "AI_GATEWAY_ENABLE_USER_TRACKING");
             enableFeatureTags := isTrue (penv "AI_GATEWAY_ENABLE_FEATURE_TAGS") |}
      end
  end.

Definition isVercelDeployment (penv : ProcessEnv) : bool :=
  Js.truthy (penv "VERCEL") || Js.truthy (penv "VERCEL_ENV").

Definition getModelConfig (penv : ProcessEnv) : ModelConfig :=
  let provider := getModelProvider penv in
  let gateway := getGatewayConfig penv in
  let enablePromptCaching :=
    match penv "ANTHROPIC_ENABLE_PROMPT_CACHING" with
    | Some s => negb (String.eqb s "false")
    | None => true
    end in
  match provider with
  | anthropic =>
      {| provider := anthropic;
         primaryModel := "claude-sonnet-4-5-20250929";
         titleModel := "claude-3-5-haiku-20241022";
         hasApiKey := Js.truthy (penv "ANTHROPIC_API_KEY");
         gateway := gateway;
         enablePromptCaching := enablePromptCaching |}
  | openai =>
      {| provider := openai;
         primaryModel := "gpt-5";
         titleModel := "gpt-5-nano";
         hasApiKey := Js.truthy (penv "OPENAI_API_KEY");
         gateway := gateway;
         enablePromptCaching := false |}
  end.

Definition displayName (p : ModelProvider) : string :=
  match p with anthropic => "Anthropic" | openai => "OpenAI" end.

Definition selectDirectModel (modelId : string) (modelConfig : ModelConfig)
    (context : ModelSelectionContext) : Outcome SelectedModelInfo :=
  let provider := provider modelConfig in
  if negb (hasApiKey modelConfig) then
    Throw (Js.ErrorObject
             (toUpperCase (providerName provider)
              ++ "_API_KEY is required when gateway is disabled or unavailable"))
  else
    match userTier context, Js.truthy (userId context), isDevelopment context with
    | Some pay_per_use, true, false =>
        Return {| model := PolarTracked (Js.str (userId context)) modelId;
                  description :=
                    displayName provider ++ " (" ++ modelId ++ ") - Polar Tracked";
                  usesGateway := false;
                  tags := None |}
    | _, _, _ =>
        let model :=
          match provider with
          | anthropic => AnthropicSdk modelId
          | openai => OpenAISdk modelId
          end in
        Return {| model := model;
                  description :=
                    displayName provider ++ " (" ++ modelId ++ ") - Direct API";
                  usesGateway := false;
                  tags := None |}
    end.

Definition selectGatewayModel (modelId : string) (modelConfig : ModelConfig)
    (context : ModelSelectionContext) : SelectedModelInfo :=
  let provider := provider modelConfig in
  let gateway := gateway modelConfig in
  let gatewayModelId := providerName provider ++ "/" ++ modelId in
  let tags : list string := [] in
  let tags :=
    match enableFeatureTags gateway, feature context with
    | true, Some f => (tags ++ [("feature:" ++ featureName f)%string])%list
    | _, _ => tags
    end in
  let tags :=
    match enableUserTracking gateway, userTier context with
    | true, Some t => (tags ++ [("tier:" ++ tierName t)%string])%list
    | _, _ => tags
    end in
  {| model := GatewayId gatewayModelId;
     description :=
       "Vercel AI Gateway (" ++ gatewayModelId ++ ")"
       ++ (if isDevelopment context then " - Development" else "");
     usesGateway := true;
     tags := Some tags |}.

Definition selectModel (penv : ProcessEnv) (modelId : string)
    (context : ModelSelectionContext) : Outcome SelectedModelInfo :=
  let modelConfig := getModelConfig penv in
  let gateway := gateway modelConfig in
  match strategy gateway with
  | disabled => selectDirectModel modelId modelConfig context
  | gateway_only => Return (selectGatewayModel modelId modelConfig context)
  | fallback =>
      if hasApiKey modelConfig
      then selectDirectModel modelId modelConfig context
      else Return (selectGatewayModel modelId modelConfig context)
  | primary =>
      if Js.truthy (apiKey gateway) || isVercelDeployment penv
      then Return (selectGatewayModel modelId modelConfig context)
      else selectDirectModel modelId modelConfig context
  end.

(** The [context] argument of [getProviderOptions]. *)
Record OptionsContext : Type := {
  ctxUserId : option string;
  ctxUserTier : option string;
  ctxFeature : option string;
  ctxUsesGateway : option bool;
  ctxTags : option (list string);
}.

(** The [gateway] object of the options: a field is present or not. *)
Record GatewayOptions : Type := {
  order : option (list ModelProvider);
  models : option (list string);
  user : option string;
  optTags : option (list string);
}.

(** The options: the constant object of the provider, and the [gateway]
    object when there is one. *)
Record ProviderOptions : Type := {
  base : ModelProvider;
  gatewayOptions : option GatewayOptions;
}.

Definition getProviderOptions (penv : ProcessEnv) (provider : ModelProvider)
    (context : option OptionsContext) : ProviderOptions :=
  let modelConfig := getModelConfig penv in
  let gateway := gateway modelConfig in
  let usesGateway :=
    match context with
    | Some c => match ctxUsesGateway c with Some b => b | None => false end
    | None => false
    end in
  match context with
  | Some c =>
      if negb usesGateway || negb (enabled gateway) then
        {| base := provider; gatewayOptions := None |}
      else
        {| base := provider;
           gatewayOptions :=
             Some {| order :=
                       match providerOrder gateway with
                       | [] => None
                       | _ :: _ => Some (providerOrder gateway)
                       end;
                     models :=
                       match modelFallbacks gateway with
                       | [] => None
                       | _ :: _ => Some (modelFallbacks gateway)
                       end;
                     user :=
                       if enableUserTracking gateway && Js.truthy (ctxUserId c)
                       then ctxUserId c else None;
                     optTags :=
                       match ctxTags c with
                       | Some (t :: ts) => Some (t :: ts)
                       | _ => None
                       end |} |}
  | None => {| base := provider; gatewayOptions := None |}
  end.

(** The message of the error thrown by [selectDirectModel], written out for
    each provider. *)
Definition missingKeyMessage (p : ModelProvider) : string :=
  match p with
  | anthropic => "ANTHROPIC_API_KEY is required when gateway is disabled or unavailable"
  | openai => "OPENAI_API_KEY is required when gateway is disabled or unavailable"
  end.

End ModelConfig.

(** ** Validation of the environment, [src/lib/env-validation.ts] *)

Module EnvValidation.

Import JsString.

Record EnvValidationResult : Type := {
  valid : bool;
  errors : list string;
  warnings : list string;
}.

(** [if (!process.env.NAME) list.push(message)] *)
Definition pushUnless (present : bool) (message : string) (l : list string)
    : list string :=
  if present then l else (l ++ [message])%list.

(** [if (cond) list.push(message)] *)
Definition pushIf (cond : bool) (message : string) (l : list string)
    : list string :=
  if cond then (l ++ [message])%list else l.

Definition knownProvider (p : string) : bool :=
  let n := toLowerCase (Js.trim p) in
  String.eqb n "anthropic" || String.eqb n "openai"
  || String.eqb n "vertex" || String.eqb n "".

Definition validatePaymentEnvironment (penv : ProcessEnv) : EnvValidationResult :=
  let set (name : string) : bool := Js.truthy (penv name) in
  let errors : list string := [] in
  let warnings : list string := [] in
  let isDevelopment :=
    match penv "NODE_ENV" with
    | Some s => String.eqb s "development"
    | None => false
    end in
  let isProduction := negb isDevelopment in
  let errors :=
    pushUnless (set "NEXT_PUBLIC_SUPABASE_URL")
      "NEXT_PUBLIC_SUPABASE_URL is required" errors in
  let errors :=
    pushUnless (set "NEXT_PUBLIC_SUPABASE_ANON_KEY")
      "NEXT_PUBLIC_SUPABASE_ANON_KEY is required" errors in
  let errors :=
    pushUnless (set "SUPABASE_SERVICE_ROLE_KEY")
      "SUPABASE_SERVICE_ROLE_KEY is required" errors in
  let errors :=
    if isProduction then
      let errors :=
        pushUnless (set "POLAR_ACCESS_TOKEN")
          "POLAR_ACCESS_TOKEN is required in production" errors in
      let errors :=
        pushUnless (set "POLAR_WEBHOOK_SECRET")
          "POLAR_WEBHOOK_SECRET is required in production" errors in
      let errors :=
        pushUnless (set "POLAR_UNLIMITED_PRODUCT_ID")
          "POLAR_UNLIMITED_PRODUCT_ID is required in production" errors in
      pushUnless (set "POLAR_PAY_PER_USE_PRODUCT_ID")
        "POLAR_PAY_PER_USE_PRODUCT_ID is required in production" errors
    else errors in
  let warnings :=
    if isProduction then
      let warnings :=
        pushUnless (set "VALYU_API_KEY")
          "VALYU_API_KEY missing - biomedical/web search will fail" warnings in
      let warnings :=
        pushUnless (set "DAYTONA_API_KEY")
          "DAYTONA_API_KEY missing - code execution will fail" warnings in
      pushUnless (set "OPENAI_API_KEY")
        "OPENAI_API_KEY missing - will use Vercel AI Gateway" warnings
    else warnings in
  let warnings :=
    if isDevelopment then
      let warnings :=
        pushUnless (set "POLAR_ACCESS_TOKEN")
          "POLAR_ACCESS_TOKEN missing - payment testing will be limited" warnings in
      pushUnless (set "POLAR_PAY_PER_USE_PRODUCT_ID")
        "POLAR_PAY_PER_USE_PRODUCT_ID missing - cannot test pay-per-use flow" warnings
    else warnings in
  let errors :=
    pushIf (set "NEXT_PUBLIC_SUPABASE_URL"
            && negb (startsWith "https://" (Js.str (penv "NEXT_PUBLIC_SUPABASE_URL"))))
      "NEXT_PUBLIC_SUPABASE_URL must be a valid HTTPS URL" errors in
  let gatewayStrategy := option_map toLowerCase (penv "AI_GATEWAY_STRATEGY") in
  let strategyIs (name : string) : bool :=
    match gatewayStrategy with Some s => String.eqb s name | None => false end in
  let errors :=
    pushIf (strategyIs "gateway-only" && negb (set "AI_GATEWAY_API_KEY"))
      "AI_GATEWAY_API_KEY is required when AI_GATEWAY_STRATEGY=gateway-only" errors in
  let warnings :=
    pushIf (strategyIs "primary" && negb (set "AI_GATEWAY_API_KEY"))
      "AI_GATEWAY_API_KEY recommended when AI_GATEWAY_STRATEGY=primary (will use direct API as fallback)"
      warnings in
  let providerOrder :=
    match penv "AI_GATEWAY_PROVIDER_ORDER" with
    | Some s => split ","%char s
    | None => []
    end in
  let invalidProviders := filter (fun p => negb (knownProvider p)) providerOrder in
  let warnings :=
    pushIf (negb (Nat.eqb (List.length invalidProviders) 0))
      ("AI_GATEWAY_PROVIDER_ORDER contains invalid providers: "
       ++ Js.join invalidProviders ", ") warnings in
  let modelFallbacks :=
    match penv "AI_GATEWAY_MODEL_FALLBACKS" with
    | Some s => split ","%char s
    | None => []
    end in
  let invalidFallbacks :=
    filter (fun m => negb (String.eqb (Js.trim m) "") && negb (includesChar "/"%char m))
      modelFallbacks in
  let warnings :=
    pushIf (negb (Nat.eqb (List.length invalidFallbacks) 0))
      ("AI_GATEWAY_MODEL_FALLBACKS should be in format " ++ DQ ++ "provider/model"
       ++ DQ ++ ": " ++ Js.join invalidFallbacks ", ") warnings in
  {| valid := Nat.eqb (List.length errors) 0;
     errors := errors;
     warnings := warnings |}.

End EnvValidation.

(** ** Billing events, the class [PolarEventTracker]

    The constructor and [trackDarkModeSwitch].  [trackValyuAPIUsage]
    computes its amount in floating point and is left out.  An object literal is a map from keys to values; only lookups of
    keys are made on it, so the place integer-like keys take in the order of
    a JavaScript object is not modelled. *)

Module Polar.

Import JsString.

(** A value of the [metadata] object: a string, an integer, or the ISO
    string of the time read from the clock. *)
Inductive Value : Type :=
| VString (s : string)
| VNumber (n : Z)
| VIsoTime (ms : Z).

Record Event : Type := {
  name : string;
  externalCustomerId : string;
  metadata : JsMap.t Value;
}.

(** The Polar client, made from its access token. *)
Record Client : Type := { accessToken : string }.

Record Tracker : Type := {
  polar : option Client;
  isDevelopment : bool;
}.

(** What the tracker acts on: the events handed to [polar.events.ingest],
    and the readings of the clock taken. *)
Record Ledger : Type := {
  ingested : list Event;
  clockReads : nat;
}.

Record Service : Type := {
  clock : nat -> Z;
  ingestReply : nat -> Outcome unit;
}.

(** [new PolarEventTracker()] *)
Definition construct (penv : ProcessEnv) : Outcome Tracker :=
  let isDevelopment :=
    match penv "NEXT_PUBLIC_APP_MODE" with
    | Some s => String.eqb s "development"
    | None => false
    end in
  if negb isDevelopment then
    if negb (Js.truthy (penv "POLAR_ACCESS_TOKEN")) then
      Throw (Js.ErrorObject
               "Polar access token required for production event tracking")
    else
      Return {| polar := Some {| accessToken := Js.str (penv "POLAR_ACCESS_TOKEN") |};
                isDevelopment := isDevelopment |}
  else Return {| polar := None; isDevelopment := isDevelopment |}.

(** [{ ...literal, ...extra }]: the keys of [extra] are set after those of the
    literal. *)
Definition spread (literal extra : JsMap.t Value) : JsMap.t Value :=
  fold_left (fun m kv => JsMap.set (fst kv) (snd kv) m) extra literal.

(** An object literal, key after key. *)
Definition object (fields : list (string * Value)) : JsMap.t Value :=
  spread JsMap.empty fields.

Definition darkModeEvent (now : Z) (userId sessionId fromTheme toTheme : string)
    (extra : JsMap.t Value) : Event :=
  let billableAmount := 1 in
  {| name := "dark_mode_switcher";
     externalCustomerId := userId;
     metadata :=
       spread
         (object [("dark_mode_switcher", VNumber 1);
                  ("billable_amount", VNumber billableAmount);
                  ("from_theme", VString fromTheme);
                  ("to_theme", VString toTheme);
                  ("session_id", VString sessionId);
                  ("timestamp", VIsoTime now)])
         extra |}.

(** [trackDarkModeSwitch]: the outcome (it returns or throws) and the ledger
    after the call. *)
Definition trackDarkModeSwitch (svc : Service) (t : Tracker)
    (userId sessionId fromTheme toTheme : string) (extra : JsMap.t Value)
    (l : Ledger) : Outcome unit * Ledger :=
  match isDevelopment t, polar t with
  | false, Some _ =>
      if negb (Js.truthy (Some userId)) || negb (Js.truthy (Some sessionId))
      then (Return tt, l)
      else
        let now := clock svc (clockReads l) in
        let event := darkModeEvent now userId sessionId fromTheme toTheme extra in
        let l' := {| ingested := (ingested l ++ [event])%list;
                     clockReads := S (clockReads l) |} in
        match ingestReply svc (List.length (ingested l)) with
        | Return _ => (Return tt, l')
        | Throw _ => (Return tt, l')
        end
  | _, _ => (Return tt, l)
  end.

End Polar.

(** ** Strings, joins and lines *)

Lemma append_assoc (a b c : string) : (a ++ b) ++ c = a ++ (b ++ c).
Proof.
  induction a as [|x a IH]; simpl; [reflexivity | now rewrite IH].
Qed.

Lemma append_empty_r (a : string) : a ++ "" = a.
Proof.
  induction a as [|x a IH]; simpl; [reflexivity | now rewrite IH].
Qed.

Lemma join_cons (p : string) (rest : list string) (sep : string) :
  rest <> [] -> Js.join (p :: rest) sep = p ++ sep ++ Js.join rest sep.
Proof.
  destruct rest; [congruence | reflexivity].
Qed.

(** A join of two arrays glued without separator is the join of one array in
    which the last piece of the first and the first piece of the second are
    one piece. *)
Lemma join_fused (S0 : list string) (a b : string) (E0 : list string) (sep : string) :
  Js.join (S0 ++ [a])%list sep ++ Js.join (b :: E0) sep
  = Js.join (S0 ++ (a ++ b)%string :: E0)%list sep.
Proof.
  induction S0 as [|s S0 IH].
  - simpl. destruct E0 as [|e E0]; [reflexivity|].
    symmetry. apply append_assoc.
  - change ((s :: S0) ++ [a])%list with (s :: (S0 ++ [a]))%list.
    change ((s :: S0) ++ (a ++ b)%string :: E0)%list
      with (s :: (S0 ++ (a ++ b)%string :: E0))%list.
    rewrite (join_cons s (S0 ++ [a])) by (destruct S0; discriminate).
    rewrite (join_cons s (S0 ++ _ :: E0)) by (destruct S0; discriminate).
    rewrite !append_assoc. now rewrite IH.
Qed.

Lemma lines_noLF (s : string) : hasLF s = false -> lines s = [s].
Proof.
  induction s as [|c s IH]; simpl; [reflexivity|].
  intros H. apply orb_false_iff in H as [Hc Hs].
  rewrite Hc, (IH Hs). reflexivity.
Qed.

Lemma lines_append_LF (s rest : string) :
  hasLF s = false -> lines (s ++ Js.LF ++ rest) = s :: lines rest.
Proof.
  induction s as [|c s IH]; simpl; intros H.
  - reflexivity.
  - apply orb_false_iff in H as [Hc Hs].
    rewrite Hc. simpl in IH. rewrite (IH Hs). reflexivity.
Qed.

Lemma lines_join (parts : list string) :
  parts <> [] ->
  forallb (fun p => negb (hasLF p)) parts = true ->
  lines (Js.join parts Js.LF) = parts.
Proof.
  induction parts as [|p rest IH]; [congruence|].
  intros _ H. simpl in H. apply andb_true_iff in H as [Hp Hrest].
  apply negb_true_iff in Hp.
  destruct rest as [|q rest].
  - simpl. now apply lines_noLF.
  - rewrite join_cons by discriminate.
    rewrite lines_append_LF by assumption.
    f_equal. apply IH; [discriminate | assumption].
Qed.

Lemma presentFields_nonempty (e : E2B.ExecutionError) :
  Forall (fun f => f <> "") (presentFields e).
Proof.
  unfold presentFields.
  destruct e as [[[|c n]|] [[|d v]|] [[|x t]|]]; simpl;
    repeat constructor; discriminate.
Qed.

(** ** Images *)

Lemma extractImages_acc (results : list E2B.Result) (acc : list Image) :
  extractImages results acc = (acc ++ flat_map imageOf results)%list.
Proof.
  revert acc. induction results as [|r rest IH]; intros acc; simpl.
  - now rewrite app_nil_r.
  - unfold imageOf.
    destruct (Js.truthy (E2B.png r)); [|destruct (Js.truthy (E2B.jpeg r))];
      rewrite IH; simpl; rewrite <- ?app_assoc; reflexivity.
Qed.

Lemma length_flat_map_imageOf (results : list E2B.Result) :
  List.length (flat_map imageOf results)
  = List.length
      (filter (fun r => Js.truthy (E2B.png r) || Js.truthy (E2B.jpeg r)) results).
Proof.
  induction results as [|r rest IH]; simpl; [reflexivity|].
  rewrite length_app, IH. unfold imageOf.
  destruct (Js.truthy (E2B.png r)); [|destruct (Js.truthy (E2B.jpeg r))];
    reflexivity.
Qed.

(** ** The executor *)

Ltac run_monad :=
  unfold bind, tryCatch, ret, throw, dateNow, cacheGet, cacheSet, cacheDelete,
    cacheMutate, cacheEntries, cacheValues, cacheSize; cbv beta iota.

(** [executeCode] by cases on what the resolution of the sandbox and the run
    do. *)
Lemma executeCode_cases (env : Env) (chatSessionId code : string) (w : World) :
  executeCode env chatSessionId code w =
  let startTime := clock env (clockReads w) in
  match getOrCreateSandbox env chatSessionId (tick w) with
  | (Throw e, w1) =>
      (Return (caughtResult e (clock env (clockReads w1) - startTime)), tick w1)
  | (Return sb, w1) =>
      match Sandbox_runCode env sb code w1 with
      | (Throw e, w2) =>
          (Return (caughtResult e (clock env (clockReads w2) - startTime)), tick w2)
      | (Return execution, w2) =>
          (Return (completedResult execution
                     (clock env (clockReads w2) - startTime)), tick w2)
      end
  end.
Proof.
  unfold executeCode. run_monad.
  destruct (getOrCreateSandbox env chatSessionId (tick w)) as [[sb|e] w1];
    [|reflexivity].
  destruct (Sandbox_runCode env sb code w1) as [[ex|e] w2]; reflexivity.
Qed.

(** C1. [executeCode] returns an [ExecutionResult] in every world and never
    throws.  When the resolution of the sandbox throws (creation failure) or
    the run throws (execution failure, provider timeout), the result has an
    empty [stdout], no image and the message of the thrown value, or
    "Unknown execution error", in [error]; otherwise it is the normalised
    result of the run, whose [error] is the formatted interpreter-level
    error of the run when the run reports one and null when it reports
    none.  On every path [executionTimeMs] is the last reading of the clock
    minus the first. *)
Theorem executeCode_never_throws (env : Env) (chatSessionId code : string) (w : World) :
  exists r w',
    executeCode env chatSessionId code w = (Return r, w')
    /\ executionTimeMs r
       = clock env (Nat.pred (clockReads w')) - clock env (clockReads w)
    /\ match getOrCreateSandbox env chatSessionId (tick w) with
       | (Throw e, _) =>
           error r = Some (Js.messageOr "Unknown execution error" e)
           /\ stdout r = "" /\ images r = []
       | (Return sb, w1) =>
           match Sandbox_runCode env sb code w1 with
           | (Throw e, _) =>
               error r = Some (Js.messageOr "Unknown execution error" e)
               /\ stdout r = "" /\ images r = []
           | (Return execution, _) =>
               r = completedResult execution (executionTimeMs r)
               /\ error r
                  = match E2B.error execution with
                    | Some interpreterError => Some (formatError interpreterError)
                    | None => None
                    end
               /\ stdout r
                  = Js.trim (Js.join (E2B.stdout (E2B.logs execution)) Js.LF
                             ++ Js.join (E2B.stderr (E2B.logs execution)) Js.LF)
               /\ images r = extractImages (E2B.results execution) []
           end
       end.
Proof.
  rewrite executeCode_cases. cbv zeta.
  destruct (getOrCreateSandbox env chatSessionId (tick w)) as [[sb|e] w1].
  - destruct (Sandbox_runCode env sb code w1) as [[ex|e] w2];
      eexists; eexists; (split; [reflexivity|]); simpl; repeat split; reflexivity.
  - eexists; eexists; (split; [reflexivity|]); simpl; repeat split; reflexivity.
Qed.

(** A run that raises inside the interpreter: [executeCode] returns, and
    [error] holds the name, the value and the traceback of the error, one
    per line. *)
Example executeCode_interpreter_error :
  option_map error (match fst (executeCode Demo.healthy "s" "int('x')" Demo.fresh) with
                    | Return r => Some r
                    | Throw _ => None
                    end)
  = Some (Some ("ValueError" ++ Js.LF ++ "bad input" ++ Js.LF ++ "line 3")).
Proof. reflexivity. Qed.

(** With a provider that refuses to create a sandbox, and with one whose run
    times out, [executeCode] returns the message in [error]. *)
Example executeCode_broken_provider :
  fst (executeCode Demo.broken "s" "1/0" Demo.fresh)
  = Return {| stdout := ""; images := [];
              error := Some "Failed to create E2B sandbox: quota exceeded";
              executionTimeMs := 1 * (31 * 60 * 1000) |}.
Proof. reflexivity. Qed.

Example executeCode_run_timeout :
  fst (executeCode Demo.flaky "s" "while True: pass" Demo.fresh)
  = Return {| stdout := ""; images := [];
              error := Some "timeout";
              executionTimeMs := 3 |}.
Proof. reflexivity. Qed.

(** C8. [formatError] joins with line feeds the fields that are present (a
    field is present when it is a non-empty string), in the order name,
    value, traceback: it is the empty string when no field is present, and
    when no present field holds a line feed of its own the lines of the
    result are exactly the present fields, so each is on its own line, in
    that order, and no line is blank. *)
Theorem formatError_lines (e : E2B.ExecutionError) :
  formatError e = Js.join (presentFields e) Js.LF
  /\ (presentFields e = [] -> formatError e = "")
  /\ (presentFields e <> [] ->
      forallb (fun f => negb (hasLF f)) (presentFields e) = true ->
      lines (formatError e) = presentFields e
      /\ Forall (fun l => l <> "") (lines (formatError e))).
Proof.
  assert (H : formatError e = Js.join (presentFields e) Js.LF).
  { unfold formatError, presentFields.
    destruct (Js.truthy (E2B.name e)), (Js.truthy (E2B.value e)),
      (Js.truthy (E2B.traceback e)); reflexivity. }
  split; [exact H|]. split.
  - intros Hnone. rewrite H, Hnone. reflexivity.
  - intros Hsome Hlf. rewrite H, lines_join by assumption.
    split; [reflexivity | apply presentFields_nonempty].
Qed.

Lemma formatError_lines_witness :
  formatError Demo.valueError
  = "ValueError" ++ Js.LF ++ "bad input" ++ Js.LF ++ "line 3"
  /\ lines (formatError Demo.valueError) = ["ValueError"; "bad input"; "line 3"].
Proof.
  split; [reflexivity|].
  destruct (formatError_lines Demo.valueError) as (_ & _ & H).
  destruct H as [H _]; [vm_compute; discriminate | reflexivity | exact H].
Defined.

(** C9. After a completed run the [images] of the result are the images of
    the results of the run, one after the other in the order of the results:
    a result that carries a png payload gives a png image (also when it
    carries a jpeg payload too), a result that carries only a jpeg payload
    gives a jpeg image, and a result that carries neither gives none; so
    there are as many images as results carrying a payload. *)
Theorem executeCode_images (env : Env) (chatSessionId code : string) (w w1 w2 : World)
    (sb : E2B.Sandbox) (execution : E2B.Execution) :
  getOrCreateSandbox env chatSessionId (tick w) = (Return sb, w1) ->
  Sandbox_runCode env sb code w1 = (Return execution, w2) ->
  exists r w',
    executeCode env chatSessionId code w = (Return r, w')
    /\ images r = flat_map imageOf (E2B.results execution)
    /\ List.length (images r)
       = List.length
           (filter (fun x => Js.truthy (E2B.png x) || Js.truthy (E2B.jpeg x))
              (E2B.results execution))
    /\ (forall x, imageOf x =
          match Js.truthy (E2B.png x), Js.truthy (E2B.jpeg x) with
          | true, _ => [{| format := Fpng; base64 := Js.str (E2B.png x) |}]
          | false, true => [{| format := Fjpeg; base64 := Js.str (E2B.jpeg x) |}]
          | false, false => []
          end).
Proof.
  intros Hsb Hrun. rewrite executeCode_cases, Hsb, Hrun. cbv zeta.
  eexists; eexists; split; [reflexivity|].
  simpl. rewrite extractImages_acc. simpl.
  split; [reflexivity|]. split; [apply length_flat_map_imageOf|].
  intros x. unfold imageOf.
  destruct (Js.truthy (E2B.png x)), (Js.truthy (E2B.jpeg x)); reflexivity.
Qed.

Lemma executeCode_images_witness :
  exists r w',
    executeCode Demo.healthy "s" "plot()" Demo.fresh = (Return r, w')
    /\ images r = [ {| format := Fpng; base64 := "P1" |};
                    {| format := Fjpeg; base64 := "J2" |};
                    {| format := Fpng; base64 := "P3" |} ].
Proof.
  destruct (executeCode_images Demo.healthy "s" "plot()" Demo.fresh
              _ _ Demo.sbx1 Demo.execution eq_refl eq_refl)
    as (r & w' & Hrun & Himages & _).
  exists r, w'. split; [exact Hrun | exact Himages].
Defined.

(** C10. After a completed run with stdout lines [S] and stderr lines [E],
    the [stdout] of the result is the trimmed concatenation of [S] joined by
    line feeds and [E] joined by line feeds, with nothing between the two
    blocks: when [S] ends with a line [a] and [E] starts with a line [b], the
    text before trimming is the join of the lines of [S] but the last, the
    single line [a ++ b], and the lines of [E] but the first. *)
Theorem executeCode_stdout_fused (env : Env) (chatSessionId code : string)
    (w w1 w2 : World) (sb : E2B.Sandbox) (execution : E2B.Execution) :
  getOrCreateSandbox env chatSessionId (tick w) = (Return sb, w1) ->
  Sandbox_runCode env sb code w1 = (Return execution, w2) ->
  let S := E2B.stdout (E2B.logs execution) in
  let E := E2B.stderr (E2B.logs execution) in
  exists r w',
    executeCode env chatSessionId code w = (Return r, w')
    /\ stdout r = Js.trim (Js.join S Js.LF ++ Js.join E Js.LF)
    /\ (forall S0 a b E0,
          S = (S0 ++ [a])%list -> E = b :: E0 ->
          stdout r = Js.trim (Js.join (S0 ++ (a ++ b)%string :: E0)%list Js.LF)).
Proof.
  intros Hsb Hrun S E. rewrite executeCode_cases, Hsb, Hrun. cbv zeta.
  eexists; eexists; split; [reflexivity|].
  simpl. fold S E. split; [reflexivity|].
  intros S0 a b E0 HS HE. rewrite HS, HE, join_fused. reflexivity.
Qed.

Lemma executeCode_stdout_fused_witness :
  exists r w',
    executeCode Demo.healthy "s" "print()" Demo.fresh = (Return r, w')
    /\ stdout r = "out1" ++ Js.LF ++ "out2err1" ++ Js.LF ++ "err2".
Proof.
  destruct (executeCode_stdout_fused Demo.healthy "s" "print()" Demo.fresh
              _ _ Demo.sbx1 Demo.execution eq_refl eq_refl)
    as (r & w' & Hrun & _ & Hfused).
  exists r, w'. split; [exact Hrun|].
  exact (Hfused ["out1"] "out2" "err1" ["err2"] eq_refl eq_refl).
Defined.

(** ** The map *)

Module JsMapFacts.
Section Facts.
Context {V : Type}.
Implicit Types (m : JsMap.t V) (k : string) (v : V).

Lemma get_set_same k v m : JsMap.get k (JsMap.set k v m) = Some v.
Proof.
  induction m as [|[k' v'] m IH]; simpl.
  - now rewrite String.eqb_refl.
  - destruct (String.eqb k k') eqn:E; simpl; rewrite ?E, ?String.eqb_refl; auto.
Qed.

Lemma get_set_other k k' v m :
  k <> k' -> JsMap.get k' (JsMap.set k v m) = JsMap.get k' m.
Proof.
  intros Hne. induction m as [|[k0 v0] m IH]; simpl.
  - destruct (String.eqb_spec k' k); congruence.
  - destruct (String.eqb_spec k k0) as [->|Hk]; simpl.
    + destruct (String.eqb_spec k' k0); congruence.
    + now rewrite IH.
Qed.

Lemma set_set k v v' m : JsMap.set k v' (JsMap.set k v m) = JsMap.set k v' m.
Proof.
  induction m as [|[k0 v0] m IH]; simpl.
  - now rewrite String.eqb_refl.
  - destruct (String.eqb k k0) eqn:E; simpl; rewrite ?E, ?String.eqb_refl, ?IH; auto.
Qed.

Lemma set_absent k v m :
  JsMap.get k m = None -> JsMap.set k v m = (m ++ [(k, v)])%list.
Proof.
  induction m as [|[k0 v0] m IH]; simpl; [reflexivity|].
  destruct (String.eqb k k0); [discriminate|].
  intros H. now rewrite IH.
Qed.

Lemma keys_set_present k v v0 m :
  JsMap.get k m = Some v0 -> JsMap.keys (JsMap.set k v m) = JsMap.keys m.
Proof.
  unfold JsMap.keys.
  induction m as [|[k1 v1] m IH]; simpl; [discriminate|].
  destruct (String.eqb_spec k k1) as [->|Hk]; simpl; [reflexivity|].
  intros H. f_equal. now apply IH.
Qed.

Lemma get_delete_same k m : JsMap.get k (JsMap.delete k m) = None.
Proof.
  unfold JsMap.delete.
  induction m as [|[k0 v0] m IH]; simpl; [reflexivity|].
  destruct (String.eqb k k0) eqn:E; simpl; rewrite ?E; auto.
Qed.

Lemma get_delete_other k k' m :
  k <> k' -> JsMap.get k' (JsMap.delete k m) = JsMap.get k' m.
Proof.
  intros Hne. unfold JsMap.delete.
  induction m as [|[k0 v0] m IH]; simpl; [reflexivity|].
  destruct (String.eqb_spec k k0) as [->|Hk]; simpl.
  - destruct (String.eqb_spec k' k0); congruence.
  - now rewrite IH.
Qed.

Lemma delete_absent k m : JsMap.get k m = None -> JsMap.delete k m = m.
Proof.
  unfold JsMap.delete.
  induction m as [|[k0 v0] m IH]; simpl; [reflexivity|].
  destruct (String.eqb k k0); simpl; [discriminate|].
  intros H. now rewrite IH.
Qed.

Lemma keys_set k v m :
  JsMap.keys (JsMap.set k v m)
  = if in_dec string_dec k (JsMap.keys m)
    then JsMap.keys m else (JsMap.keys m ++ [k])%list.
Proof.
  unfold JsMap.keys.
  induction m as [|[k0 v0] m IH]; simpl; [reflexivity|].
  destruct (String.eqb_spec k k0) as [->|Hk]; simpl.
  - destruct (string_dec k0 k0); [reflexivity | congruence].
  - rewrite IH. destruct (string_dec k0 k); [congruence|].
    destruct (in_dec string_dec k (map fst m)); reflexivity.
Qed.

(** Keys stay unique, as they are in a [Map]. *)
Lemma set_NoDup k v m : NoDup (JsMap.keys m) -> NoDup (JsMap.keys (JsMap.set k v m)).
Proof.
  intros Hnd. rewrite keys_set.
  destruct (in_dec string_dec k (JsMap.keys m)) as [Hin|Hnot]; [exact Hnd|].
  apply NoDup_app; [exact Hnd | repeat constructor; intros [] |].
  intros x Hx [<-|[]]. contradiction.
Qed.

Lemma delete_NoDup k m : NoDup (JsMap.keys m) -> NoDup (JsMap.keys (JsMap.delete k m)).
Proof.
  unfold JsMap.keys, JsMap.delete.
  induction m as [|[k0 v0] m IH]; simpl; [trivial|].
  intros Hnd. inversion Hnd as [|? ? Hnot Hrest]; subst.
  destruct (String.eqb k k0); simpl; [now apply IH|].
  constructor; [|now apply IH].
  intros Hin. apply Hnot. apply in_map_iff in Hin as (p & Hp & Hf).
  apply filter_In in Hf as [Hf _]. apply in_map_iff. now exists p.
Qed.

Lemma get_None_not_In k m : JsMap.get k m = None <-> ~ In k (JsMap.keys m).
Proof.
  induction m as [|[k0 v0] m IH]; simpl; [tauto|].
  destruct (String.eqb_spec k k0) as [->|Hk].
  - split; [discriminate | tauto].
  - rewrite IH. unfold JsMap.keys. split; [intros H [E|HI]; congruence | tauto].
Qed.

End Facts.
End JsMapFacts.

(** ** Resolution of a sandbox *)

(** The reuse path of [getOrCreateSandbox]. *)
Lemma getOrCreateSandbox_reuse (env : Env) (chatSessionId : string) (w : World)
    (entry : SandboxCacheEntry) :
  JsMap.get chatSessionId (sandboxCache w) = Some entry ->
  validAt (clock env (clockReads w)) entry = true ->
  getOrCreateSandbox env chatSessionId w =
  (Return (sandbox entry),
   {| sandboxCache :=
        JsMap.set chatSessionId
          (touched (clock env (S (clockReads w))) entry) (sandboxCache w);
      clockReads := S (S (clockReads w));
      requests := requests w |}).
Proof.
  intros Hget Hvalid.
  unfold getOrCreateSandbox, isSessionValid. run_monad.
  rewrite Hget. cbv beta iota. rewrite Hvalid. simpl.
  rewrite Hget. simpl. rewrite JsMapFacts.get_set_same.
  unfold withCache. simpl. rewrite JsMapFacts.set_set. reflexivity.
Qed.

(** The creation path of [getOrCreateSandbox]. *)
Lemma getOrCreateSandbox_create (env : Env) (chatSessionId : string) (w : World) :
  noValidEntry env chatSessionId w = true ->
  getOrCreateSandbox env chatSessionId w =
  let w0 := afterLookup chatSessionId w in
  match createReply env (List.length (requests w)) with
  | Return sb =>
      (Return sb,
       {| sandboxCache :=
            JsMap.set chatSessionId (newEntry env sb (clockReads w0)) (sandboxCache w);
          clockReads := S (S (clockReads w0));
          requests := (requests w ++ [E2B.Create (timeout env)])%list |})
  | Throw e =>
      (Throw (Js.ErrorObject
                ("Failed to create E2B sandbox: " ++ Js.messageOr "Unknown error" e)),
       {| sandboxCache := sandboxCache w;
          clockReads := clockReads w0;
          requests := (requests w ++ [E2B.Create (timeout env)])%list |})
  end.
Proof.
  unfold noValidEntry, afterLookup. intros Hno.
  unfold getOrCreateSandbox, isSessionValid, storeNewSandbox, creationFailed,
    Sandbox_create.
  run_monad.
  destruct (JsMap.get chatSessionId (sandboxCache w)) as [entry|] eqn:Hget;
    cbv beta iota.
  - apply negb_true_iff in Hno. rewrite Hno. simpl.
    destruct (createReply env (List.length (requests w))); reflexivity.
  - simpl. destruct (createReply env (List.length (requests w))); reflexivity.
Qed.

Lemma validAt_true_iff (now : Z) (entry : SandboxCacheEntry) :
  validAt now entry = true
  <-> now - lastUsedAt entry <= 30 * 60 * 1000
      /\ now - createdAt entry <= 60 * 60 * 1000.
Proof.
  unfold validAt, SESSION_IDLE_TIMEOUT, SESSION_MAX_LIFETIME.
  destruct (Z.gtb_spec (now - lastUsedAt entry) (30 * 60 * 1000));
    [split; [discriminate | lia]|].
  destruct (Z.gtb_spec (now - createdAt entry) (60 * 60 * 1000));
    [split; [discriminate | lia]|].
  split; [lia | reflexivity].
Qed.

Lemma validAt_false_iff (now : Z) (entry : SandboxCacheEntry) :
  validAt now entry = false
  <-> now - lastUsedAt entry > 30 * 60 * 1000
      \/ now - createdAt entry > 60 * 60 * 1000.
Proof.
  destruct (validAt now entry) eqn:E.
  - apply validAt_true_iff in E. split; [discriminate | lia].
  - split; [intros _ | reflexivity].
    destruct (Z_le_gt_dec (now - lastUsedAt entry) (30 * 60 * 1000)); [|lia].
    destruct (Z_le_gt_dec (now - createdAt entry) (60 * 60 * 1000)); [|lia].
    assert (validAt now entry = true) by (apply validAt_true_iff; lia).
    congruence.
Qed.

(** C2. Let [now] be the reading of the clock taken by the expiry test.  If
    the store holds an entry for the session whose idle time
    [now - lastUsedAt] is at most 30 minutes and whose age [now - createdAt]
    is at most 60 minutes, [getOrCreateSandbox] returns the sandbox of that
    entry, sends nothing to the provider, and leaves in the store the same
    entry with [lastUsedAt] set to the time read just after the test and
    [executionCount] one higher.  Otherwise (no entry, or one too idle or too
    old) it asks the provider for a sandbox and, when the provider gives one,
    stores under the session id a fresh entry for it with [executionCount] 1,
    in place of any previous entry, and returns the new sandbox; the fresh
    entry is stamped with the two readings of the clock that follow the
    lookup.  Entries of
    other sessions are untouched in both cases. *)
Theorem getOrCreateSandbox_resolves (env : Env) (chatSessionId : string) (w : World) :
  let now := clock env (clockReads w) in
  (forall entry,
      JsMap.get chatSessionId (sandboxCache w) = Some entry ->
      now - lastUsedAt entry <= 30 * 60 * 1000 ->
      now - createdAt entry <= 60 * 60 * 1000 ->
      exists w',
        getOrCreateSandbox env chatSessionId w = (Return (sandbox entry), w')
        /\ requests w' = requests w
        /\ JsMap.get chatSessionId (sandboxCache w')
           = Some {| sandbox := sandbox entry; sandboxId := sandboxId entry;
                     createdAt := createdAt entry;
                     lastUsedAt := clock env (S (clockReads w));
                     executionCount := executionCount entry + 1 |}
        /\ JsMap.keys (sandboxCache w') = JsMap.keys (sandboxCache w)
        /\ (forall k, k <> chatSessionId ->
              JsMap.get k (sandboxCache w') = JsMap.get k (sandboxCache w)))
  /\
  ((JsMap.get chatSessionId (sandboxCache w) = None
    \/ exists entry,
         JsMap.get chatSessionId (sandboxCache w) = Some entry
         /\ (now - lastUsedAt entry > 30 * 60 * 1000
             \/ now - createdAt entry > 60 * 60 * 1000)) ->
   forall sb,
     createReply env (List.length (requests w)) = Return sb ->
     let created := clockReads (afterLookup chatSessionId w) in
     exists w',
       getOrCreateSandbox env chatSessionId w = (Return sb, w')
       /\ requests w' = (requests w ++ [E2B.Create (timeout env)])%list
       /\ JsMap.get chatSessionId (sandboxCache w')
          = Some {| sandbox := sb; sandboxId := E2B.sandboxId sb;
                    createdAt := clock env created;
                    lastUsedAt := clock env (S created);
                    executionCount := 1 |}
       /\ (forall k, k <> chatSessionId ->
             JsMap.get k (sandboxCache w') = JsMap.get k (sandboxCache w))).
Proof.
  intros now. split.
  - intros entry Hget Hidle Hage.
    assert (Hvalid : validAt now entry = true) by (apply validAt_true_iff; lia).
    rewrite (getOrCreateSandbox_reuse env chatSessionId w entry Hget Hvalid).
    eexists. split; [reflexivity|]. simpl.
    split; [reflexivity|].
    split; [apply JsMapFacts.get_set_same|].
    split; [now apply JsMapFacts.keys_set_present with (v0 := entry)|].
    intros k Hk. apply JsMapFacts.get_set_other. congruence.
  - intros Hno sb Hreply.
    assert (Hnv : noValidEntry env chatSessionId w = true).
    { unfold noValidEntry. destruct Hno as [-> | (entry & -> & Hexp)]; [reflexivity|].
      apply negb_true_iff, validAt_false_iff. exact Hexp. }
    rewrite (getOrCreateSandbox_create env chatSessionId w Hnv), Hreply. cbv zeta.
    eexists. split; [reflexivity|]. simpl.
    split; [reflexivity|].
    split; [apply JsMapFacts.get_set_same|].
    intros k Hk. apply JsMapFacts.get_set_other. congruence.
Qed.

Lemma getOrCreateSandbox_resolves_witness :
  (exists w',
      getOrCreateSandbox Demo.healthy "s" Demo.oneSession = (Return Demo.sbx1, w')
      /\ requests w' = requests Demo.oneSession
      /\ JsMap.get "s" (sandboxCache w')
         = Some {| sandbox := Demo.sbx1; sandboxId := "sbx-1"; createdAt := 0;
                   lastUsedAt := 2; executionCount := 5 |})
  /\ (exists w',
        getOrCreateSandbox Demo.slow "s" Demo.oneSession = (Return Demo.sbx2, w')
        /\ JsMap.get "s" (sandboxCache w')
           = Some {| sandbox := Demo.sbx2; sandboxId := "sbx-2";
                     createdAt := 2 * (31 * 60 * 1000);
                     lastUsedAt := 3 * (31 * 60 * 1000);
                     executionCount := 1 |}).
Proof.
  split.
  - destruct (getOrCreateSandbox_resolves Demo.healthy "s" Demo.oneSession)
      as [Hreuse _].
    destruct (Hreuse Demo.oldEntry eq_refl) as (w' & Hrun & Hreq & Hget & _);
      [vm_compute; discriminate | vm_compute; discriminate |].
    exists w'. repeat split; assumption.
  - destruct (getOrCreateSandbox_resolves Demo.slow "s" Demo.oneSession)
      as [_ Hcreate].
    destruct (Hcreate
                (or_intror (ex_intro _ Demo.oldEntry
                              (conj eq_refl (or_introl eq_refl))))
                Demo.sbx2 eq_refl)
      as (w' & Hrun & _ & Hget & _).
    exists w'. split; [exact Hrun | exact Hget].
Defined.

(** C6. [getOrCreateSandbox] throws only when the provider fails to create
    the sandbox, and then it throws one [Error] whose message is
    "Failed to create E2B sandbox: " followed by the message of the cause (or
    "Unknown error"), and the store after the call is the store before it.
    Conversely, when the call finds no valid entry and the provider fails,
    the call does throw that error. *)
Theorem getOrCreateSandbox_creation_failure (env : Env) (chatSessionId : string)
    (w : World) :
  (forall e w',
      getOrCreateSandbox env chatSessionId w = (Throw e, w') ->
      sandboxCache w' = sandboxCache w
      /\ exists cause,
           createReply env (List.length (requests w)) = Throw cause
           /\ e = Js.ErrorObject
                    ("Failed to create E2B sandbox: "
                     ++ Js.messageOr "Unknown error" cause))
  /\ (forall cause,
        noValidEntry env chatSessionId w = true ->
        createReply env (List.length (requests w)) = Throw cause ->
        exists w',
          getOrCreateSandbox env chatSessionId w
          = (Throw (Js.ErrorObject
                      ("Failed to create E2B sandbox: "
                       ++ Js.messageOr "Unknown error" cause)), w')
          /\ sandboxCache w' = sandboxCache w).
Proof.
  split.
  - intros e w' Hthrow.
    destruct (noValidEntry env chatSessionId w) eqn:Hno.
    + rewrite (getOrCreateSandbox_create env chatSessionId w Hno) in Hthrow.
      cbv zeta in Hthrow.
      destruct (createReply env (List.length (requests w))) as [sb|cause];
        [discriminate|].
      injection Hthrow as <- <-. split; [reflexivity|].
      exists cause. split; reflexivity.
    + unfold noValidEntry in Hno.
      destruct (JsMap.get chatSessionId (sandboxCache w)) as [entry|] eqn:Hget;
        [|discriminate].
      apply negb_false_iff in Hno.
      rewrite (getOrCreateSandbox_reuse env chatSessionId w entry Hget Hno) in Hthrow.
      discriminate.
  - intros cause Hno Hreply.
    rewrite (getOrCreateSandbox_create env chatSessionId w Hno), Hreply.
    eexists. split; reflexivity.
Qed.

Lemma getOrCreateSandbox_creation_failure_witness :
  exists w',
    getOrCreateSandbox Demo.broken "s" Demo.oneSession
    = (Throw (Js.ErrorObject "Failed to create E2B sandbox: quota exceeded"), w')
    /\ sandboxCache w' = sandboxCache Demo.oneSession.
Proof.
  destruct (getOrCreateSandbox_creation_failure Demo.broken "s" Demo.oneSession)
    as [Honly Hthrows].
  destruct (Hthrows (Js.ErrorObject "quota exceeded") eq_refl eq_refl)
    as (w' & Hrun & Hstore).
  destruct (Honly _ _ Hrun) as [Hsame _].
  exists w'. split; [exact Hrun | exact Hsame].
Defined.

(** ** Termination *)

Lemma terminateSandbox_absent (env : Env) (chatSessionId : string) (w : World) :
  JsMap.get chatSessionId (sandboxCache w) = None ->
  terminateSandbox env chatSessionId w = (Return tt, w).
Proof.
  intros Hget. unfold terminateSandbox. run_monad. now rewrite Hget.
Qed.

Lemma terminateSandbox_present (env : Env) (chatSessionId : string) (w : World)
    (entry : SandboxCacheEntry) :
  JsMap.get chatSessionId (sandboxCache w) = Some entry ->
  terminateSandbox env chatSessionId w =
  (Return tt,
   {| sandboxCache := JsMap.delete chatSessionId (sandboxCache w);
      clockReads := clockReads w;
      requests := (requests w ++ [E2B.Kill (sandbox entry)])%list |}).
Proof.
  intros Hget. unfold terminateSandbox, Sandbox_kill. run_monad. rewrite Hget.
  cbv beta iota.
  destruct (killReply env (List.length (requests w)) (sandbox entry));
    reflexivity.
Qed.

(** C5. [terminateSandbox] returns normally in every world, whatever the
    provider answers to the release: with no entry for the session the world
    is unchanged; with an entry, the release of its sandbox is requested and
    the entry is deleted whether the release succeeds or throws.  After the
    call the session has no entry, so a second call returns normally and
    changes nothing. *)
Theorem terminateSandbox_idempotent (env : Env) (chatSessionId : string) (w : World) :
  exists w',
    terminateSandbox env chatSessionId w = (Return tt, w')
    /\ JsMap.get chatSessionId (sandboxCache w') = None
    /\ sandboxCache w' = JsMap.delete chatSessionId (sandboxCache w)
    /\ match JsMap.get chatSessionId (sandboxCache w) with
       | None => w' = w
       | Some entry =>
           requests w' = (requests w ++ [E2B.Kill (sandbox entry)])%list
       end
    /\ terminateSandbox env chatSessionId w' = (Return tt, w').
Proof.
  destruct (JsMap.get chatSessionId (sandboxCache w)) as [entry|] eqn:Hget.
  - rewrite (terminateSandbox_present env chatSessionId w entry Hget).
    eexists. split; [reflexivity|]. simpl.
    split; [apply JsMapFacts.get_delete_same|].
    split; [reflexivity|]. split; [reflexivity|].
    apply terminateSandbox_absent. simpl. apply JsMapFacts.get_delete_same.
  - rewrite (terminateSandbox_absent env chatSessionId w Hget).
    exists w. split; [reflexivity|].
    split; [exact Hget|].
    split; [symmetry; now apply JsMapFacts.delete_absent|].
    split; [reflexivity|].
    now apply terminateSandbox_absent.
Qed.

(** [getOrCreateSandbox] sends the provider nothing, or one creation: it
    never asks for the release of a sandbox. *)
Lemma getOrCreateSandbox_requests (env : Env) (chatSessionId : string) (w : World) :
  let w' := snd (getOrCreateSandbox env chatSessionId w) in
  requests w' = requests w
  \/ requests w' = (requests w ++ [E2B.Create (timeout env)])%list.
Proof.
  cbv zeta. destruct (noValidEntry env chatSessionId w) eqn:Hno.
  - right. rewrite (getOrCreateSandbox_create env chatSessionId w Hno). cbv zeta.
    destruct (createReply env (List.length (requests w))); reflexivity.
  - left. unfold noValidEntry in Hno.
    destruct (JsMap.get chatSessionId (sandboxCache w)) as [entry|] eqn:Hget;
      [|discriminate].
    apply negb_false_iff in Hno.
    now rewrite (getOrCreateSandbox_reuse env chatSessionId w entry Hget Hno).
Qed.

(** The release of a terminated session is requested even when the provider
    throws on it, and the entry is gone. *)
Example terminateSandbox_broken_provider :
  terminateSandbox Demo.broken "s" Demo.oneSession
  = (Return tt,
     {| sandboxCache := [];
        clockReads := 1;
        requests := [E2B.Create 120000; E2B.Kill Demo.sbx1] |}).
Proof. reflexivity. Qed.

(** C3, at a failing input.  The store holds an entry for session "s" last
    used at time 0; the next call comes 31 minutes later.  The call replaces
    the entry by one for a new sandbox, and the only request it sends is the
    creation: the release of the sandbox of the replaced entry is never
    requested. *)
Theorem stale_entry_replaced_without_release :
  exists w',
    getOrCreateSandbox Demo.slow "s" Demo.oneSession = (Return Demo.sbx2, w')
    /\ JsMap.get "s" (sandboxCache Demo.oneSession) = Some Demo.oldEntry
    /\ sandbox Demo.oldEntry = Demo.sbx1
    /\ option_map sandbox (JsMap.get "s" (sandboxCache w')) = Some Demo.sbx2
    /\ requests w' = [E2B.Create 120000; E2B.Create 120000]
    /\ killed Demo.sbx1 (requests w') = false.
Proof.
  eexists. split; [vm_compute; reflexivity|].
  repeat split.
Qed.

(** ** Calls in flight *)

(** Run without interruption, the two pieces of [getOrCreateSandbox] are the
    method itself. *)
Lemma getOrCreateSandbox_phases (env : Env) (chatSessionId : string) (w : World) :
  getOrCreateSandbox env chatSessionId w
  = (r <- getOrCreateSandbox_begin env chatSessionId ;;
     finish env chatSessionId r) w.
Proof.
  unfold getOrCreateSandbox, getOrCreateSandbox_begin, finish,
    getOrCreateSandbox_resume, isSessionValid, Sandbox_create.
  run_monad.
  destruct (JsMap.get chatSessionId (sandboxCache w)) as [entry|];
    cbv beta iota.
  - destruct (validAt (clock env (clockReads w)) entry); cbv beta iota.
    + destruct (JsMap.get chatSessionId (sandboxCache (tick (tick w))));
        cbv beta iota;
        match goal with
        | |- context [JsMap.get ?k (sandboxCache ?x)] =>
            destruct (JsMap.get k (sandboxCache x))
        end; reflexivity.
    + destruct (createReply env (List.length (requests (tick w)))); reflexivity.
  - destruct (createReply env (List.length (requests w))); reflexivity.
Qed.

Lemma getOrCreateSandbox_begin_awaits (env : Env) (chatSessionId : string) (w : World) :
  noValidEntry env chatSessionId w = true ->
  getOrCreateSandbox_begin env chatSessionId w
  = (Return (AwaitingCreate (createReply env (List.length (requests w)))),
     sent (E2B.Create (timeout env)) (afterLookup chatSessionId w)).
Proof.
  unfold noValidEntry, afterLookup, getOrCreateSandbox_begin, isSessionValid.
  run_monad.
  destruct (JsMap.get chatSessionId (sandboxCache w)) as [entry|];
    cbv beta iota; intros Hno; [|reflexivity].
  apply negb_true_iff in Hno. rewrite Hno. reflexivity.
Qed.

Lemma countCreates_two_more (rs : list E2B.Request) (t : Z) :
  countCreates (rs ++ [E2B.Create t; E2B.Create t])
  = (2 + countCreates rs)%nat.
Proof.
  unfold countCreates. rewrite filter_app, length_app. simpl. lia.
Qed.

Lemma requests_afterLookup (chatSessionId : string) (w : World) :
  requests (afterLookup chatSessionId w) = requests w.
Proof.
  unfold afterLookup.
  destruct (JsMap.get chatSessionId (sandboxCache w)); reflexivity.
Qed.

(** C4, as the code has it.  Two calls of [getOrCreateSandbox] in flight for
    one session that both find no valid entry each send their own creation
    request to the provider, whatever the order in which the two creations
    settle.  When both creations succeed, each call returns the sandbox of
    its own request, and the store keeps, with [executionCount] 1, the entry
    of the call whose creation settled last. *)
Theorem twoCallsInFlight_create_twice (env : Env) (chatSessionId : string)
    (firstSettlesFirst : bool) (w : World) :
  noValidEntry env chatSessionId w = true ->
  noValidEntry env chatSessionId
    (snd (getOrCreateSandbox_begin env chatSessionId w)) = true ->
  (exists o w',
      twoCallsInFlight env chatSessionId firstSettlesFirst w = (o, w')
      /\ requests w'
         = (requests w ++ [E2B.Create (timeout env); E2B.Create (timeout env)])%list
      /\ countCreates (requests w') = (2 + countCreates (requests w))%nat)
  /\ (forall sb1 sb2,
        createReply env (List.length (requests w)) = Return sb1 ->
        createReply env (S (List.length (requests w))) = Return sb2 ->
        exists w',
          twoCallsInFlight env chatSessionId firstSettlesFirst w
          = (Return (sb1, sb2), w')
          /\ option_map sandbox (JsMap.get chatSessionId (sandboxCache w'))
             = Some (if firstSettlesFirst then sb2 else sb1)
          /\ option_map executionCount (JsMap.get chatSessionId (sandboxCache w'))
             = Some 1).
Proof.
  intros Hno1 Hno2.
  pose proof (getOrCreateSandbox_begin_awaits env chatSessionId w Hno1) as Hb1.
  rewrite Hb1 in Hno2. simpl snd in Hno2.
  pose proof (getOrCreateSandbox_begin_awaits env chatSessionId _ Hno2) as Hb2.
  assert (Hlen : List.length
                   (requests (sent (E2B.Create (timeout env))
                                (afterLookup chatSessionId w)))
                 = S (List.length (requests w))).
  { simpl. rewrite length_app, requests_afterLookup. simpl. lia. }
  rewrite Hlen in Hb2.
  assert (Hreq : forall o w',
             twoCallsInFlight env chatSessionId firstSettlesFirst w = (o, w') ->
             requests w'
             = (requests w ++ [E2B.Create (timeout env); E2B.Create (timeout env)])%list).
  { intros o w'. unfold twoCallsInFlight, bind at 1. rewrite Hb1.
    unfold bind at 1. rewrite Hb2.
    unfold finish, getOrCreateSandbox_resume, storeNewSandbox, creationFailed.
    run_monad.
    destruct firstSettlesFirst,
      (createReply env (List.length (requests w))),
      (createReply env (S (List.length (requests w))));
      cbv beta iota; intros H; injection H as <- <-; simpl;
      rewrite !requests_afterLookup; simpl; rewrite !requests_afterLookup;
      rewrite <- app_assoc; reflexivity. }
  split.
  - destruct (twoCallsInFlight env chatSessionId firstSettlesFirst w) as [o w'] eqn:E.
    exists o, w'. split; [reflexivity|].
    rewrite (Hreq o w' eq_refl). split; [reflexivity|].
    apply countCreates_two_more.
  - intros sb1 sb2 H1 H2.
    unfold twoCallsInFlight, bind at 1. rewrite Hb1.
    unfold bind at 1. rewrite Hb2. rewrite H1, H2.
    unfold finish, getOrCreateSandbox_resume, storeNewSandbox, creationFailed.
    run_monad.
    destruct firstSettlesFirst; cbv beta iota;
      (eexists; split; [reflexivity|]); simpl;
      rewrite JsMapFacts.get_set_same; split; reflexivity.
Qed.

Lemma twoCallsInFlight_create_twice_witness :
  exists w',
    twoCallsInFlight Demo.healthy "s" true Demo.fresh
    = (Return (Demo.sbx1, Demo.sbx2), w')
    /\ option_map sandbox (JsMap.get "s" (sandboxCache w')) = Some Demo.sbx2
    /\ option_map executionCount (JsMap.get "s" (sandboxCache w')) = Some 1.
Proof.
  destruct (twoCallsInFlight_create_twice Demo.healthy "s" true Demo.fresh
              eq_refl eq_refl) as [_ Hboth].
  exact (Hboth Demo.sbx1 Demo.sbx2 eq_refl eq_refl).
Defined.

(** C4, as the specification has it, fails: for a brand-new session the two
    calls in flight create two sandboxes and return different ones. *)
Theorem no_single_flight :
  ~ singleFlight Demo.healthy "s" true Demo.fresh.
Proof.
  unfold singleFlight. intros Hsf.
  destruct (Hsf eq_refl eq_refl) as (sb & w' & Hrun & Hcount).
  vm_compute in Hrun. injection Hrun as H1 H2 _.
  rewrite <- H1 in H2. discriminate H2.
Qed.

(** ** Statistics *)

Lemma statsLoop_counts (env : Env) (entries : list SandboxCacheEntry) :
  forall (totalExecutions activeSessions : Z) (w : World),
    statsLoop env entries totalExecutions activeSessions w =
    (Return (totalExecutions + sumZ (map executionCount entries),
             activeSessions
             + Z.of_nat (List.length (activeFrom env (clockReads w) entries))),
     {| sandboxCache := sandboxCache w;
        clockReads := (List.length entries + clockReads w)%nat;
        requests := requests w |}).
Proof.
  induction entries as [|entry rest IH]; intros te act w.
  - simpl. unfold ret. destruct w. simpl. now rewrite !Z.add_0_r.
  - simpl statsLoop. unfold isSessionValid. run_monad.
    rewrite IH. simpl clockReads. simpl sandboxCache. simpl requests.
    simpl map. simpl sumZ. simpl activeFrom.
    rewrite Nat.add_succ_r.
    destruct (validAt (clock env (clockReads w)) entry); simpl List.length;
      (apply f_equal2; [apply f_equal; apply f_equal2; lia | reflexivity]).
Qed.

Lemma activeFrom_at_one_time (env : Env) (now : Z) (entries : list SandboxCacheEntry) :
  forall n,
    (forall i, (i < List.length entries)%nat -> clock env (n + i) = now) ->
    activeFrom env n entries = filter (validAt now) entries.
Proof.
  induction entries as [|entry rest IH]; intros n Hclock; simpl; [reflexivity|].
  assert (H0 : clock env n = now).
  { rewrite <- (Hclock 0%nat) by (simpl; lia). f_equal. lia. }
  rewrite H0, (IH (S n)).
  - reflexivity.
  - intros i Hi. rewrite <- (Hclock (S i)) by (simpl; lia). f_equal. lia.
Qed.

Lemma activeFrom_allValid (env : Env) (entries : list SandboxCacheEntry) :
  forall n, allValidFrom env n entries = true -> activeFrom env n entries = entries.
Proof.
  induction entries as [|entry rest IH]; intros n H; simpl in *; [reflexivity|].
  apply andb_true_iff in H as [H1 H2]. rewrite H1, (IH _ H2). reflexivity.
Qed.

Lemma getCacheStats_counts (env : Env) (w : World) :
  getCacheStats env w =
  (Return {| totalSessions := Z.of_nat (List.length (sandboxCache w));
             activeSessions :=
               Z.of_nat (List.length
                           (activeFrom env (clockReads w)
                              (JsMap.values (sandboxCache w))));
             totalExecutions :=
               sumZ (map executionCount (JsMap.values (sandboxCache w))) |},
   {| sandboxCache := sandboxCache w;
      clockReads := (List.length (sandboxCache w) + clockReads w)%nat;
      requests := requests w |}).
Proof.
  unfold getCacheStats. run_monad. rewrite statsLoop_counts. simpl.
  unfold JsMap.values at 3. rewrite length_map. reflexivity.
Qed.

(** ** Runs *)

Lemma sumZ_app (l1 l2 : list Z) : sumZ (l1 ++ l2) = sumZ l1 + sumZ l2.
Proof.
  induction l1 as [|x l1 IH]; simpl; [reflexivity | rewrite IH; lia].
Qed.

Lemma sum_set_present (k : string) (e e' : SandboxCacheEntry)
    (m : JsMap.t SandboxCacheEntry) :
  JsMap.get k m = Some e ->
  sumZ (map executionCount (JsMap.values (JsMap.set k e' m)))
  = sumZ (map executionCount (JsMap.values m))
    - executionCount e + executionCount e'.
Proof.
  unfold JsMap.values.
  induction m as [|[k0 e0] m IH]; simpl; [discriminate|].
  destruct (String.eqb k k0); simpl.
  - intros [= ->]. lia.
  - intros H. rewrite (IH H). lia.
Qed.

Lemma in_keys_get (k : string) (m : JsMap.t SandboxCacheEntry) :
  In k (JsMap.keys m) -> exists e, JsMap.get k m = Some e.
Proof.
  intros Hin. destruct (JsMap.get k m) as [e|] eqn:E; [now exists e|].
  apply JsMapFacts.get_None_not_In in E. contradiction.
Qed.

(** What one steady call of [executeCode] does to the store. *)
Lemma executeCode_store (env : Env) (chatSessionId code : string) (w : World) :
  resolvesInPlace env chatSessionId w = true ->
  let m := sandboxCache w in
  let m' := sandboxCache (snd (executeCode env chatSessionId code w)) in
  JsMap.keys m'
  = (if in_dec string_dec chatSessionId (JsMap.keys m)
     then JsMap.keys m else (JsMap.keys m ++ [chatSessionId])%list)
  /\ sumZ (map executionCount (JsMap.values m'))
     = sumZ (map executionCount (JsMap.values m)) + 1.
Proof.
  unfold resolvesInPlace. intros Hres. cbv zeta.
  rewrite executeCode_cases. cbv zeta.
  destruct (JsMap.get chatSessionId (sandboxCache w)) as [entry|] eqn:Hget.
  - rewrite (getOrCreateSandbox_reuse env chatSessionId (tick w) entry Hget Hres).
    unfold Sandbox_runCode.
    match goal with
    | |- context [runCodeReply ?e ?n ?s ?c] => destruct (runCodeReply e n s c)
    end; simpl;
      (split;
       [ rewrite (JsMapFacts.keys_set_present _ _ entry) by assumption;
         destruct (in_dec string_dec chatSessionId (JsMap.keys (sandboxCache w)))
           as [_|Hnot]; [reflexivity|];
         exfalso; apply Hnot;
         destruct (JsMap.get chatSessionId (sandboxCache w)) eqn:E;
           [|discriminate];
         destruct (in_dec string_dec chatSessionId (JsMap.keys (sandboxCache w)))
           as [Hin|Hno]; [exact Hin|];
         apply JsMapFacts.get_None_not_In in Hno; congruence
       | rewrite (sum_set_present _ entry) by assumption; simpl; lia ]).
  - assert (Hnv : noValidEntry env chatSessionId (tick w) = true).
    { unfold noValidEntry. simpl. now rewrite Hget. }
    rewrite (getOrCreateSandbox_create env chatSessionId (tick w) Hnv).
    cbv zeta. simpl requests.
    destruct (createReply env (List.length (requests w))) as [sb|e];
      [|discriminate].
    unfold Sandbox_runCode.
    match goal with
    | |- context [runCodeReply ?e ?n ?s ?c] => destruct (runCodeReply e n s c)
    end; simpl;
      rewrite (JsMapFacts.set_absent _ _ _ Hget);
      (split;
       [ unfold JsMap.keys; rewrite map_app; simpl;
         destruct (in_dec string_dec chatSessionId (map fst (sandboxCache w)))
           as [Hin|_]; [|reflexivity];
         apply in_keys_get in Hin as [e' He']; congruence
       | unfold JsMap.values; rewrite !map_app, sumZ_app; simpl; lia ]).
Qed.

Lemma executeAll_step (env : Env) (chatSessionId code : string)
    (rest : list (string * string)) (w : World) :
  executeAll env ((chatSessionId, code) :: rest) w =
  match executeAll env rest (snd (executeCode env chatSessionId code w)) with
  | (Return rs, w') =>
      match fst (executeCode env chatSessionId code w) with
      | Return r => (Return (r :: rs), w')
      | Throw e => (Throw e, w')
      end
  | (Throw e, w') => (Throw e, w')
  end.
Proof.
  simpl executeAll. unfold bind at 1.
  rewrite executeCode_cases. cbv zeta.
  destruct (getOrCreateSandbox env chatSessionId (tick w)) as [[sb|e] w1].
  - destruct (Sandbox_runCode env sb code w1) as [[ex|e] w2]; simpl;
      unfold bind, ret;
      match goal with
      | |- context [executeAll ?e ?r ?x] => destruct (executeAll e r x) as [[rs|e'] w']
      end; reflexivity.
  - simpl. unfold bind, ret.
    match goal with
    | |- context [executeAll ?e ?r ?x] => destruct (executeAll e r x) as [[rs|e'] w']
    end; reflexivity.
Qed.

Lemma executeAll_returns (env : Env) (calls : list (string * string)) :
  forall w, exists rs w',
    executeAll env calls w = (Return rs, w')
    /\ List.length rs = List.length calls.
Proof.
  induction calls as [|[id code] rest IH]; intros w.
  - exists [], w. split; reflexivity.
  - rewrite executeAll_step.
    destruct (IH (snd (executeCode env id code w))) as (rs & w' & Hrest & Hlen).
    rewrite Hrest. rewrite executeCode_cases. cbv zeta.
    destruct (getOrCreateSandbox env id (tick w)) as [[sb|e] w1].
    + destruct (Sandbox_runCode env sb code w1) as [[ex|e] w2]; simpl;
        eexists; eexists; (split; [reflexivity|]); simpl; now rewrite Hlen.
    + simpl. eexists; eexists; (split; [reflexivity|]); simpl; now rewrite Hlen.
Qed.

Lemma executeAll_world (env : Env) (chatSessionId code : string)
    (rest : list (string * string)) (w : World) :
  snd (executeAll env ((chatSessionId, code) :: rest) w)
  = snd (executeAll env rest (snd (executeCode env chatSessionId code w))).
Proof.
  rewrite executeAll_step.
  destruct (executeAll env rest (snd (executeCode env chatSessionId code w)))
    as [[rs|e] w']; [|reflexivity].
  destruct (fst (executeCode env chatSessionId code w)); reflexivity.
Qed.

(** After a steady run the keys of the store are the keys before it followed
    by the new sessions in order of first use, and the execution counts have
    grown by the number of calls. *)
Lemma steadyRun_store (env : Env) (calls : list (string * string)) :
  forall w,
    steadyRun env calls w = true ->
    let m := sandboxCache w in
    let m' := sandboxCache (snd (executeAll env calls w)) in
    JsMap.keys m' = firstUses (JsMap.keys m) (map fst calls)
    /\ sumZ (map executionCount (JsMap.values m'))
       = sumZ (map executionCount (JsMap.values m))
         + Z.of_nat (List.length calls).
Proof.
  induction calls as [|[id code] rest IH]; intros w Hsteady; cbv zeta.
  - simpl. split; [reflexivity | lia].
  - simpl in Hsteady. apply andb_true_iff in Hsteady as [Hres Hrest].
    rewrite executeAll_world.
    destruct (IH _ Hrest) as [Hkeys Hsum].
    destruct (executeCode_store env id code w Hres) as [Hk1 Hs1].
    cbv zeta in Hkeys, Hsum, Hk1, Hs1.
    rewrite Hkeys, Hsum, Hk1, Hs1. split.
    + simpl. destruct (in_dec string_dec id (JsMap.keys (sandboxCache w)));
        reflexivity.
    + simpl List.length. lia.
Qed.

Lemma firstUses_NoDup (ids : list string) :
  forall seen, NoDup seen -> NoDup (firstUses seen ids).
Proof.
  induction ids as [|id rest IH]; intros seen Hnd; simpl; [exact Hnd|].
  destruct (in_dec string_dec id seen) as [Hin|Hnot]; apply IH; [exact Hnd|].
  apply NoDup_app; [exact Hnd | repeat constructor; intros [] |].
  intros x Hx [<-|[]]. contradiction.
Qed.

Lemma firstUses_In (ids : list string) :
  forall seen x, In x (firstUses seen ids) <-> In x seen \/ In x ids.
Proof.
  induction ids as [|id rest IH]; intros seen x; simpl; [tauto|].
  destruct (in_dec string_dec id seen) as [Hin|Hnot]; rewrite IH.
  - split; [tauto|]. intros [H|[<-|H]]; tauto.
  - rewrite in_app_iff. simpl. tauto.
Qed.

(** The distinct sessions of a run: no session twice, and exactly the
    sessions of the calls. *)
Lemma distinctSessions_distinct (calls : list (string * string)) :
  NoDup (distinctSessions calls)
  /\ forall id, In id (distinctSessions calls) <-> In id (map fst calls).
Proof.
  unfold distinctSessions. split.
  - apply firstUses_NoDup. constructor.
  - intros id. rewrite firstUses_In. simpl. tauto.
Qed.

(** C7. In every world [getCacheStats] returns, without changing the store:
    [totalSessions], the number of entries of the map; [totalExecutions],
    the sum of [executionCount] over all entries, expired or not;
    [activeSessions], the number of entries that pass the expiry test at the
    reading of the clock taken for them during the call, which is the number
    of entries valid at [now] when all these readings are [now].
    Consequently, after a run of N executions from an empty store in which
    every call got its sandbox and no entry was found expired, the store
    holds the M distinct sessions of the run, [totalExecutions] is N,
    [totalSessions] is M, and [activeSessions] is M when the sessions are
    still active. *)
Theorem getCacheStats_consistent (env : Env) :
  (forall w,
      exists st w',
        getCacheStats env w = (Return st, w')
        /\ sandboxCache w' = sandboxCache w
        /\ requests w' = requests w
        /\ totalSessions st = Z.of_nat (List.length (sandboxCache w))
        /\ totalExecutions st
           = sumZ (map executionCount (JsMap.values (sandboxCache w)))
        /\ activeSessions st
           = Z.of_nat (List.length
                         (activeFrom env (clockReads w)
                            (JsMap.values (sandboxCache w))))
        /\ (forall now,
              (forall i, (i < List.length (sandboxCache w))%nat ->
                         clock env (clockReads w + i) = now) ->
              activeSessions st
              = Z.of_nat (List.length
                            (filter (validAt now)
                               (JsMap.values (sandboxCache w))))))
  /\ (forall calls w,
        sandboxCache w = JsMap.empty ->
        steadyRun env calls w = true ->
        exists results w1 st w2,
          executeAll env calls w = (Return results, w1)
          /\ List.length results = List.length calls
          /\ getCacheStats env w1 = (Return st, w2)
          /\ JsMap.keys (sandboxCache w1) = distinctSessions calls
          /\ totalExecutions st = Z.of_nat (List.length calls)
          /\ totalSessions st = Z.of_nat (List.length (distinctSessions calls))
          /\ (stillActive env w1 = true ->
              activeSessions st
              = Z.of_nat (List.length (distinctSessions calls)))).
Proof.
  split.
  - intros w. rewrite getCacheStats_counts.
    eexists; eexists; split; [reflexivity|]. simpl.
    repeat (split; [reflexivity|]).
    intros now Hclock. rewrite (activeFrom_at_one_time env now); [reflexivity|].
    intros i Hi. apply Hclock. unfold JsMap.values in Hi.
    now rewrite length_map in Hi.
  - intros calls w Hempty Hsteady.
    destruct (executeAll_returns env calls w) as (results & w1 & Hrun & Hlen).
    destruct (steadyRun_store env calls w Hsteady) as [Hkeys Hsum].
    cbv zeta in Hkeys, Hsum. rewrite Hrun in Hkeys, Hsum. simpl snd in Hkeys, Hsum.
    rewrite Hempty in Hkeys, Hsum. simpl in Hkeys, Hsum.
    fold (distinctSessions calls) in Hkeys.
    assert (Hsize : List.length (sandboxCache w1)
                    = List.length (distinctSessions calls)).
    { rewrite <- Hkeys. unfold JsMap.keys. now rewrite length_map. }
    exists results, w1. rewrite getCacheStats_counts.
    eexists; eexists; split; [exact Hrun|].
    split; [exact Hlen|]. split; [reflexivity|]. simpl.
    split; [exact Hkeys|]. split; [exact Hsum|].
    split; [now rewrite Hsize|].
    intros Hactive. unfold stillActive in Hactive.
    rewrite (activeFrom_allValid env _ _ Hactive).
    unfold JsMap.values. now rewrite length_map, Hsize.
Qed.

Lemma getCacheStats_consistent_witness :
  (exists st w',
      getCacheStats Demo.healthy Demo.oneSession = (Return st, w')
      /\ activeSessions st
         = Z.of_nat (List.length
                       (filter (validAt 1)
                          (JsMap.values (sandboxCache Demo.oneSession)))))
  /\ (exists results w1 st w2,
        executeAll Demo.healthy
          [("a", "x = 1"); ("b", "y = 2"); ("a", "x + 1")] Demo.fresh
        = (Return results, w1)
        /\ getCacheStats Demo.healthy w1 = (Return st, w2)
        /\ totalExecutions st = 3
        /\ totalSessions st = 2
        /\ activeSessions st = 2).
Proof.
  destruct (getCacheStats_consistent Demo.healthy) as [Hstats Hrun].
  split.
  - destruct (Hstats Demo.oneSession) as (st & w' & Hcall & _ & _ & _ & _ & _ & Hnow).
    exists st, w'. split; [exact Hcall|].
    apply Hnow. intros i Hi. simpl in Hi.
    assert (i = 0%nat) as -> by lia. reflexivity.
  - destruct (Hrun [("a", "x = 1"); ("b", "y = 2"); ("a", "x + 1")] Demo.fresh
                eq_refl eq_refl)
      as (results & w1 & st & w2 & Hexec & _ & Hcall & _ & Htotal & Hsessions & Hactive).
    exists results, w1, st, w2.
    split; [exact Hexec|]. split; [exact Hcall|].
    split; [exact Htotal|]. split; [exact Hsessions|].
    apply Hactive.
    vm_compute in Hexec. injection Hexec as _ <-. reflexivity.
Defined.

(** ** The sweep *)

Lemma get_app_fresh (k : string) (pre m : JsMap.t SandboxCacheEntry) :
  ~ In k (JsMap.keys pre) -> JsMap.get k (pre ++ m)%list = JsMap.get k m.
Proof.
  induction pre as [|[k0 e0] pre IH]; simpl; [reflexivity|].
  intros Hnot. destruct (String.eqb_spec k k0) as [->|Hk]; [tauto|].
  apply IH. tauto.
Qed.

Lemma delete_fresh (k : string) (m : JsMap.t SandboxCacheEntry) :
  ~ In k (JsMap.keys m) -> JsMap.delete k m = m.
Proof.
  intros Hnot. apply JsMapFacts.delete_absent.
  now apply JsMapFacts.get_None_not_In.
Qed.

Lemma delete_middle (k : string) (e : SandboxCacheEntry)
    (pre rest : JsMap.t SandboxCacheEntry) :
  NoDup (JsMap.keys (pre ++ (k, e) :: rest)%list) ->
  JsMap.delete k (pre ++ (k, e) :: rest)%list = (pre ++ rest)%list
  /\ JsMap.get k (pre ++ (k, e) :: rest)%list = Some e
  /\ NoDup (JsMap.keys (pre ++ rest)%list).
Proof.
  unfold JsMap.keys. rewrite map_app. simpl. intros Hnd.
  pose proof (NoDup_remove_1 _ _ _ Hnd) as Hnd'.
  pose proof (NoDup_remove_2 _ _ _ Hnd) as Hnot.
  rewrite in_app_iff in Hnot.
  split; [|split].
  - unfold JsMap.delete. rewrite filter_app. simpl.
    rewrite String.eqb_refl. simpl.
    fold (JsMap.delete k pre). fold (JsMap.delete k rest).
    rewrite !delete_fresh; [reflexivity | |]; unfold JsMap.keys; tauto.
  - rewrite get_app_fresh by (unfold JsMap.keys; tauto).
    simpl. now rewrite String.eqb_refl.
  - now rewrite map_app.
Qed.

Lemma collectExpired_ids (env : Env) (entries : list (string * SandboxCacheEntry)) :
  forall (acc : list string) (w : World),
    collectExpired env entries acc w =
    (Return (acc ++ map fst (expiredFrom env (clockReads w) entries))%list,
     {| sandboxCache := sandboxCache w;
        clockReads := (List.length entries + clockReads w)%nat;
        requests := requests w |}).
Proof.
  induction entries as [|[k entry] rest IH]; intros acc w.
  - simpl. unfold ret. rewrite app_nil_r. now destruct w.
  - simpl collectExpired. unfold isSessionValid. run_monad.
    rewrite IH. simpl clockReads. simpl sandboxCache. simpl requests.
    simpl expiredFrom. simpl List.length. rewrite Nat.add_succ_r.
    destruct (validAt (clock env (clockReads w)) entry); simpl;
      rewrite <- ?app_assoc; reflexivity.
Qed.

Lemma terminateAll_expired (env : Env) (entries : list (string * SandboxCacheEntry)) :
  forall (n : nat) (pre : list (string * SandboxCacheEntry)) (w : World),
    sandboxCache w = (pre ++ entries)%list ->
    NoDup (JsMap.keys (pre ++ entries)%list) ->
    terminateAll env (map fst (expiredFrom env n entries)) w =
    (Return tt,
     {| sandboxCache := (pre ++ keptFrom env n entries)%list;
        clockReads := clockReads w;
        requests := (requests w ++ map killOf (expiredFrom env n entries))%list |}).
Proof.
  induction entries as [|[k entry] rest IH]; intros n pre w Hstore Hnd.
  - simpl. unfold ret. rewrite app_nil_r in Hstore.
    rewrite !app_nil_r, <- Hstore. now destruct w.
  - simpl expiredFrom. simpl keptFrom.
    destruct (validAt (clock env n) entry).
    + rewrite (IH (S n) (pre ++ [(k, entry)])%list w).
      * now rewrite <- app_assoc.
      * now rewrite <- app_assoc.
      * now rewrite <- app_assoc.
    + simpl map. simpl terminateAll. unfold bind.
      destruct (delete_middle k entry pre rest Hnd) as (Hdel & Hget & Hnd').
      rewrite <- Hstore in Hdel, Hget.
      rewrite (terminateSandbox_present env k w entry Hget).
      rewrite Hdel. rewrite (IH (S n) pre); [|reflexivity|exact Hnd'].
      simpl. rewrite <- app_assoc. reflexivity.
Qed.

Lemma cleanupExpiredSessions_world (env : Env) (w : World) :
  NoDup (JsMap.keys (sandboxCache w)) ->
  cleanupExpiredSessions env w =
  (Return tt,
   {| sandboxCache := keptFrom env (clockReads w) (sandboxCache w);
      clockReads := (List.length (sandboxCache w) + clockReads w)%nat;
      requests :=
        (requests w ++ map killOf (expiredFrom env (clockReads w) (sandboxCache w)))%list |}).
Proof.
  intros Hnd. unfold cleanupExpiredSessions. run_monad.
  rewrite collectExpired_ids. simpl app.
  rewrite (terminateAll_expired env (sandboxCache w) (clockReads w) []);
    [reflexivity | reflexivity | exact Hnd].
Qed.

(** X1. The sweep returns normally whatever the provider answers to the
    releases.  It reads the clock once per entry, in map order; the entries
    that pass the expiry test at their reading stay in the store, unchanged
    and in order; for each of the others, in map order, the release of its
    sandbox is requested and the entry is removed. *)
Theorem cleanupExpiredSessions_sweeps (env : Env) (w : World) :
  NoDup (JsMap.keys (sandboxCache w)) ->
  exists w',
    cleanupExpiredSessions env w = (Return tt, w')
    /\ sandboxCache w' = keptFrom env (clockReads w) (sandboxCache w)
    /\ requests w'
       = (requests w
          ++ map killOf (expiredFrom env (clockReads w) (sandboxCache w)))%list
    /\ clockReads w' = (List.length (sandboxCache w) + clockReads w)%nat.
Proof.
  intros Hnd. rewrite (cleanupExpiredSessions_world env w Hnd).
  eexists. repeat split.
Qed.

Lemma cleanupExpiredSessions_sweeps_witness :
  exists w',
    cleanupExpiredSessions Demo2.later Demo2.twoSessions = (Return tt, w')
    /\ sandboxCache w' = [("live", Demo2.liveEntry)]
    /\ requests w'
       = [E2B.Create 120000; E2B.Create 120000; E2B.Kill Demo.sbx1].
Proof.
  assert (Hnd : NoDup (JsMap.keys (sandboxCache Demo2.twoSessions))).
  { simpl. repeat constructor; simpl; intuition discriminate. }
  destruct (cleanupExpiredSessions_sweeps Demo2.later Demo2.twoSessions Hnd)
    as (w' & Hrun & Hstore & Hreq & _).
  exists w'. split; [exact Hrun|]. split; [exact Hstore | exact Hreq].
Defined.

(** ** What one call of [executeCode] does to the world *)

Lemma executeCode_world (env : Env) (chatSessionId code : string) (w : World) :
  snd (executeCode env chatSessionId code w) =
  match getOrCreateSandbox env chatSessionId (tick w) with
  | (Return sb, w1) => tick (sent (E2B.RunCode sb code) w1)
  | (Throw _, w1) => tick w1
  end.
Proof.
  rewrite executeCode_cases. cbv zeta.
  destruct (getOrCreateSandbox env chatSessionId (tick w)) as [[sb|e] w1];
    [|reflexivity].
  unfold Sandbox_runCode.
  destruct (runCodeReply env (List.length (requests w1)) sb code); reflexivity.
Qed.

Lemma executeCode_reusing (env : Env) (chatSessionId code : string) (w : World)
    (entry : SandboxCacheEntry) :
  JsMap.get chatSessionId (sandboxCache w) = Some entry ->
  validAt (clock env (S (clockReads w))) entry = true ->
  snd (executeCode env chatSessionId code w) =
  {| sandboxCache :=
       JsMap.set chatSessionId
         (touched (clock env (S (S (clockReads w)))) entry) (sandboxCache w);
     clockReads := S (S (S (S (clockReads w))));
     requests := (requests w ++ [E2B.RunCode (sandbox entry) code])%list |}.
Proof.
  intros Hget Hvalid. rewrite executeCode_world.
  rewrite (getOrCreateSandbox_reuse env chatSessionId (tick w) entry Hget Hvalid).
  reflexivity.
Qed.

Lemma executeCode_creating (env : Env) (chatSessionId code : string) (w : World) :
  noValidEntry env chatSessionId (tick w) = true ->
  snd (executeCode env chatSessionId code w) =
  let c := clockReads (afterLookup chatSessionId (tick w)) in
  match createReply env (List.length (requests w)) with
  | Return sb =>
      {| sandboxCache :=
           JsMap.set chatSessionId (newEntry env sb c) (sandboxCache w);
         clockReads := S (S (S c));
         requests :=
           (requests w ++ [E2B.Create (timeout env); E2B.RunCode sb code])%list |}
  | Throw _ =>
      {| sandboxCache := sandboxCache w;
         clockReads := S c;
         requests := (requests w ++ [E2B.Create (timeout env)])%list |}
  end.
Proof.
  intros Hno. rewrite executeCode_world.
  rewrite (getOrCreateSandbox_create env chatSessionId (tick w) Hno). cbv zeta.
  simpl requests.
  destruct (createReply env (List.length (requests w))); unfold tick, sent; simpl;
    rewrite <- ?app_assoc; reflexivity.
Qed.

(** The two ways a call of [executeCode] meets the store. *)
Lemma executeCode_meets_store (env : Env) (chatSessionId : string) (w : World) :
  (exists entry,
      JsMap.get chatSessionId (sandboxCache w) = Some entry
      /\ validAt (clock env (S (clockReads w))) entry = true)
  \/ noValidEntry env chatSessionId (tick w) = true.
Proof.
  unfold noValidEntry. simpl.
  destruct (JsMap.get chatSessionId (sandboxCache w)) as [entry|]; [|now right].
  destruct (validAt (clock env (S (clockReads w))) entry) eqn:E;
    [left; now exists entry | now right].
Qed.

Lemma clockReads_afterLookup (chatSessionId : string) (w : World) :
  (clockReads w <= clockReads (afterLookup chatSessionId w) <= S (clockReads w))%nat.
Proof.
  unfold afterLookup.
  destruct (JsMap.get chatSessionId (sandboxCache w)); simpl; lia.
Qed.

(** X2. A call of [executeCode] or of [terminateSandbox] for one session
    leaves the entry of every other session as it was. *)
Theorem other_sessions_untouched (env : Env) (chatSessionId code other : string)
    (w : World) :
  other <> chatSessionId ->
  JsMap.get other (sandboxCache (snd (executeCode env chatSessionId code w)))
  = JsMap.get other (sandboxCache w)
  /\ JsMap.get other (sandboxCache (snd (terminateSandbox env chatSessionId w)))
     = JsMap.get other (sandboxCache w).
Proof.
  intros Hother. split.
  - destruct (executeCode_meets_store env chatSessionId w)
      as [(entry & Hget & Hvalid) | Hno].
    + rewrite (executeCode_reusing env chatSessionId code w entry Hget Hvalid).
      simpl. apply JsMapFacts.get_set_other. congruence.
    + rewrite (executeCode_creating env chatSessionId code w Hno). cbv zeta.
      destruct (createReply env (List.length (requests w))); simpl;
        [apply JsMapFacts.get_set_other; congruence | reflexivity].
  - destruct (JsMap.get chatSessionId (sandboxCache w)) as [entry|] eqn:Hget.
    + rewrite (terminateSandbox_present env chatSessionId w entry Hget). simpl.
      apply JsMapFacts.get_delete_other. congruence.
    + now rewrite (terminateSandbox_absent env chatSessionId w Hget).
Qed.

Lemma other_sessions_untouched_witness :
  JsMap.get "live"
    (sandboxCache (snd (executeCode Demo2.later "old" "x" Demo2.twoSessions)))
  = Some Demo2.liveEntry
  /\ JsMap.get "live"
       (sandboxCache (snd (terminateSandbox Demo2.later "old" Demo2.twoSessions)))
     = Some Demo2.liveEntry.
Proof.
  apply (other_sessions_untouched Demo2.later "old" "x" "live" Demo2.twoSessions).
  discriminate.
Defined.

(** X3. A run that throws still counts as an execution: when the session has
    a valid entry and the provider throws on the run, [executeCode] returns
    the message in [error], and the entry has [executionCount] one higher
    and [lastUsedAt] refreshed all the same. *)
Theorem failed_run_still_counts (env : Env) (chatSessionId code : string) (w : World)
    (entry : SandboxCacheEntry) (cause : Js.Thrown) :
  JsMap.get chatSessionId (sandboxCache w) = Some entry ->
  validAt (clock env (S (clockReads w))) entry = true ->
  runCodeReply env (List.length (requests w)) (sandbox entry) code = Throw cause ->
  exists r w',
    executeCode env chatSessionId code w = (Return r, w')
    /\ error r = Some (Js.messageOr "Unknown execution error" cause)
    /\ JsMap.get chatSessionId (sandboxCache w')
       = Some {| sandbox := sandbox entry; sandboxId := sandboxId entry;
                 createdAt := createdAt entry;
                 lastUsedAt := clock env (S (S (clockReads w)));
                 executionCount := executionCount entry + 1 |}.
Proof.
  intros Hget Hvalid Hrun.
  rewrite executeCode_cases. cbv zeta.
  rewrite (getOrCreateSandbox_reuse env chatSessionId (tick w) entry Hget Hvalid).
  unfold Sandbox_runCode. simpl requests. rewrite Hrun.
  eexists; eexists; split; [reflexivity|]. simpl.
  split; [reflexivity | apply JsMapFacts.get_set_same].
Qed.

Lemma failed_run_still_counts_witness :
  exists r w',
    executeCode Demo.flaky "s" "while True: pass" Demo.oneSession = (Return r, w')
    /\ error r = Some "timeout"
    /\ option_map executionCount (JsMap.get "s" (sandboxCache w')) = Some 5.
Proof.
  destruct (failed_run_still_counts Demo.flaky "s" "while True: pass"
              Demo.oneSession Demo.oldEntry (Js.ErrorObject "timeout")
              eq_refl eq_refl eq_refl)
    as (r & w' & Hrun & Herr & Hget).
  exists r, w'. split; [exact Hrun|]. split; [exact Herr|].
  rewrite Hget. reflexivity.
Defined.

Lemma delete_set_absent (k : string) (e : SandboxCacheEntry)
    (m : JsMap.t SandboxCacheEntry) :
  JsMap.get k m = None -> JsMap.delete k (JsMap.set k e m) = m.
Proof.
  intros Hget. rewrite (JsMapFacts.set_absent _ _ _ Hget).
  unfold JsMap.delete. rewrite filter_app. simpl. rewrite String.eqb_refl. simpl.
  rewrite app_nil_r. now apply JsMapFacts.delete_absent.
Qed.

(** X4. Executing code for a session that has no entry and then terminating
    the session brings the store back to what it was, and the provider has
    seen, in this order, the creation of a sandbox, the run on it and its
    release. *)
Theorem execute_then_terminate (env : Env) (chatSessionId code : string) (w : World)
    (sb : E2B.Sandbox) :
  JsMap.get chatSessionId (sandboxCache w) = None ->
  createReply env (List.length (requests w)) = Return sb ->
  let w1 := snd (executeCode env chatSessionId code w) in
  let w2 := snd (terminateSandbox env chatSessionId w1) in
  sandboxCache w2 = sandboxCache w
  /\ requests w2
     = (requests w
        ++ [E2B.Create (timeout env); E2B.RunCode sb code; E2B.Kill sb])%list.
Proof.
  intros Hget Hcreate. cbv zeta.
  assert (Hno : noValidEntry env chatSessionId (tick w) = true).
  { unfold noValidEntry. simpl. now rewrite Hget. }
  rewrite (executeCode_creating env chatSessionId code w Hno). cbv zeta.
  rewrite Hcreate.
  erewrite terminateSandbox_present by (simpl; apply JsMapFacts.get_set_same).
  simpl. split; [now apply delete_set_absent|].
  rewrite <- app_assoc. reflexivity.
Qed.

Lemma execute_then_terminate_witness :
  let w1 := snd (executeCode Demo.healthy "s" "x = 1" Demo.fresh) in
  let w2 := snd (terminateSandbox Demo.healthy "s" w1) in
  sandboxCache w2 = []
  /\ requests w2
     = [E2B.Create 120000; E2B.RunCode Demo.sbx1 "x = 1"; E2B.Kill Demo.sbx1].
Proof.
  exact (execute_then_terminate Demo.healthy "s" "x = 1" Demo.fresh Demo.sbx1
           eq_refl eq_refl).
Defined.

(** X5. Continuity of a session: two calls of [executeCode] in a row for a
    session that had no entry, the second within 30 minutes of the first use
    and 60 minutes of the creation, run on the same sandbox; the provider
    sees one creation followed by the two runs, and the entry counts two
    executions. *)
Theorem session_continuity (env : Env) (chatSessionId code1 code2 : string)
    (w : World) (sb : E2B.Sandbox) :
  JsMap.get chatSessionId (sandboxCache w) = None ->
  createReply env (List.length (requests w)) = Return sb ->
  let n := clockReads w in
  clock env (5 + n) - clock env (2 + n) <= 30 * 60 * 1000 ->
  clock env (5 + n) - clock env (1 + n) <= 60 * 60 * 1000 ->
  let w2 := snd (executeCode env chatSessionId code2
                   (snd (executeCode env chatSessionId code1 w))) in
  requests w2
  = (requests w
     ++ [E2B.Create (timeout env); E2B.RunCode sb code1; E2B.RunCode sb code2])%list
  /\ option_map sandbox (JsMap.get chatSessionId (sandboxCache w2)) = Some sb
  /\ option_map executionCount (JsMap.get chatSessionId (sandboxCache w2)) = Some 2.
Proof.
  intros Hget Hcreate n Hidle Hage. cbv zeta.
  assert (Hno : noValidEntry env chatSessionId (tick w) = true).
  { unfold noValidEntry. simpl. now rewrite Hget. }
  rewrite (executeCode_creating env chatSessionId code1 w Hno). cbv zeta.
  rewrite Hcreate.
  assert (Hc : clockReads (afterLookup chatSessionId (tick w)) = S n).
  { unfold afterLookup. simpl. now rewrite Hget. }
  rewrite Hc.
  rewrite (executeCode_reusing env chatSessionId code2 _ (newEntry env sb (S n))).
  - simpl. rewrite JsMapFacts.get_set_same. simpl.
    rewrite <- app_assoc. repeat split.
  - simpl. apply JsMapFacts.get_set_same.
  - simpl. apply validAt_true_iff. simpl. split; assumption.
Qed.

Lemma session_continuity_witness :
  let w2 := snd (executeCode Demo.healthy "s" "print(x)"
                   (snd (executeCode Demo.healthy "s" "x = 1" Demo.fresh))) in
  requests w2
  = [E2B.Create 120000; E2B.RunCode Demo.sbx1 "x = 1";
     E2B.RunCode Demo.sbx1 "print(x)"]
  /\ option_map sandbox (JsMap.get "s" (sandboxCache w2)) = Some Demo.sbx1
  /\ option_map executionCount (JsMap.get "s" (sandboxCache w2)) = Some 2.
Proof.
  apply (session_continuity Demo.healthy "s" "x = 1" "print(x)" Demo.fresh Demo.sbx1
           eq_refl eq_refl); vm_compute; discriminate.
Defined.

(** ** Invariants of the store *)

Section StoreInvariants.

Variable P : SandboxCacheEntry -> Prop.

Lemma Forall_values_set (k : string) (v : SandboxCacheEntry)
    (m : JsMap.t SandboxCacheEntry) :
  P v -> Forall P (JsMap.values m) -> Forall P (JsMap.values (JsMap.set k v m)).
Proof.
  unfold JsMap.values. intros Hv.
  induction m as [|[k0 v0] m IH]; simpl; intros Hall.
  - constructor; [exact Hv | constructor].
  - inversion Hall as [|? ? H0 Hrest]; subst.
    destruct (String.eqb k k0); simpl; constructor; auto.
Qed.

Lemma Forall_values_delete (k : string) (m : JsMap.t SandboxCacheEntry) :
  Forall P (JsMap.values m) -> Forall P (JsMap.values (JsMap.delete k m)).
Proof.
  unfold JsMap.values, JsMap.delete.
  induction m as [|[k0 v0] m IH]; simpl; intros Hall; [constructor|].
  inversion Hall as [|? ? H0 Hrest]; subst.
  destruct (String.eqb k k0); simpl; [|constructor]; auto.
Qed.

Lemma Forall_values_kept (env : Env) (m : JsMap.t SandboxCacheEntry) :
  forall n, Forall P (JsMap.values m) -> Forall P (JsMap.values (keptFrom env n m)).
Proof.
  unfold JsMap.values.
  induction m as [|[k0 v0] m IH]; simpl; intros n Hall; [constructor|].
  inversion Hall as [|? ? H0 Hrest]; subst.
  destruct (validAt (clock env n) v0); simpl; [constructor|]; auto.
Qed.

Lemma get_Some_holds (k : string) (v : SandboxCacheEntry)
    (m : JsMap.t SandboxCacheEntry) :
  JsMap.get k m = Some v -> Forall P (JsMap.values m) -> P v.
Proof.
  unfold JsMap.values.
  induction m as [|[k0 v0] m IH]; simpl; [discriminate|].
  intros Hget Hall. inversion Hall as [|? ? H0 Hrest]; subst.
  destruct (String.eqb k k0); [injection Hget as <-; assumption | auto].
Qed.

End StoreInvariants.

Lemma keys_kept_in (env : Env) (m : JsMap.t SandboxCacheEntry) :
  forall n k, In k (JsMap.keys (keptFrom env n m)) -> In k (JsMap.keys m).
Proof.
  unfold JsMap.keys.
  induction m as [|[k0 v0] m IH]; simpl; intros n k Hin; [exact Hin|].
  destruct (validAt (clock env n) v0); simpl in Hin.
  - destruct Hin as [->|Hin]; [now left | right; eauto].
  - right; eauto.
Qed.

Lemma NoDup_keys_kept (env : Env) (m : JsMap.t SandboxCacheEntry) :
  forall n, NoDup (JsMap.keys m) -> NoDup (JsMap.keys (keptFrom env n m)).
Proof.
  induction m as [|[k0 v0] m IH]; simpl; intros n Hnd; [constructor|].
  inversion Hnd as [|? ? Hnot Hrest]; subst.
  destruct (validAt (clock env n) v0); simpl; [|now apply IH].
  constructor; [|now apply IH].
  intros Hin. apply Hnot. exact (keys_kept_in env m (S n) k0 Hin).
Qed.

Lemma entryOk_touched (now : Z) (entry : SandboxCacheEntry) :
  entryOk entry -> entryOk (touched now entry).
Proof.
  unfold entryOk. simpl. intros [Hcount Hid]. split; [lia | exact Hid].
Qed.

Lemma entryOk_newEntry (env : Env) (sb : E2B.Sandbox) (n : nat) :
  entryOk (newEntry env sb n).
Proof.
  unfold entryOk. simpl. split; [lia | reflexivity].
Qed.

Lemma perform_storeOk (env : Env) (c : Call) (w : World) :
  storeOk w -> storeOk (perform env c w).
Proof.
  unfold storeOk. intros [Hnd Hall].
  destruct c as [id code | id | |]; simpl.
  - destruct (executeCode_meets_store env id w) as [(entry & Hget & Hvalid) | Hno].
    + rewrite (executeCode_reusing env id code w entry Hget Hvalid). simpl.
      split; [now apply JsMapFacts.set_NoDup|].
      apply Forall_values_set; [|exact Hall].
      apply entryOk_touched. exact (get_Some_holds entryOk id entry _ Hget Hall).
    + rewrite (executeCode_creating env id code w Hno). cbv zeta.
      destruct (createReply env (List.length (requests w))); simpl.
      * split; [now apply JsMapFacts.set_NoDup|].
        apply Forall_values_set; [apply entryOk_newEntry | exact Hall].
      * split; assumption.
  - destruct (JsMap.get id (sandboxCache w)) as [entry|] eqn:Hget.
    + rewrite (terminateSandbox_present env id w entry Hget). simpl.
      split; [now apply JsMapFacts.delete_NoDup | now apply Forall_values_delete].
    + rewrite (terminateSandbox_absent env id w Hget). split; assumption.
  - rewrite (cleanupExpiredSessions_world env w Hnd). simpl.
    split; [now apply NoDup_keys_kept | now apply Forall_values_kept].
  - rewrite getCacheStats_counts. simpl. split; assumption.
Qed.

Lemma performAll_storeOk (env : Env) (calls : list Call) :
  forall w, storeOk w -> storeOk (performAll env calls w).
Proof.
  unfold performAll.
  induction calls as [|c calls IH]; intros w Hok; simpl; [exact Hok|].
  apply IH. now apply perform_storeOk.
Qed.

Lemma empty_storeOk (w : World) : sandboxCache w = JsMap.empty -> storeOk w.
Proof.
  unfold storeOk. intros ->. split; constructor.
Qed.

(** X6. Whatever the provider and the clock do, after any sequence of calls
    of [executeCode], [terminateSandbox], the sweep and [getCacheStats] on a
    manager that started with an empty store, every entry of the store
    counts at least one execution and has for [sandboxId] the identifier of
    the sandbox it holds, and no session has two entries. *)
Theorem store_stays_wellformed (env : Env) (calls : list Call) (w : World) :
  sandboxCache w = JsMap.empty ->
  let w' := performAll env calls w in
  NoDup (JsMap.keys (sandboxCache w'))
  /\ forall chatSessionId entry,
       JsMap.get chatSessionId (sandboxCache w') = Some entry ->
       1 <= executionCount entry
       /\ sandboxId entry = E2B.sandboxId (sandbox entry).
Proof.
  intros Hempty. cbv zeta.
  destruct (performAll_storeOk env calls w (empty_storeOk w Hempty)) as [Hnd Hall].
  split; [exact Hnd|].
  intros id entry Hget. exact (get_Some_holds entryOk id entry _ Hget Hall).
Qed.

Lemma store_stays_wellformed_witness :
  let w' := performAll Demo.healthy
              [CallExecuteCode "a" "x = 1"; CallExecuteCode "b" "y = 2";
               CallExecuteCode "a" "x"; CallTerminateSandbox "b";
               CallCleanupExpiredSessions; CallGetCacheStats] Demo.fresh in
  NoDup (JsMap.keys (sandboxCache w'))
  /\ exists entry,
       JsMap.get "a" (sandboxCache w') = Some entry
       /\ 1 <= executionCount entry
       /\ sandboxId entry = E2B.sandboxId (sandbox entry).
Proof.
  cbv zeta.
  destruct (store_stays_wellformed Demo.healthy
              [CallExecuteCode "a" "x = 1"; CallExecuteCode "b" "y = 2";
               CallExecuteCode "a" "x"; CallTerminateSandbox "b";
               CallCleanupExpiredSessions; CallGetCacheStats] Demo.fresh eq_refl)
    as [Hnd Hall].
  split; [exact Hnd|].
  eexists. split; [vm_compute; reflexivity|].
  apply (Hall "a"). vm_compute. reflexivity.
Defined.

Lemma timesOk_later (env : Env) (m : JsMap.t SandboxCacheEntry) (n n' : nat) :
  monotone env -> (n <= n')%nat ->
  Forall (fun entry => createdAt entry <= lastUsedAt entry
                       /\ lastUsedAt entry <= clock env n) (JsMap.values m) ->
  Forall (fun entry => createdAt entry <= lastUsedAt entry
                       /\ lastUsedAt entry <= clock env n') (JsMap.values m).
Proof.
  intros Hmono Hle Hall. eapply Forall_impl; [|exact Hall].
  simpl. intros entry [H1 H2]. split; [exact H1|].
  pose proof (Hmono n n' Hle). lia.
Qed.

Lemma perform_timesOk (env : Env) (c : Call) (w : World) :
  monotone env -> storeOk w -> timesOk env w -> timesOk env (perform env c w).
Proof.
  unfold timesOk. intros Hmono [Hnd _] Hall.
  destruct c as [id code | id | |]; simpl.
  - destruct (executeCode_meets_store env id w) as [(entry & Hget & Hvalid) | Hno].
    + rewrite (executeCode_reusing env id code w entry Hget Hvalid). simpl.
      apply Forall_values_set.
      * pose proof (get_Some_holds _ id entry _ Hget Hall) as [H1 H2].
        simpl in H1, H2. simpl.
        pose proof (Hmono (clockReads w) (S (S (clockReads w))) ltac:(lia)).
        pose proof (Hmono (S (S (clockReads w)))
                      (S (S (S (S (clockReads w))))) ltac:(lia)).
        lia.
      * apply (timesOk_later env _ (clockReads w)); [exact Hmono | lia | exact Hall].
    + rewrite (executeCode_creating env id code w Hno). cbv zeta.
      pose proof (clockReads_afterLookup id (tick w)) as Hc. simpl in Hc.
      destruct (createReply env (List.length (requests w))); simpl.
      * apply Forall_values_set.
        -- simpl.
           pose proof (Hmono (clockReads (afterLookup id (tick w)))
                         (S (clockReads (afterLookup id (tick w)))) ltac:(lia)).
           pose proof (Hmono (S (clockReads (afterLookup id (tick w))))
                         (S (S (S (clockReads (afterLookup id (tick w))))))
                         ltac:(lia)).
           lia.
        -- apply (timesOk_later env _ (clockReads w));
             [exact Hmono | lia | exact Hall].
      * apply (timesOk_later env _ (clockReads w));
          [exact Hmono | lia | exact Hall].
  - destruct (JsMap.get id (sandboxCache w)) as [entry|] eqn:Hget.
    + rewrite (terminateSandbox_present env id w entry Hget). simpl.
      now apply Forall_values_delete.
    + now rewrite (terminateSandbox_absent env id w Hget).
  - rewrite (cleanupExpiredSessions_world env w Hnd). simpl.
    apply Forall_values_kept.
    apply (timesOk_later env _ (clockReads w)); [exact Hmono | lia | exact Hall].
  - rewrite getCacheStats_counts. simpl.
    apply (timesOk_later env _ (clockReads w)); [exact Hmono | lia | exact Hall].
Qed.

Lemma performAll_timesOk (env : Env) (calls : list Call) :
  monotone env ->
  forall w, storeOk w -> timesOk env w -> timesOk env (performAll env calls w).
Proof.
  intros Hmono. unfold performAll.
  induction calls as [|c calls IH]; intros w Hok Ht; simpl; [exact Ht|].
  apply IH; [now apply perform_storeOk | now apply perform_timesOk].
Qed.

(** X7. When the clock never goes back, after any sequence of public calls
    on a manager that started with an empty store, every entry has
    [createdAt <= lastUsedAt], and no entry is stamped later than the next
    reading of the clock. *)
Theorem lastUsedAt_not_before_createdAt (env : Env) (calls : list Call) (w : World) :
  monotone env ->
  sandboxCache w = JsMap.empty ->
  let w' := performAll env calls w in
  forall chatSessionId entry,
    JsMap.get chatSessionId (sandboxCache w') = Some entry ->
    createdAt entry <= lastUsedAt entry
    /\ lastUsedAt entry <= clock env (clockReads w').
Proof.
  intros Hmono Hempty. cbv zeta. intros id entry Hget.
  assert (Ht : timesOk env w) by (unfold timesOk; rewrite Hempty; constructor).
  pose proof (performAll_timesOk env calls Hmono w (empty_storeOk w Hempty) Ht) as Hall.
  exact (get_Some_holds _ id entry _ Hget Hall).
Qed.

Lemma healthy_monotone : monotone Demo.healthy.
Proof.
  unfold monotone. simpl. intros i j Hij. lia.
Qed.

Lemma lastUsedAt_not_before_createdAt_witness :
  let w' := performAll Demo.healthy
              [CallExecuteCode "a" "x = 1"; CallExecuteCode "a" "x"] Demo.fresh in
  exists entry,
    JsMap.get "a" (sandboxCache w') = Some entry
    /\ createdAt entry <= lastUsedAt entry
    /\ lastUsedAt entry <= clock Demo.healthy (clockReads w').
Proof.
  cbv zeta. eexists. split; [vm_compute; reflexivity|].
  apply (lastUsedAt_not_before_createdAt Demo.healthy
           [CallExecuteCode "a" "x = 1"; CallExecuteCode "a" "x"] Demo.fresh
           healthy_monotone eq_refl "a").
  vm_compute. reflexivity.
Defined.

Lemma activeFrom_length (env : Env) (entries : list SandboxCacheEntry) :
  forall n, (List.length (activeFrom env n entries) <= List.length entries)%nat.
Proof.
  induction entries as [|entry rest IH]; intros n; simpl; [lia|].
  specialize (IH (S n)).
  destruct (validAt (clock env n) entry); simpl; lia.
Qed.

Lemma sum_counts_at_least_length (entries : list SandboxCacheEntry) :
  Forall entryOk entries ->
  Z.of_nat (List.length entries) <= sumZ (map executionCount entries).
Proof.
  induction 1 as [|entry rest [Hcount _] _ IH]; simpl; lia.
Qed.

(** X8. On a manager that started with an empty store, after any sequence of
    public calls the statistics are ordered:
    [0 <= activeSessions <= totalSessions <= totalExecutions]. *)
Theorem stats_ordered (env : Env) (calls : list Call) (w : World) :
  sandboxCache w = JsMap.empty ->
  exists st w',
    getCacheStats env (performAll env calls w) = (Return st, w')
    /\ 0 <= activeSessions st
    /\ activeSessions st <= totalSessions st
    /\ totalSessions st <= totalExecutions st.
Proof.
  intros Hempty.
  destruct (performAll_storeOk env calls w (empty_storeOk w Hempty)) as [_ Hall].
  rewrite getCacheStats_counts. eexists; eexists; split; [reflexivity|]. simpl.
  split; [lia|]. split.
  - pose proof (activeFrom_length env
                  (JsMap.values (sandboxCache (performAll env calls w)))
                  (clockReads (performAll env calls w))) as Hlen.
    unfold JsMap.values in Hlen at 2. rewrite length_map in Hlen. lia.
  - pose proof (sum_counts_at_least_length _ Hall) as Hsum.
    unfold JsMap.values in Hsum at 1. rewrite length_map in Hsum. exact Hsum.
Qed.

Lemma stats_ordered_witness :
  exists st w',
    getCacheStats Demo.slow
      (performAll Demo.slow
         [CallExecuteCode "a" "x = 1"; CallExecuteCode "b" "y = 2";
          CallExecuteCode "b" "y"] Demo.fresh)
    = (Return st, w')
    /\ 0 <= activeSessions st
    /\ activeSessions st <= totalSessions st
    /\ totalSessions st <= totalExecutions st.
Proof.
  exact (stats_ordered Demo.slow _ Demo.fresh eq_refl).
Defined.

(** X9. Expiry is permanent for an entry that is not touched: when the clock
    never goes back and [isSessionValid] answers false for an entry, it
    answers false for the same entry at every later reading of the clock. *)
Theorem expiry_is_permanent (env : Env) (entry : SandboxCacheEntry) (w w' : World) :
  monotone env ->
  (clockReads w <= clockReads w')%nat ->
  fst (isSessionValid env entry w) = Return false ->
  fst (isSessionValid env entry w') = Return false.
Proof.
  unfold isSessionValid. run_monad. simpl.
  intros Hmono Hle Hexp. injection Hexp as Hexp. f_equal.
  apply validAt_false_iff in Hexp. apply validAt_false_iff.
  pose proof (Hmono _ _ Hle). lia.
Qed.

Lemma expiry_is_permanent_witness :
  fst (isSessionValid Demo.slow Demo.oldEntry
         {| sandboxCache := []; clockReads := 5; requests := [] |})
  = Return false.
Proof.
  apply (expiry_is_permanent Demo.slow Demo.oldEntry Demo.oneSession).
  - unfold monotone. simpl. intros i j Hij. nia.
  - simpl. lia.
  - reflexivity.
Defined.

(** X10. When [executeCode] finds no valid entry and the provider fails to
    create a sandbox, the call returns the message
    "Failed to create E2B sandbox: ..." in [error], sends no run to the
    provider, and leaves the store as it was: a stale entry of the session
    stays in the store. *)
Theorem executeCode_creation_failure (env : Env) (chatSessionId code : string)
    (w : World) (cause : Js.Thrown) :
  noValidEntry env chatSessionId (tick w) = true ->
  createReply env (List.length (requests w)) = Throw cause ->
  exists r w',
    executeCode env chatSessionId code w = (Return r, w')
    /\ error r = Some ("Failed to create E2B sandbox: "
                       ++ Js.messageOr "Unknown error" cause)
    /\ stdout r = "" /\ images r = []
    /\ sandboxCache w' = sandboxCache w
    /\ requests w' = (requests w ++ [E2B.Create (timeout env)])%list.
Proof.
  intros Hno Hcreate. rewrite executeCode_cases. cbv zeta.
  rewrite (getOrCreateSandbox_create env chatSessionId (tick w) Hno). cbv zeta.
  simpl requests. rewrite Hcreate.
  eexists; eexists; split; [reflexivity|]. simpl. repeat split.
Qed.

Lemma executeCode_creation_failure_witness :
  exists r w',
    executeCode Demo.broken "s" "x" Demo.oneSession = (Return r, w')
    /\ error r = Some "Failed to create E2B sandbox: quota exceeded"
    /\ JsMap.get "s" (sandboxCache w') = Some Demo.oldEntry.
Proof.
  destruct (executeCode_creation_failure Demo.broken "s" "x" Demo.oneSession
              (Js.ErrorObject "quota exceeded") eq_refl eq_refl)
    as (r & w' & Hrun & Herr & _ & _ & Hstore & _).
  exists r, w'. split; [exact Hrun|]. split; [exact Herr|].
  rewrite Hstore. reflexivity.
Defined.

(** ** The singleton and its timer *)

Module LifecycleFacts.

Import Lifecycle.

Lemma step_tidy (o : Op) (p : Process) : tidy p -> tidy (step o p).
Proof.
  unfold tidy. destruct o as [penv|]; simpl.
  - unfold getInstance. destruct (instance p) as [m|] eqn:Hi.
    + now rewrite Hi.
    + intros Hnone. simpl. now rewrite Hnone.
  - unfold stopCleanupJob. destruct (instance p) as [m|] eqn:Hi.
    + destruct (cleanupInterval m) as [h|] eqn:Hc.
      * intros Hone. simpl. rewrite Hone. simpl. now rewrite Nat.eqb_refl.
      * rewrite Hi, Hc. trivial.
    + now rewrite Hi.
Qed.

Lemma steps_tidy (ops : list Op) : forall p, tidy p -> tidy (steps ops p).
Proof.
  unfold steps. induction ops as [|o ops IH]; intros p Ht; simpl; [exact Ht|].
  apply IH. now apply step_tidy.
Qed.

Lemma step_stopped (o : Op) (p : Process) : stopped p -> stopped (step o p).
Proof.
  intros [(m & Hi & Hc) Hnone]. destruct o as [penv|]; simpl.
  - unfold getInstance. rewrite Hi. split; [now exists m | exact Hnone].
  - unfold stopCleanupJob. rewrite Hi, Hc. split; [now exists m | exact Hnone].
Qed.

Lemma steps_stopped (ops : list Op) : forall p, stopped p -> stopped (steps ops p).
Proof.
  unfold steps. induction ops as [|o ops IH]; intros p Hs; simpl; [exact Hs|].
  apply IH. now apply step_stopped.
Qed.

Lemma steps_app (ops1 ops2 : list Op) (p : Process) :
  steps (ops1 ++ ops2) p = steps ops2 (steps ops1 p).
Proof. unfold steps. apply fold_left_app. Qed.

(** X11. However often [getInstance] and [stopCleanupJob] are called from
    the start of the process, at most one cleanup interval is registered,
    with a period of five minutes, and it is the one the instance holds. *)
Theorem one_cleanup_interval (ops : list Op) :
  let p := steps ops boot in
  (List.length (intervals p) <= 1)%nat
  /\ Forall (fun i => periodMs i = 300000) (intervals p)
  /\ (forall i, In i (intervals p) ->
        exists m, instance p = Some m /\ cleanupInterval m = Some (handle i)).
Proof.
  cbv zeta. pose proof (steps_tidy ops boot eq_refl) as Ht.
  unfold tidy in Ht.
  destruct (instance (steps ops boot)) as [m|].
  - destruct (cleanupInterval m) as [h|] eqn:Hc; rewrite Ht; simpl.
    + split; [lia|]. split; [repeat constructor|].
      intros i [<-|[]]. exists m. split; [reflexivity | exact Hc].
    + split; [lia|]. split; [constructor | intros i []].
  - rewrite Ht. simpl. split; [lia|]. split; [constructor | intros i []].
Qed.

(** X12. Once [stopCleanupJob] has been called on the instance, no later
    call of [getInstance] or [stopCleanupJob] registers an interval again:
    the sweep stays off for the rest of the process. *)
Theorem stopped_sweep_never_restarts (penv : JsString.ProcessEnv)
    (before after : list Op) :
  intervals
    (steps (before ++ OpGetInstance penv :: OpStopCleanupJob :: after) boot)
  = [].
Proof.
  rewrite steps_app.
  change (steps (OpGetInstance penv :: OpStopCleanupJob :: after) ?p)
    with (steps after (stopCleanupJob (getInstance penv p))).
  apply steps_stopped.
  pose proof (step_tidy (OpGetInstance penv) _ (steps_tidy before boot eq_refl))
    as Ht.
  simpl in Ht. unfold tidy in Ht. unfold stopped, stopCleanupJob.
  destruct (instance (getInstance penv (steps before boot))) as [m|] eqn:Hi.
  - destruct (cleanupInterval m) as [h|] eqn:Hc.
    + simpl. rewrite Ht. simpl. rewrite Nat.eqb_refl.
      split; [eexists; split; reflexivity | reflexivity].
    + rewrite Hi. split; [exists m; split; [reflexivity | exact Hc] | exact Ht].
  - exfalso. unfold getInstance in Hi.
    destruct (instance (steps before boot)) eqn:Hb; [congruence | discriminate].
Qed.

Lemma step_keeps_configuration (o : Op) (p : Process) (m : Manager) :
  instance p = Some m ->
  exists m', instance (step o p) = Some m'
             /\ apiKey m' = apiKey m /\ timeoutField m' = timeoutField m.
Proof.
  intros Hi. destruct o as [penv|]; simpl.
  - unfold getInstance. rewrite Hi. now exists m.
  - unfold stopCleanupJob. rewrite Hi.
    destruct (cleanupInterval m); [|now exists m].
    eexists. simpl. repeat split.
Qed.

(** X13. The environment is read once: the API key and the timeout of the
    instance are those read by the first [getInstance], from [E2B_API_KEY]
    (the empty string when unset) and [E2B_TIMEOUT] (120000 when unset or
    empty), whatever the environment holds at later calls. *)
Theorem configuration_read_once (penv : JsString.ProcessEnv) (ops : list Op) :
  exists m,
    instance (steps (OpGetInstance penv :: ops) boot) = Some m
    /\ apiKey m = JsString.orElse (penv "E2B_API_KEY") ""
    /\ timeoutField m
       = JsString.parseInt10 (JsString.orElse (penv "E2B_TIMEOUT") "120000")
    /\ (Js.truthy (penv "E2B_TIMEOUT") = false -> timeoutField m = Some 120000).
Proof.
  change (steps (OpGetInstance penv :: ops) boot)
    with (steps ops (getInstance penv boot)).
  assert (H : forall ops p m0, instance p = Some m0 ->
              exists m, instance (steps ops p) = Some m
                        /\ apiKey m = apiKey m0
                        /\ timeoutField m = timeoutField m0).
  { clear. unfold steps. induction ops as [|o ops IH]; intros p m0 Hi; simpl.
    - now exists m0.
    - destruct (step_keeps_configuration o p m0 Hi) as (m1 & Hi1 & Hk & Ht).
      destruct (IH _ m1 Hi1) as (m & Hm & Hk' & Ht').
      exists m. split; [exact Hm|]. split; congruence. }
  destruct (H ops (getInstance penv boot) _ eq_refl) as (m & Hm & Hk & Ht).
  exists m. split; [exact Hm|]. split; [exact Hk|]. split; [exact Ht|].
  intros Hunset. rewrite Ht. simpl. unfold JsString.orElse. rewrite Hunset.
  reflexivity.
Qed.

Lemma configuration_read_once_witness :
  exists m,
    instance
      (steps [OpGetInstance (JsString.envOf [("E2B_API_KEY", "k1")]);
              OpGetInstance (JsString.envOf [("E2B_TIMEOUT", "5000")])] boot)
    = Some m
    /\ timeoutField m = Some 120000.
Proof.
  destruct (configuration_read_once (JsString.envOf [("E2B_API_KEY", "k1")])
              [OpGetInstance (JsString.envOf [("E2B_TIMEOUT", "5000")])])
    as (m & Hm & _ & _ & Hdefault).
  exists m. split; [exact Hm | exact (Hdefault eq_refl)].
Defined.

End LifecycleFacts.

(** ** Model configuration *)

Module ModelConfigFacts.

Import JsString ModelConfig.

Lemma strategyOfString_gateway_only (s : string) :
  strategyOfString s = Some gateway_only <-> s = "gateway-only".
Proof.
  unfold strategyOfString.
  destruct (String.eqb_spec s "disabled") as [->|H1]; [split; discriminate|].
  destruct (String.eqb_spec s "fallback") as [->|H2]; [split; discriminate|].
  destruct (String.eqb_spec s "primary") as [->|H3]; [split; discriminate|].
  destruct (String.eqb_spec s "gateway-only") as [->|H4];
    [split; reflexivity | split; [discriminate | contradiction]].
Qed.

Lemma gateway_getModelConfig (penv : ProcessEnv) :
  gateway (getModelConfig penv) = getGatewayConfig penv.
Proof.
  unfold getModelConfig. destruct (getModelProvider penv); reflexivity.
Qed.

Lemma getGatewayConfig_invariants (penv : ProcessEnv) :
  let g := getGatewayConfig penv in
  (enabled g = true <-> strategy g <> disabled)
  /\ (strategy g = gateway_only -> Js.truthy (apiKey g) = true)
  /\ Forall (fun m => includesChar "/"%char m = true) (modelFallbacks g).
Proof.
  cbv zeta. unfold getGatewayConfig.
  destruct (strategyOfString _) as [s|].
  - destruct s; destruct (Js.truthy (penv "AI_GATEWAY_API_KEY")) eqn:Hkey; simpl;
      (split; [split; [intros; discriminate | intros; congruence]|]);
      (split; [intros; congruence || assumption|]);
      try (apply Forall_forall; intros m Hm; apply filter_In in Hm; tauto);
      constructor.
  - simpl. split; [split; [discriminate | congruence]|].
    split; [discriminate | constructor].
Qed.

(** X14. The gateway configuration read from the environment is consistent
    whatever the environment holds: the gateway is enabled exactly when the
    strategy is not "disabled"; the strategy "gateway-only" is returned only
    with a non-empty [AI_GATEWAY_API_KEY]; every model fallback kept holds
    a slash. *)
Theorem gateway_config_consistent (penv : ProcessEnv) :
  let g := getGatewayConfig penv in
  (enabled g = true <-> strategy g <> disabled)
  /\ (strategy g = gateway_only ->
      exists key, penv "AI_GATEWAY_API_KEY" = Some key /\ key <> ""
                  /\ apiKey g = Some key)
  /\ Forall (fun m => includesChar "/"%char m = true) (modelFallbacks g).
Proof.
  cbv zeta.
  destruct (getGatewayConfig_invariants penv) as (Hen & Hkey & Hfb).
  split; [exact Hen|]. split; [|exact Hfb].
  intros Hs. specialize (Hkey Hs).
  assert (Hg : apiKey (getGatewayConfig penv) = penv "AI_GATEWAY_API_KEY").
  { revert Hs. unfold getGatewayConfig.
    destruct (strategyOfString _) as [s|]; [|discriminate].
    destruct s; destruct (Js.truthy (penv "AI_GATEWAY_API_KEY"));
      simpl; intros; congruence. }
  rewrite Hg in *.
  destruct (penv "AI_GATEWAY_API_KEY") as [[|c key]|]; try discriminate.
  eexists. split; [reflexivity|]. split; [discriminate | reflexivity].
Qed.

Lemma gateway_config_consistent_witness :
  strategy (getGatewayConfig (envOf [("AI_GATEWAY_STRATEGY", "Gateway-Only")]))
  = disabled
  /\ exists key,
       apiKey (getGatewayConfig
                 (envOf [("AI_GATEWAY_STRATEGY", "Gateway-Only");
                         ("AI_GATEWAY_API_KEY", "k")])) = Some key.
Proof.
  split; [reflexivity|].
  destruct (gateway_config_consistent
              (envOf [("AI_GATEWAY_STRATEGY", "Gateway-Only");
                      ("AI_GATEWAY_API_KEY", "k")])) as (_ & Hkey & _).
  destruct (Hkey eq_refl) as (key & _ & _ & Hg). now exists key.
Defined.

Lemma selectDirectModel_outcome (modelId : string) (cfg : ModelConfig)
    (ctx : ModelSelectionContext) :
  match selectDirectModel modelId cfg ctx with
  | Throw e =>
      hasApiKey cfg = false /\ e = Js.ErrorObject (missingKeyMessage (provider cfg))
  | Return info =>
      hasApiKey cfg = true /\ usesGateway info = false
  end.
Proof.
  unfold selectDirectModel.
  destruct (hasApiKey cfg); simpl.
  - destruct (userTier ctx) as [[| |]|], (Js.truthy (userId ctx)), (isDevelopment ctx);
      split; reflexivity.
  - split; [reflexivity|]. destruct (provider cfg); reflexivity.
Qed.

(** X15. [selectModel] throws only when the provider's API key is missing
    and the strategy is "disabled" or "primary", and what it throws is the
    error "<PROVIDER>_API_KEY is required when gateway is disabled or
    unavailable"; with the strategies "fallback" and "gateway-only", or with
    the provider's key set, it always returns a model; and a model returned
    for direct use is never returned without the provider's key. *)
Theorem selectModel_outcome (penv : ProcessEnv) (modelId : string)
    (ctx : ModelSelectionContext) :
  let cfg := getModelConfig penv in
  (forall e,
      selectModel penv modelId ctx = Throw e ->
      hasApiKey cfg = false
      /\ (strategy (gateway cfg) = disabled \/ strategy (gateway cfg) = primary)
      /\ e = Js.ErrorObject (missingKeyMessage (provider cfg)))
  /\ (strategy (gateway cfg) = fallback \/ strategy (gateway cfg) = gateway_only
      \/ hasApiKey cfg = true ->
      exists info, selectModel penv modelId ctx = Return info)
  /\ (forall info,
        selectModel penv modelId ctx = Return info ->
        usesGateway info = false -> hasApiKey cfg = true).
Proof.
  cbv zeta. unfold selectModel.
  pose proof (selectDirectModel_outcome modelId (getModelConfig penv) ctx) as Hd.
  destruct (strategy (gateway (getModelConfig penv))) eqn:Hs;
    destruct (hasApiKey (getModelConfig penv)) eqn:Hk;
    try destruct (Js.truthy (apiKey (gateway (getModelConfig penv)))
                  || isVercelDeployment penv);
    destruct (selectDirectModel modelId (getModelConfig penv) ctx) as [i|e0];
    repeat split; intros;
    repeat match goal with
           | H : Throw _ = Throw _ |- _ => injection H as <-
           | H : Return _ = Return _ |- _ => injection H as <-
           | H : _ /\ _ |- _ => destruct H
           end;
    subst; simpl in *;
    try discriminate; try congruence; try tauto;
    try (eexists; reflexivity);
    try (repeat match goal with H : _ \/ _ |- _ => destruct H end; discriminate).
Qed.

Lemma selectModel_outcome_witness :
  (exists info,
      selectModel (envOf [("AI_GATEWAY_STRATEGY", "fallback")]) "m"
        {| userId := None; userTier := None; feature := None;
           isDevelopment := false |} = Return info)
  /\ selectModel (envOf []) "m"
       {| userId := None; userTier := None; feature := None;
          isDevelopment := false |}
     = Throw (Js.ErrorObject
                "ANTHROPIC_API_KEY is required when gateway is disabled or unavailable").
Proof.
  split.
  - destruct (selectModel_outcome (envOf [("AI_GATEWAY_STRATEGY", "fallback")]) "m"
                {| userId := None; userTier := None; feature := None;
                   isDevelopment := false |}) as (_ & Hret & _).
    exact (Hret (or_introl eq_refl)).
  - destruct (selectModel_outcome (envOf []) "m"
                {| userId := None; userTier := None; feature := None;
                   isDevelopment := false |}) as (Hthrow & _ & _).
    destruct (Hthrow _ eq_refl) as (_ & _ & He).
    reflexivity.
Defined.

(** X16. The billing wrapper is applied on the direct path only: when
    [selectModel] returns a Polar-tracked model, the model is not served by
    the gateway, the user is a pay-per-use user with a non-empty id, the
    context is not development, and the wrapped model is the one asked
    for. *)
Theorem polar_tracking_is_direct (penv : ProcessEnv) (modelId : string)
    (ctx : ModelSelectionContext) (info : SelectedModelInfo) (u m : string) :
  selectModel penv modelId ctx = Return info ->
  model info = PolarTracked u m ->
  usesGateway info = false
  /\ userTier ctx = Some pay_per_use
  /\ userId ctx = Some u /\ u <> ""
  /\ isDevelopment ctx = false
  /\ m = modelId
  /\ hasApiKey (getModelConfig penv) = true.
Proof.
  assert (Hdirect : forall cfg,
             selectDirectModel modelId cfg ctx = Return info ->
             model info = PolarTracked u m ->
             usesGateway info = false
             /\ userTier ctx = Some pay_per_use
             /\ userId ctx = Some u /\ u <> ""
             /\ isDevelopment ctx = false
             /\ m = modelId
             /\ hasApiKey cfg = true).
  { intros cfg. unfold selectDirectModel.
    destruct (hasApiKey cfg); simpl; [|discriminate].
    destruct (userTier ctx) as [[| |]|];
      destruct (userId ctx) as [[|c uid]|]; simpl;
      destruct (isDevelopment ctx); simpl;
      try (destruct (provider cfg); intros [= <-]; simpl; discriminate).
    intros [= <-]. simpl. intros [= <- <-].
    repeat split; discriminate. }
  unfold selectModel.
  destruct (strategy (gateway (getModelConfig penv)));
    try destruct (hasApiKey (getModelConfig penv)) eqn:Hk;
    try destruct (Js.truthy (apiKey (gateway (getModelConfig penv)))
                  || isVercelDeployment penv);
    try (intros [= <-]; simpl; discriminate);
    intros Hsel Hmodel;
    destruct (Hdirect _ Hsel Hmodel) as (H1 & H2 & H3 & H4 & H5 & H6 & H7);
    repeat split; try assumption; congruence.
Qed.

Lemma polar_tracking_is_direct_witness :
  let penv := envOf [("ANTHROPIC_API_KEY", "k")] in
  let ctx := {| userId := Some "u1"; userTier := Some pay_per_use;
                feature := None; isDevelopment := false |} in
  selectModel penv "m" ctx
  = Return {| model := PolarTracked "u1" "m";
              description := "Anthropic (m) - Polar Tracked";
              usesGateway := false; tags := None |}
  /\ hasApiKey (getModelConfig penv) = true.
Proof.
  cbv zeta. split; [reflexivity|].
  destruct (polar_tracking_is_direct (envOf [("ANTHROPIC_API_KEY", "k")]) "m"
              {| userId := Some "u1"; userTier := Some pay_per_use;
                 feature := None; isDevelopment := false |}
              _ "u1" "m" eq_refl eq_refl)
    as (_ & _ & _ & _ & _ & _ & H7).
  exact H7.
Defined.

(** X17. [getProviderOptions] adds gateway options exactly when the caller
    says the model uses the gateway and the strategy read from the
    environment is not "disabled"; otherwise it returns the provider's base
    options alone. *)
Theorem gateway_options_when_enabled (penv : ProcessEnv) (p : ModelProvider)
    (ctx : option OptionsContext) :
  base (getProviderOptions penv p ctx) = p
  /\ (gatewayOptions (getProviderOptions penv p ctx) <> None
      <-> (exists c, ctx = Some c /\ ctxUsesGateway c = Some true)
          /\ strategy (getGatewayConfig penv) <> disabled).
Proof.
  pose proof (getGatewayConfig_invariants penv) as (Hen & _ & _).
  cbv zeta in Hen.
  unfold getProviderOptions. rewrite gateway_getModelConfig.
  destruct ctx as [c|]; simpl.
  - destruct (ctxUsesGateway c) as [[|]|] eqn:Hu; simpl.
    + destruct (enabled (getGatewayConfig penv)) eqn:He; simpl.
      * split; [reflexivity|]. split; [|intros; discriminate].
        intros _. split; [now exists c | now apply Hen].
      * split; [reflexivity|]. split; [congruence|].
        intros [_ Hs]. apply Hen in Hs. discriminate.
    + split; [reflexivity|]. split; [congruence|].
      intros [(c' & [= <-] & Hc) _]. congruence.
    + split; [reflexivity|]. split; [congruence|].
      intros [(c' & [= <-] & Hc) _]. congruence.
  - split; [reflexivity|]. split; [congruence|].
    intros [(c' & Hc & _) _]. discriminate.
Qed.

Lemma gateway_options_when_enabled_witness :
  gatewayOptions
    (getProviderOptions (envOf [("AI_GATEWAY_STRATEGY", "primary")]) openai
       (Some {| ctxUserId := None; ctxUserTier := None; ctxFeature := None;
                ctxUsesGateway := Some true; ctxTags := None |}))
  <> None.
Proof.
  apply (gateway_options_when_enabled (envOf [("AI_GATEWAY_STRATEGY", "primary")])
           openai).
  split; [eexists; split; reflexivity | discriminate].
Defined.

End ModelConfigFacts.

(** ** Validation of the environment *)

Module EnvValidationFacts.

Import JsString EnvValidation.

Lemma pushUnless_none (present : bool) (message : string) (l : list string) :
  Nat.eqb (List.length (pushUnless present message l)) 0
  = present && Nat.eqb (List.length l) 0.
Proof.
  unfold pushUnless. destruct present; [reflexivity|].
  rewrite length_app. simpl. now rewrite Nat.add_comm.
Qed.

Lemma pushIf_none (cond : bool) (message : string) (l : list string) :
  Nat.eqb (List.length (pushIf cond message l)) 0
  = negb cond && Nat.eqb (List.length l) 0.
Proof.
  unfold pushIf. destruct cond; [|reflexivity].
  rewrite length_app. simpl. now rewrite Nat.add_comm.
Qed.

Lemma valid_as_conditions (penv : ProcessEnv) :
  let set (name : string) : bool := Js.truthy (penv name) in
  let isDevelopment :=
    match penv "NODE_ENV" with
    | Some s => String.eqb s "development"
    | None => false
    end in
  let gatewayOnly :=
    match penv "AI_GATEWAY_STRATEGY" with
    | Some s => String.eqb (toLowerCase s) "gateway-only"
    | None => false
    end in
  valid (validatePaymentEnvironment penv)
  = set "NEXT_PUBLIC_SUPABASE_URL"
    && startsWith "https://" (Js.str (penv "NEXT_PUBLIC_SUPABASE_URL"))
    && set "NEXT_PUBLIC_SUPABASE_ANON_KEY"
    && set "SUPABASE_SERVICE_ROLE_KEY"
    && (isDevelopment
        || (set "POLAR_ACCESS_TOKEN" && set "POLAR_WEBHOOK_SECRET"
            && set "POLAR_UNLIMITED_PRODUCT_ID"
            && set "POLAR_PAY_PER_USE_PRODUCT_ID"))
    && (negb gatewayOnly || set "AI_GATEWAY_API_KEY").
Proof.
  cbv zeta. unfold validatePaymentEnvironment. cbv beta zeta.
  cbv beta iota delta [valid].
  rewrite !pushIf_none.
  assert (Hgw : match option_map toLowerCase (penv "AI_GATEWAY_STRATEGY") with
                | Some s => String.eqb s "gateway-only"
                | None => false
                end
                = match penv "AI_GATEWAY_STRATEGY" with
                  | Some s => String.eqb (toLowerCase s) "gateway-only"
                  | None => false
                  end)
    by (destruct (penv "AI_GATEWAY_STRATEGY"); reflexivity).
  rewrite Hgw. clear Hgw.
  destruct (match penv "NODE_ENV" with
            | Some s => String.eqb s "development"
            | None => false
            end); cbv beta iota delta [negb];
    rewrite !pushUnless_none; simpl List.length; simpl Nat.eqb;
    destruct (Js.truthy (penv "NEXT_PUBLIC_SUPABASE_URL"));
    destruct (startsWith "https://" (Js.str (penv "NEXT_PUBLIC_SUPABASE_URL")));
    destruct (Js.truthy (penv "NEXT_PUBLIC_SUPABASE_ANON_KEY"));
    destruct (Js.truthy (penv "SUPABASE_SERVICE_ROLE_KEY"));
    destruct (Js.truthy (penv "AI_GATEWAY_API_KEY"));
    destruct (match penv "AI_GATEWAY_STRATEGY" with
              | Some s => String.eqb (toLowerCase s) "gateway-only"
              | None => false
              end);
    try reflexivity;
    destruct (Js.truthy (penv "POLAR_ACCESS_TOKEN"));
    destruct (Js.truthy (penv "POLAR_WEBHOOK_SECRET"));
    destruct (Js.truthy (penv "POLAR_UNLIMITED_PRODUCT_ID"));
    destruct (Js.truthy (penv "POLAR_PAY_PER_USE_PRODUCT_ID"));
    reflexivity.
Qed.

(** X18. The environment is valid exactly when the three Supabase variables
    are set, the Supabase URL starts with "https://", the four Polar
    variables are set unless [NODE_ENV] is "development", and the gateway
    API key is set when the gateway strategy is "gateway-only" (in any
    letter case); warnings never make it invalid. *)
Theorem valid_iff_requirements (penv : ProcessEnv) :
  valid (validatePaymentEnvironment penv) = true
  <-> (forall name,
          In name ["NEXT_PUBLIC_SUPABASE_URL"; "NEXT_PUBLIC_SUPABASE_ANON_KEY";
                   "SUPABASE_SERVICE_ROLE_KEY"] ->
          Js.truthy (penv name) = true)
      /\ startsWith "https://" (Js.str (penv "NEXT_PUBLIC_SUPABASE_URL")) = true
      /\ (penv "NODE_ENV" <> Some "development" ->
          forall name,
            In name ["POLAR_ACCESS_TOKEN"; "POLAR_WEBHOOK_SECRET";
                     "POLAR_UNLIMITED_PRODUCT_ID"; "POLAR_PAY_PER_USE_PRODUCT_ID"] ->
            Js.truthy (penv name) = true)
      /\ (forall s,
            penv "AI_GATEWAY_STRATEGY" = Some s ->
            toLowerCase s = "gateway-only" ->
            Js.truthy (penv "AI_GATEWAY_API_KEY") = true).
Proof.
  pose proof (valid_as_conditions penv) as Hvalid. cbv zeta in Hvalid.
  rewrite Hvalid. clear Hvalid.
  rewrite !andb_true_iff, !orb_true_iff, !andb_true_iff.
  split.
  - intros (((((Hurl & Hhttps) & Hanon) & Hrole) & Hpolar) & Hgw).
    split; [|split; [exact Hhttps|split]].
    + intros name [<-|[<-|[<-|[]]]]; assumption.
    + intros Hprod name Hin. destruct Hpolar as [Hdev | (((H1 & H2) & H3) & H4)].
      * exfalso. apply Hprod.
        destruct (penv "NODE_ENV") as [ne|]; [|discriminate].
        apply String.eqb_eq in Hdev. now subst.
      * destruct Hin as [<-|[<-|[<-|[<-|[]]]]]; assumption.
    + intros s Hs Hlow. rewrite Hs, Hlow in Hgw. simpl in Hgw.
      destruct Hgw as [Hgw|Hgw]; [discriminate | exact Hgw].
  - intros (Hsupa & Hhttps & Hpolar & Hgw).
    repeat split; try (apply Hsupa; simpl; tauto); try exact Hhttps.
    + destruct (penv "NODE_ENV") as [ne|] eqn:Hne.
      * destruct (String.eqb_spec ne "development") as [->|Hnd]; [now left|].
        right. repeat split; apply Hpolar; simpl; try tauto; congruence.
      * right. repeat split; apply Hpolar; simpl; try tauto; discriminate.
    + destruct (penv "AI_GATEWAY_STRATEGY") as [s|] eqn:Hs; [|now left].
      destruct (String.eqb_spec (toLowerCase s) "gateway-only") as [Hlow|Hlow];
        [right; now apply (Hgw s) | now left].
Qed.

Lemma valid_iff_requirements_witness :
  valid (validatePaymentEnvironment
           (envOf [("NODE_ENV", "development");
                   ("NEXT_PUBLIC_SUPABASE_URL", "https://db.example");
                   ("NEXT_PUBLIC_SUPABASE_ANON_KEY", "anon");
                   ("SUPABASE_SERVICE_ROLE_KEY", "role")])) = true.
Proof.
  apply valid_iff_requirements. split; [|split; [reflexivity|split]].
  - intros name [<-|[<-|[<-|[]]]]; reflexivity.
  - intros Hprod. exfalso. apply Hprod. reflexivity.
  - intros s Hs. discriminate Hs.
Defined.

(** X19. A valid environment never has its gateway strategy downgraded:
    when the validation passes and [AI_GATEWAY_STRATEGY] names one of the
    four strategies (in any letter case), [getGatewayConfig] returns that
    strategy. *)
Theorem valid_env_keeps_gateway_strategy (penv : ProcessEnv) (v : string)
    (s : ModelConfig.GatewayStrategy) :
  valid (validatePaymentEnvironment penv) = true ->
  penv "AI_GATEWAY_STRATEGY" = Some v ->
  ModelConfig.strategyOfString (toLowerCase v) = Some s ->
  ModelConfig.strategy (ModelConfig.getGatewayConfig penv) = s.
Proof.
  intros Hvalid Hv Hs.
  pose proof (valid_as_conditions penv) as Hcond. cbv zeta in Hcond.
  rewrite Hcond in Hvalid. clear Hcond.
  rewrite Hv in Hvalid.
  apply andb_true_iff in Hvalid as [_ Hgw].
  unfold ModelConfig.getGatewayConfig. rewrite Hv. simpl option_map.
  unfold orElse.
  destruct (toLowerCase v) as [|c low] eqn:Hlow; [discriminate Hs|].
  simpl Js.truthy. cbv iota. simpl Js.str. rewrite Hs.
  destruct s; try (destruct (Js.truthy (penv "AI_GATEWAY_API_KEY")); reflexivity).
  apply ModelConfigFacts.strategyOfString_gateway_only in Hs.
  rewrite Hs in Hgw. simpl in Hgw. rewrite Hgw. reflexivity.
Qed.

Lemma valid_env_keeps_gateway_strategy_witness :
  ModelConfig.strategy
    (ModelConfig.getGatewayConfig
       (envOf [("NODE_ENV", "development");
               ("NEXT_PUBLIC_SUPABASE_URL", "https://db.example");
               ("NEXT_PUBLIC_SUPABASE_ANON_KEY", "anon");
               ("SUPABASE_SERVICE_ROLE_KEY", "role");
               ("AI_GATEWAY_STRATEGY", "GATEWAY-ONLY");
               ("AI_GATEWAY_API_KEY", "k")]))
  = ModelConfig.gateway_only.
Proof.
  apply (valid_env_keeps_gateway_strategy _ "GATEWAY-ONLY");
    [vm_compute; reflexivity | reflexivity | reflexivity].
Defined.

End EnvValidationFacts.

(** ** Billing events *)

Module PolarFacts.

Import JsString Polar.

Lemma get_spread_absent (k : string) (extra : JsMap.t Value) :
  forall literal,
    JsMap.get k extra = None ->
    JsMap.get k (spread literal extra) = JsMap.get k literal.
Proof.
  unfold spread.
  induction extra as [|[k0 v0] extra IH]; intros literal Hget; simpl;
    [reflexivity|].
  simpl in Hget. destruct (String.eqb_spec k k0) as [->|Hk]; [discriminate|].
  rewrite (IH _ Hget). apply JsMapFacts.get_set_other. congruence.
Qed.

Lemma get_spread_present (k : string) (v : Value) (extra : JsMap.t Value) :
  NoDup (JsMap.keys extra) ->
  forall literal,
    JsMap.get k extra = Some v ->
    JsMap.get k (spread literal extra) = Some v.
Proof.
  unfold spread.
  induction extra as [|[k0 v0] extra IH]; intros Hnd literal Hget; simpl;
    [discriminate|].
  simpl in Hget. inversion Hnd as [|? ? Hnot Hrest]; subst.
  destruct (String.eqb_spec k k0) as [->|Hk].
  - injection Hget as ->.
    fold (spread (JsMap.set k0 v literal) extra).
    rewrite get_spread_absent by (now apply JsMapFacts.get_None_not_In).
    apply JsMapFacts.get_set_same.
  - now apply IH.
Qed.

(** X20. [trackDarkModeSwitch] never throws, also when the Polar service
    rejects the event.  On a tracker built by the constructor it hands one
    event to the service exactly when the application mode is not
    "development" and the user id and the session id are non-empty; the
    event is named "dark_mode_switcher" and is billed to the user id. *)
Theorem trackDarkModeSwitch_sends (svc : Service) (penv : ProcessEnv) (t : Tracker)
    (userId sessionId fromTheme toTheme : string) (extra : JsMap.t Value)
    (l : Ledger) :
  construct penv = Return t ->
  let sends :=
    negb (isDevelopment t) && Js.truthy (Some userId) && Js.truthy (Some sessionId) in
  exists l',
    trackDarkModeSwitch svc t userId sessionId fromTheme toTheme extra l
    = (Return tt, l')
    /\ isDevelopment t
       = match penv "NEXT_PUBLIC_APP_MODE" with
         | Some s => String.eqb s "development"
         | None => false
         end
    /\ (sends = false -> l' = l)
    /\ (sends = true ->
        exists event,
          ingested l' = (ingested l ++ [event])%list
          /\ name event = "dark_mode_switcher"
          /\ externalCustomerId event = userId).
Proof.
  unfold construct. intros Hc. cbv zeta.
  unfold trackDarkModeSwitch.
  destruct (match penv "NEXT_PUBLIC_APP_MODE" with
            | Some s => String.eqb s "development"
            | None => false
            end) eqn:Hdev; simpl in Hc.
  - injection Hc as <-. simpl. exists l. repeat split. discriminate.
  - destruct (Js.truthy (penv "POLAR_ACCESS_TOKEN")); simpl in Hc; [|discriminate].
    injection Hc as <-. simpl.
    destruct userId as [|c1 userId], sessionId as [|c2 sessionId]; simpl;
      try (exists l; repeat split; discriminate).
    destruct (ingestReply svc (List.length (ingested l)));
      (eexists; split; [reflexivity|]; split; [reflexivity|];
       split; [discriminate|]; intros _; eexists; repeat split).
Qed.

Lemma trackDarkModeSwitch_sends_witness :
  exists l',
    trackDarkModeSwitch
      {| clock := fun n => Z.of_nat n;
         ingestReply := fun _ => Throw (Js.ErrorObject "503") |}
      {| polar := Some {| accessToken := "tok" |}; isDevelopment := false |}
      "u1" "s1" "light" "dark" []
      {| ingested := []; clockReads := 0 |}
    = (Return tt, l')
    /\ List.length (ingested l') = 1%nat.
Proof.
  destruct (trackDarkModeSwitch_sends
              {| clock := fun n => Z.of_nat n;
                 ingestReply := fun _ => Throw (Js.ErrorObject "503") |}
              (envOf [("POLAR_ACCESS_TOKEN", "tok")])
              {| polar := Some {| accessToken := "tok" |}; isDevelopment := false |}
              "u1" "s1" "light" "dark" []
              {| ingested := []; clockReads := 0 |} eq_refl)
    as (l' & Hrun & _ & _ & Hsend).
  exists l'. split; [exact Hrun|].
  destruct (Hsend eq_refl) as (event & Hing & _). rewrite Hing. reflexivity.
Defined.

(** X21. The metadata of the caller is spread last over the literal of the
    event: a key of the caller replaces the value the tracker computed, so a
    caller that passes [billable_amount] sets the amount billed, which is 1
    otherwise. *)
Theorem caller_metadata_overrides (now : Z) (userId sessionId fromTheme toTheme : string)
    (extra : JsMap.t Value) :
  NoDup (JsMap.keys extra) ->
  let event := darkModeEvent now userId sessionId fromTheme toTheme extra in
  (forall k v, JsMap.get k extra = Some v -> JsMap.get k (metadata event) = Some v)
  /\ (JsMap.get "billable_amount" extra = None ->
      JsMap.get "billable_amount" (metadata event) = Some (VNumber 1)).
Proof.
  intros Hnd. cbv zeta. unfold darkModeEvent. simpl metadata. split.
  - intros k v Hget. now apply get_spread_present.
  - intros Hnone. rewrite get_spread_absent by assumption. reflexivity.
Qed.

Lemma caller_metadata_overrides_witness :
  JsMap.get "billable_amount"
    (metadata (darkModeEvent 0 "u1" "s1" "light" "dark"
                 [("billable_amount", VNumber 0)]))
  = Some (VNumber 0).
Proof.
  assert (Hnd : NoDup (JsMap.keys [("billable_amount", VNumber 0)])).
  { simpl. repeat constructor. intros []. }
  destruct (caller_metadata_overrides 0 "u1" "s1" "light" "dark"
              [("billable_amount", VNumber 0)] Hnd) as [Hover _].
  now apply Hover.
Defined.

End PolarFacts.

(** ** A termination in flight *)

(** Run without interruption, the two pieces of [terminateSandbox] are the
    method itself. *)
Lemma terminateSandbox_phases (env : Env) (chatSessionId : string) (w : World) :
  terminateSandbox env chatSessionId w
  = (pending <- terminateSandbox_begin env chatSessionId ;;
     match pending with
     | Some reply => terminateSandbox_resume chatSessionId reply
     | None => ret tt
     end) w.
Proof.
  unfold terminateSandbox, terminateSandbox_begin, terminateSandbox_resume,
    Sandbox_kill.
  run_monad.
  destruct (JsMap.get chatSessionId (sandboxCache w)) as [entry|];
    cbv beta iota; [|reflexivity].
  destruct (killReply env (List.length (requests w)) (sandbox entry)); reflexivity.
Qed.

Lemma getOrCreateSandbox_begin_reuses (env : Env) (chatSessionId : string)
    (w : World) (entry : SandboxCacheEntry) :
  JsMap.get chatSessionId (sandboxCache w) = Some entry ->
  validAt (clock env (clockReads w)) entry = true ->
  getOrCreateSandbox_begin env chatSessionId w =
  (Return (Resolved (sandbox entry)),
   {| sandboxCache :=
        JsMap.set chatSessionId
          (touched (clock env (S (clockReads w))) entry) (sandboxCache w);
      clockReads := S (S (clockReads w));
      requests := requests w |}).
Proof.
  intros Hget Hvalid.
  unfold getOrCreateSandbox_begin, isSessionValid. run_monad.
  rewrite Hget. cbv beta iota. rewrite Hvalid. simpl.
  rewrite Hget. simpl. rewrite JsMapFacts.get_set_same.
  unfold withCache. simpl. rewrite JsMapFacts.set_set. reflexivity.
Qed.

Lemma getOrCreateSandbox_resume_settled (env : Env) (chatSessionId : string)
    (reply : Outcome E2B.Sandbox) (w : World) :
  getOrCreateSandbox_resume env chatSessionId reply w =
  match reply with
  | Return sb =>
      (Return sb,
       {| sandboxCache :=
            JsMap.set chatSessionId (newEntry env sb (clockReads w)) (sandboxCache w);
          clockReads := S (S (clockReads w));
          requests := requests w |})
  | Throw e =>
      (Throw (Js.ErrorObject
                ("Failed to create E2B sandbox: " ++ Js.messageOr "Unknown error" e)),
       w)
  end.
Proof.
  unfold getOrCreateSandbox_resume, storeNewSandbox, creationFailed. run_monad.
  destruct reply; reflexivity.
Qed.

Lemma terminateSandbox_resume_deletes (chatSessionId : string)
    (reply : Outcome unit) (w : World) :
  snd (terminateSandbox_resume chatSessionId reply w)
  = withCache (JsMap.delete chatSessionId) w.
Proof.
  unfold terminateSandbox_resume. run_monad. destruct reply; reflexivity.
Qed.

(** X22. Nothing keeps a session from being resolved while its termination
    waits for the provider.  When the entry is still valid, the call that
    arrives in between returns the very sandbox whose release has just been
    requested, and the termination, as it resumes, deletes the entry.  When
    the entry is stale, the call asks for a new sandbox while the release is
    pending, and what is left depends on which promise settles first: if
    the creation settles first, the resuming termination deletes the entry
    just stored for the new sandbox, and the session ends with no entry
    while its caller holds that sandbox; if the release settles first, the
    stale entry is deleted and the entry of the new sandbox stays.  When the
    creation fails the session ends with no entry in both orders. *)
Theorem resolve_during_termination (env : Env) (chatSessionId : string)
    (createSettlesFirst : bool) (w : World) (entry : SandboxCacheEntry) :
  JsMap.get chatSessionId (sandboxCache w) = Some entry ->
  exists o w',
    resolveDuringTermination env chatSessionId createSettlesFirst w = (o, w')
    /\ (validAt (clock env (clockReads w)) entry = true ->
        o = Return (sandbox entry)
        /\ JsMap.get chatSessionId (sandboxCache w') = None
        /\ requests w' = (requests w ++ [E2B.Kill (sandbox entry)])%list)
    /\ (validAt (clock env (clockReads w)) entry = false ->
        requests w'
        = (requests w ++ [E2B.Kill (sandbox entry); E2B.Create (timeout env)])%list
        /\ (forall sb,
              createReply env (S (List.length (requests w))) = Return sb ->
              o = Return sb
              /\ option_map sandbox (JsMap.get chatSessionId (sandboxCache w'))
                 = (if createSettlesFirst then None else Some sb))
        /\ (forall cause,
              createReply env (S (List.length (requests w))) = Throw cause ->
              o = Throw (Js.ErrorObject
                           ("Failed to create E2B sandbox: "
                            ++ Js.messageOr "Unknown error" cause))
              /\ JsMap.get chatSessionId (sandboxCache w') = None)).
Proof.
  intros Hget.
  assert (Hbegin : terminateSandbox_begin env chatSessionId w
                   = (Return (Some (killReply env (List.length (requests w))
                                      (sandbox entry))),
                      sent (E2B.Kill (sandbox entry)) w)).
  { unfold terminateSandbox_begin. run_monad. now rewrite Hget. }
  unfold resolveDuringTermination. rewrite Hbegin. cbv zeta. cbn [fst snd].
  set (w1 := sent (E2B.Kill (sandbox entry)) w).
  assert (Hget1 : JsMap.get chatSessionId (sandboxCache w1) = Some entry)
    by exact Hget.
  destruct (validAt (clock env (clockReads w)) entry) eqn:Hvalid.
  - rewrite (getOrCreateSandbox_begin_reuses env chatSessionId w1 entry Hget1 Hvalid).
    cbn [fst snd]. rewrite terminateSandbox_resume_deletes.
    eexists; eexists; split; [reflexivity|]. simpl.
    split; [|discriminate].
    intros _. split; [reflexivity|].
    split; [apply JsMapFacts.get_delete_same | reflexivity].
  - assert (Hno : noValidEntry env chatSessionId w1 = true).
    { unfold noValidEntry. rewrite Hget1. simpl. now rewrite Hvalid. }
    rewrite (getOrCreateSandbox_begin_awaits env chatSessionId w1 Hno).
    cbn [fst snd].
    assert (Hlen : List.length (requests w1) = S (List.length (requests w))).
    { simpl. rewrite length_app. simpl. lia. }
    rewrite Hlen.
    assert (Hreq : requests (afterLookup chatSessionId w1)
                   = (requests w ++ [E2B.Kill (sandbox entry)])%list)
      by (rewrite requests_afterLookup; reflexivity).
    destruct createSettlesFirst.
    + rewrite getOrCreateSandbox_resume_settled.
      destruct (createReply env (S (List.length (requests w)))) as [sb|e];
        cbn [fst snd]; rewrite terminateSandbox_resume_deletes;
        (eexists; eexists; split; [reflexivity|]); simpl;
        (split; [discriminate|]); intros _; rewrite Hreq, <- app_assoc;
        (split; [reflexivity|]); split.
      * intros sb' [= <-]. split; [reflexivity|].
        now rewrite JsMapFacts.get_delete_same.
      * intros cause Hc. discriminate Hc.
      * intros sb' Hc. discriminate Hc.
      * intros cause [= <-]. split; [reflexivity|].
        apply JsMapFacts.get_delete_same.
    + rewrite terminateSandbox_resume_deletes, getOrCreateSandbox_resume_settled.
      destruct (createReply env (S (List.length (requests w)))) as [sb|e];
        (eexists; eexists; split; [reflexivity|]); simpl;
        (split; [discriminate|]); intros _; rewrite Hreq, <- app_assoc;
        (split; [reflexivity|]); split.
      * intros sb' [= <-]. split; [reflexivity|].
        now rewrite JsMapFacts.get_set_same.
      * intros cause Hc. discriminate Hc.
      * intros sb' Hc. discriminate Hc.
      * intros cause [= <-]. split; [reflexivity|].
        apply JsMapFacts.get_delete_same.
Qed.

Lemma resolve_during_termination_witness :
  (exists w',
      resolveDuringTermination Demo.healthy "s" true Demo.oneSession
      = (Return Demo.sbx1, w')
      /\ JsMap.get "s" (sandboxCache w') = None
      /\ requests w' = [E2B.Create 120000; E2B.Kill Demo.sbx1])
  /\ (exists w',
        resolveDuringTermination Demo.slow "s" true Demo.oneSession
        = (Return Demo.sbx3, w')
        /\ option_map sandbox (JsMap.get "s" (sandboxCache w')) = None)
  /\ (exists w',
        resolveDuringTermination Demo.slow "s" false Demo.oneSession
        = (Return Demo.sbx3, w')
        /\ option_map sandbox (JsMap.get "s" (sandboxCache w')) = Some Demo.sbx3).
Proof.
  split; [|split].
  - destruct (resolve_during_termination Demo.healthy "s" true Demo.oneSession
                Demo.oldEntry eq_refl)
      as (o & w' & Hrun & Hvalid & _).
    destruct (Hvalid eq_refl) as (-> & Hgone & Hreq).
    exists w'. split; [exact Hrun|]. split; [exact Hgone | exact Hreq].
  - destruct (resolve_during_termination Demo.slow "s" true Demo.oneSession
                Demo.oldEntry eq_refl)
      as (o & w' & Hrun & _ & Hstale).
    destruct (Hstale eq_refl) as (_ & Hcreated & _).
    destruct (Hcreated Demo.sbx3 eq_refl) as [-> Hleft].
    exists w'. split; [exact Hrun | exact Hleft].
  - destruct (resolve_during_termination Demo.slow "s" false Demo.oneSession
                Demo.oldEntry eq_refl)
      as (o & w' & Hrun & _ & Hstale).
    destruct (Hstale eq_refl) as (_ & Hcreated & _).
    destruct (Hcreated Demo.sbx3 eq_refl) as [-> Hleft].
    exists w'. split; [exact Hrun | exact Hleft].
Defined.

(** ** Statistics and the sweep *)

Lemma kept_expired_lengths (env : Env) (m : JsMap.t SandboxCacheEntry) :
  forall n,
    List.length (activeFrom env n (JsMap.values m)) = List.length (keptFrom env n m)
    /\ (List.length (keptFrom env n m) + List.length (expiredFrom env n m)
        = List.length m)%nat.
Proof.
  induction m as [|[k entry] m IH]; intros n; simpl; [split; reflexivity|].
  destruct (IH (S n)) as [H1 H2].
  destruct (validAt (clock env n) entry); simpl; split; lia.
Qed.

(** X23. The statistics and the sweep agree: taken in the same world,
    [activeSessions] is the number of entries a sweep leaves in the store,
    and [totalSessions - activeSessions] is the number of releases the sweep
    requests. *)
Theorem stats_agree_with_sweep (env : Env) (w : World) :
  NoDup (JsMap.keys (sandboxCache w)) ->
  exists st w1 w2,
    getCacheStats env w = (Return st, w1)
    /\ cleanupExpiredSessions env w = (Return tt, w2)
    /\ activeSessions st = Z.of_nat (List.length (sandboxCache w2))
    /\ totalSessions st - activeSessions st
       = Z.of_nat (List.length (requests w2)) - Z.of_nat (List.length (requests w)).
Proof.
  intros Hnd. rewrite getCacheStats_counts, (cleanupExpiredSessions_world env w Hnd).
  eexists; eexists; eexists; split; [reflexivity|]. split; [reflexivity|]. simpl.
  destruct (kept_expired_lengths env (sandboxCache w) (clockReads w)) as [H1 H2].
  rewrite length_app, length_map. split; lia.
Qed.

Lemma stats_agree_with_sweep_witness :
  exists st w1 w2,
    getCacheStats Demo2.later Demo2.twoSessions = (Return st, w1)
    /\ cleanupExpiredSessions Demo2.later Demo2.twoSessions = (Return tt, w2)
    /\ activeSessions st = 1
    /\ List.length (sandboxCache w2) = 1%nat.
Proof.
  assert (Hnd : NoDup (JsMap.keys (sandboxCache Demo2.twoSessions))).
  { simpl. repeat constructor; simpl; intuition discriminate. }
  destruct (stats_agree_with_sweep Demo2.later Demo2.twoSessions Hnd)
    as (st & w1 & w2 & Hstats & Hsweep & Hactive & _).
  exists st, w1, w2. split; [exact Hstats|]. split; [exact Hsweep|].
  vm_compute in Hsweep. injection Hsweep as <-.
  split; [rewrite Hactive|]; reflexivity.
Defined.
